(** * Collection manager: a shallow embedding of [collection_manager/manager.py]

    The manager keeps a directory of small text documents together with an
    in-memory metadata index that is persisted as [index.json].  This file
    embeds the manager's operations as state-passing functions over a model
    of the collection directory and proves (or refutes) the properties the
    specification states about them.

    Modelling conventions
    - Text is modelled with Rocq's [string], which holds the UTF-8 bytes of
      a Python [str]; line breaks, separators and the literal substring test
      are the same on the bytes as on the characters.
    - [str.lower] is library code and is taken as a parameter where the
      manager lowers text it is given; [lower] is what it does on ASCII text.
    - The class [\w] of the regular expression is modelled on ASCII
      characters, where it is [A-Za-z0-9_]; a name with other characters in
      its basename is outside the names the model speaks of.
    - Paths are lists of components; the operating system resolves them
      lexically (no symbolic links).
    - Time stamps are modelled by the instant they denote; the ISO text that
      [isoformat] produces is not modelled.
    - [json.dump] and [json.load] are library code and taken as parameters. *)

From Stdlib Require Import Ascii String.
From stdpp Require Import gmap strings list sorting.

Open Scope string_scope.
Open Scope list_scope.
Open Scope nat_scope.

(** ** Characters and strings *)

Definition LF : ascii := "010"%char.
Definition CR : ascii := "013"%char.
Definition SEP : ascii := "/"%char.

Definition nl : string := String LF "".

(** [str.rstrip("\n")]: drop every trailing line feed. *)
Fixpoint rstrip_nl (s : string) : string :=
  match s with
  | "" => ""
  | String c r =>
      match rstrip_nl r with
      | "" => if Ascii.eqb c LF then "" else String c ""
      | r' => String c r'
      end
  end.

(** [c in s] for a single character. *)
Fixpoint has_char (c : ascii) (s : string) : bool :=
  match s with
  | "" => false
  | String d r => Ascii.eqb c d || has_char c r
  end.

(** [str.lower] on ASCII text. *)
Definition lower_char (c : ascii) : ascii :=
  let n := nat_of_ascii c in
  if ((65 <=? n) && (n <=? 90))%nat then ascii_of_nat (n + 32)%nat else c.

Fixpoint lower (s : string) : string :=
  match s with
  | "" => ""
  | String c r => String (lower_char c) (lower r)
  end.

(** [needle in hay]: literal substring test. *)
Fixpoint str_contains (needle hay : string) : bool :=
  String.prefix needle hay ||
  match hay with
  | "" => false
  | String _ r => str_contains needle r
  end.

(** ** Names *)

Definition MAX_FILES : nat := 100.
Definition INDEX_FILENAME : string := "index.json".

(** The character class [[\w\-. ]] of [FILENAME_RE]. *)
Definition is_word_char (c : ascii) : bool :=
  let n := nat_of_ascii c in
  (((48 <=? n) && (n <=? 57)) || ((65 <=? n) && (n <=? 90)) ||
   ((97 <=? n) && (n <=? 122)) || (n =? 95))%nat.

Definition filename_char (c : ascii) : bool :=
  is_word_char c || Ascii.eqb c "-" || Ascii.eqb c "." || Ascii.eqb c " ".

(** [FILENAME_RE.match(s)] for [^[\w\-. ]+$]: one or more characters of the
    class, up to the end of the string; Python's [$] also matches just before
    a line feed that ends the string. *)
Fixpoint FILENAME_RE_match (s : string) : bool :=
  match s with
  | "" => false
  | String c r =>
      filename_char c &&
      match r with
      | "" => true
      | String _ _ => String.eqb r nl || FILENAME_RE_match r
      end
  end.

(** [os.path.basename] (POSIX): what follows the last separator. *)
Fixpoint basename (p : string) : string :=
  match p with
  | "" => ""
  | String c r =>
      if has_char SEP r then basename r
      else if Ascii.eqb c SEP then r else p
  end.

(** ** Exceptions *)

Inductive exn : Type :=
  | ValueError (msg : string)
  | RuntimeError (msg : string)
  | FileExistsError
  | FileNotFoundError
  | IndexError
  | IsADirectoryError
  | OSError.

Global Instance exn_eq_dec : EqDecision exn.
Proof. solve_decision. Defined.

Definition MSG_INVALID : string :=
  "Invalid filename. Allowed: letters, numbers, underscore, dash, dot, space.".
Definition MSG_RESERVED : string := "Filename reserved".
Definition MSG_LINE_NO : string := "line_no must be >= 1".
Definition MSG_FULL : string := "Cannot create file: maximum of 100 files reached.".

(** The error kinds of the specification, and the kind each exception of the
    code stands for.  Both name errors and the line-number error are a
    [ValueError] in the code; the message tells them apart. *)
Inductive error_kind : Type :=
  | InvalidName | CollectionFull | AlreadyExists | NotFound
  | InvalidArgument | OutOfRange | IOFailure.

Definition kind_of (e : exn) : error_kind :=
  match e with
  | ValueError m => if decide (m = MSG_LINE_NO) then InvalidArgument else InvalidName
  | RuntimeError _ => CollectionFull
  | FileExistsError => AlreadyExists
  | FileNotFoundError => NotFound
  | IndexError => OutOfRange
  | IsADirectoryError => IOFailure
  | OSError => IOFailure
  end.

Inductive result (A : Type) : Type :=
  | Ok (a : A)
  | Raise (e : exn).
Arguments Ok {A} a.
Arguments Raise {A} e.

(** [CollectionManager._sanitize_filename] *)
Definition _sanitize_filename (name : string) : result string :=
  let base := basename name in
  if bool_decide (base = "") || negb (FILENAME_RE_match base) then
    Raise (ValueError MSG_INVALID)
  else if decide (base = INDEX_FILENAME) then
    Raise (ValueError MSG_RESERVED)
  else Ok base.

(** ** Paths *)

Definition Path : Type := list string.

(** [PurePath.__truediv__] with one component that holds no separator:
    pathlib drops a [.] component and keeps every other one, [..] included. *)
Definition joinpath (p : Path) (c : string) : Path :=
  if decide (c = ".") then p else p ++ [c].

(** [PurePath.name]: the last component. *)
Definition path_name (p : Path) : string := List.last p "".

(** The directory a path denotes once the operating system has followed its
    [..] components (at the root, [..] stays at the root). *)
Fixpoint resolve_from (seen : list string) (p : Path) : list string :=
  match p with
  | [] => List.rev seen
  | c :: r =>
      if decide (c = "..") then resolve_from (List.tl seen) r
      else resolve_from (c :: seen) r
  end.

Definition resolve (p : Path) : list string := resolve_from [] p.

Fixpoint strip_prefix (d p : list string) : option (list string) :=
  match d, p with
  | [], _ => Some p
  | _ :: _, [] => None
  | x :: d', y :: p' => if decide (x = y) then strip_prefix d' p' else None
  end.

(** Where a path lands with respect to the collection directory [d]: on an
    entry directly inside it, or elsewhere. *)
Inductive place : Type :=
  | Inside (n : string)
  | Outside.

Definition locate (d p : Path) : place :=
  match strip_prefix (resolve d) (resolve p) with
  | Some [n] => Inside n
  | _ => Outside
  end.

(** ** Documents as text *)

(** Reading in text mode translates the line endings [\r\n] and [\r] to
    [\n] (universal newlines). *)
Fixpoint universal_newlines (s : string) : string :=
  match s with
  | "" => ""
  | String c r =>
      if Ascii.eqb c CR then
        match r with
        | "" => nl
        | String d r' =>
            if Ascii.eqb d LF then String LF (universal_newlines r')
            else String LF (universal_newlines r)
        end
      else String c (universal_newlines r)
  end.

(** Iterating over translated text: every line keeps its line feed; the last
    one has none when the text does not end with one. *)
Fixpoint split_lines (s : string) : list string :=
  match s with
  | "" => []
  | String c r =>
      if Ascii.eqb c LF then nl :: split_lines r
      else match split_lines r with
           | [] => [String c ""]
           | l :: ls => String c l :: ls
           end
  end.

(** [fh.readlines()], also [for line in fh]. *)
Definition readlines (content : string) : list string :=
  split_lines (universal_newlines content).

(** [fh.writelines(lines)] on a stream just opened: the text written. *)
Definition joined (lines : list string) : string :=
  foldr String.app "" lines.

(** ** Metadata, the index and the directory *)

Definition time : Type := nat.

Record FileMeta : Type := mkFileMeta {
  filename : string;
  created_at : time;
  last_modified : time;
  size : nat;
  tags : list string
}.

Global Instance FileMeta_eq_dec : EqDecision FileMeta.
Proof. solve_decision. Defined.

(** A Python [dict] keeps its keys in insertion order: an association list
    with at most one pair per key. *)
Section Dict.
Context {V : Type}.

(** [d.get(k)] *)
Fixpoint dict_get (d : list (string * V)) (k : string) : option V :=
  match d with
  | [] => None
  | (k', v) :: r => if decide (k' = k) then Some v else dict_get r k
  end.

(** [d[k] = v]: in place for a key already there, at the end otherwise. *)
Fixpoint dict_set (d : list (string * V)) (k : string) (v : V) : list (string * V) :=
  match d with
  | [] => [(k, v)]
  | (k', v') :: r =>
      if decide (k' = k) then (k, v) :: r else (k', v') :: dict_set r k v
  end.

(** [del d[k]] *)
Fixpoint dict_del (d : list (string * V)) (k : string) : list (string * V) :=
  match d with
  | [] => []
  | (k', v') :: r => if decide (k' = k) then r else (k', v') :: dict_del r k
  end.

(** [k in d] *)
Definition dict_has (d : list (string * V)) (k : string) : bool :=
  bool_decide (is_Some (dict_get d k)).

Definition dict_keys (d : list (string * V)) : list string := d.*1.
Definition dict_values (d : list (string * V)) : list V := d.*2.
End Dict.

(** An entry of the collection directory. *)
Inductive node : Type :=
  | File (content : string) (st_ctime st_mtime : time)
  | Dir.

Global Instance node_eq_dec : EqDecision node.
Proof. solve_decision. Defined.

(** The manager together with its directory: [entries] are the children of
    [data_dir] on disk, [_index] is the attribute [self._index]. *)
Record state : Type := mkState {
  entries : gmap string node;
  _index : list (string * FileMeta)
}.

Definition with_entries (f : gmap string node → gmap string node) (s : state) : state :=
  mkState (f (entries s)) (_index s).
Definition with_index (f : list (string * FileMeta) → list (string * FileMeta))
    (s : state) : state :=
  mkState (entries s) (f (_index s)).

(** ** Computations that change the state and may raise *)

Definition M (A : Type) : Type := state → result A * state.

Definition ret {A} (a : A) : M A := λ s, (Ok a, s).
Definition raise {A} (e : exn) : M A := λ s, (Raise e, s).
Definition bind {A B} (m : M A) (k : A → M B) : M B :=
  λ s, match m s with
       | (Ok a, s') => k a s'
       | (Raise e, s') => (Raise e, s')
       end.
Definition gets {A} (f : state → A) : M A := λ s, (Ok (f s), s).
Definition modify (f : state → state) : M unit := λ s, (Ok tt, f s).

Notation "'do' x <- m ; k" := (bind m (λ x, k))
  (at level 10, x name, m at level 100, k at level 200).
Notation "'do_' m ; k" := (bind m (λ _, k))
  (at level 10, m at level 100, k at level 200).

(** [PurePath.with_suffix] for a name with an interior dot: the part up to
    the last dot, then the new suffix. *)
Fixpoint stem (n : string) : string :=
  match n with
  | "" => ""
  | String c r =>
      if has_char "." r then String c (stem r)
      else if Ascii.eqb c "." then "" else n
  end.

Fixpoint with_suffix (p : Path) (suffix : string) : Path :=
  match p with
  | [] => []
  | [n] => [stem n +:+ suffix]
  | c :: r => c :: with_suffix r suffix
  end.

(** [data_dir.iterdir()], by name; the order is the file system's. *)
Definition iterdir (m : gmap string node) : list string := (map_to_list m).*1.

(** [sorted(data_dir.iterdir())] *)
Definition sorted_iterdir (m : gmap string node) : list string :=
  merge_sort String.le (iterdir m).

Definition is_regular (o : option node) : bool :=
  match o with
  | Some (File _ _ _) => true
  | _ => false
  end.

(** [p.is_file() and p.name != INDEX_FILENAME] for the entry named [n]. *)
Definition is_document (m : gmap string node) (n : string) : bool :=
  is_regular (m !! n) && negb (bool_decide (n = INDEX_FILENAME)).

(** ** The manager *)

Section Manager.

(** The collection directory, and the serialiser of the index. *)
Variable data_dir : Path.
Variable json_dump : list (string * FileMeta) → string.

(** [str.lower] *)
Variable str_lower : string → string.

Definition index_path : Path := joinpath data_dir INDEX_FILENAME.

(** *** File system calls

    A path that does not land on an entry of the collection directory lands
    on the directory itself or on its parent: an existing directory. *)

Definition lookup_path (p : Path) (s : state) : option node :=
  match locate data_dir p with
  | Inside n => entries s !! n
  | Outside => Some Dir
  end.

(** [path.exists()] *)
Definition path_exists (p : Path) : M bool :=
  gets (λ s, bool_decide (is_Some (lookup_path p s))).

(** [path.stat()]: size, change time and modification time.  The manager
    calls it on regular files only. *)
Definition path_stat (p : Path) : M (nat * time * time) :=
  λ s, match lookup_path p s with
       | Some (File c ct mt) => (Ok (String.length c, ct, mt), s)
       | Some Dir => (Ok (0, 0, 0), s)
       | None => (Raise FileNotFoundError, s)
       end.

(** [path.open("r")] and reading the whole text. *)
Definition read_text (p : Path) : M string :=
  λ s, match lookup_path p s with
       | Some (File c _ _) => (Ok c, s)
       | Some Dir => (Raise IsADirectoryError, s)
       | None => (Raise FileNotFoundError, s)
       end.

(** [path.open("w")] followed by writing [text]: the file is created or
    replaced. *)
Definition write_text (now : time) (p : Path) (text : string) : M unit :=
  λ s, match locate data_dir p with
       | Outside => (Raise IsADirectoryError, s)
       | Inside n =>
           match entries s !! n with
           | Some Dir => (Raise IsADirectoryError, s)
           | _ => (Ok tt, with_entries (<[n := File text now now]>) s)
           end
       end.

(** [path.open("a")] followed by writing [text]: nothing is written, and the
    file keeps its times, when [text] is empty. *)
Definition append_text (now : time) (p : Path) (text : string) : M unit :=
  λ s, match locate data_dir p with
       | Outside => (Raise IsADirectoryError, s)
       | Inside n =>
           match entries s !! n with
           | Some Dir => (Raise IsADirectoryError, s)
           | Some (File c _ _) =>
               if bool_decide (text = "") then (Ok tt, s)
               else (Ok tt, with_entries (<[n := File (c +:+ text) now now]>) s)
           | None => (Ok tt, with_entries (<[n := File text now now]>) s)
           end
       end.

(** [path.unlink()] *)
Definition unlink (p : Path) : M unit :=
  λ s, match locate data_dir p with
       | Outside => (Raise IsADirectoryError, s)
       | Inside n =>
           match entries s !! n with
           | Some Dir => (Raise IsADirectoryError, s)
           | Some (File _ _ _) => (Ok tt, with_entries (delete n) s)
           | None => (Raise FileNotFoundError, s)
           end
       end.

(** [src.replace(dst)]: an atomic rename over [dst]. *)
Definition replace (src dst : Path) : M unit :=
  λ s, match locate data_dir src, locate data_dir dst with
       | Inside a, Inside b =>
           match entries s !! a, entries s !! b with
           | None, _ => (Raise FileNotFoundError, s)
           | Some Dir, _ => (Raise IsADirectoryError, s)
           | Some (File _ _ _), Some Dir => (Raise IsADirectoryError, s)
           | Some f, _ => (Ok tt, with_entries (λ m, <[b := f]> (delete a m)) s)
           end
       | _, _ => (Raise IsADirectoryError, s)
       end.

(** *** Index persistence *)

(** [CollectionManager._write_index] *)
Definition _write_index (now : time) : M unit :=
  let tmp := with_suffix index_path ".tmp" in
  do idx <- gets _index;
  do_ write_text now tmp (json_dump idx);
  replace tmp index_path.

(** The metadata [_rebuild_index] derives from the file system. *)
Definition scanned_meta (n : string) (c : string) (ct mt : time) : FileMeta :=
  mkFileMeta n ct mt (String.length c) [].

Definition rebuild_step (m : gmap string node)
    (idx : list (string * FileMeta)) (n : string) : list (string * FileMeta) :=
  match m !! n with
  | Some (File c ct mt) =>
      if bool_decide (n = INDEX_FILENAME) then idx
      else dict_set idx n (scanned_meta n c ct mt)
  | _ => idx
  end.

(** [CollectionManager._rebuild_index] *)
Definition _rebuild_index (now : time) : M unit :=
  do_ modify (with_index (λ _, []));
  do m <- gets entries;
  do_ modify (with_index (λ _, foldl (rebuild_step m) [] (sorted_iterdir m)));
  _write_index now.

(** [CollectionManager._load_index].  [json_load] stands for [json.load]
    followed by the construction of the [FileMeta] records, in the order of
    the file; it gives [None] when either raises.  Any exception in the
    [try] block leads to a rebuild. *)
Variable json_load : string → option (list (string * FileMeta)).

Definition _load_index (now : time) : M unit :=
  do present <- path_exists index_path;
  if present then
    λ s, match read_text index_path s with
         | (Ok text, s') =>
             match json_load text with
             | Some raw =>
                 (Ok tt, with_index (λ idx,
                    foldl (λ d kv, dict_set d kv.1 kv.2) idx raw) s')
             | None => _rebuild_index now s'
             end
         | (Raise _, s') => _rebuild_index now s'
         end
  else _rebuild_index now.

(** [CollectionManager.__init__] over a directory that exists. *)
Definition __init__ (now : time) : M unit :=
  do_ modify (with_index (λ _, []));
  _load_index now.

(** *** Utilities *)

(** [CollectionManager._file_path] *)
Definition _file_path (name : string) : result Path :=
  match _sanitize_filename name with
  | Ok fname => Ok (joinpath data_dir fname)
  | Raise e => Raise e
  end.

Definition lift {A} (r : result A) : M A := λ s, (r, s).

(** [CollectionManager._update_meta_for] *)
Definition _update_meta_for (now : time) (path : Path) : M unit :=
  do st <- path_stat path;
  do idx <- gets _index;
  let meta :=
    match dict_get idx (path_name path) with
    | None => mkFileMeta (path_name path) now now st.1.1 []
    | Some meta => mkFileMeta (filename meta) (created_at meta) now st.1.1 (tags meta)
    end in
  do_ modify (with_index (λ idx, dict_set idx (path_name path) meta));
  _write_index now.

(** *** Public operations *)

(** [CollectionManager.list_files] *)
Definition list_files (now : time) : M (list FileMeta) :=
  do_ _rebuild_index now;
  gets (λ s, dict_values (_index s)).

Definition files_count (m : gmap string node) : nat :=
  length (filter (λ n, is_document m n) (iterdir m)).

(** [CollectionManager.create_file] *)
Definition create_file (now : time) (name : string) (overwrite : bool) : M unit :=
  do m <- gets entries;
  if MAX_FILES <=? files_count m then raise (RuntimeError MSG_FULL)
  else
    do path <- lift (_file_path name);
    do present <- path_exists path;
    if present && negb overwrite then raise FileExistsError
    else
      do_ write_text now path "";
      _update_meta_for now path.

(** [CollectionManager.show_file] *)
Definition show_file (name : string) : M (list string) :=
  do path <- lift (_file_path name);
  do present <- path_exists path;
  if negb present then raise FileNotFoundError
  else
    do text <- read_text path;
    ret (rstrip_nl <$> readlines text).

(** [CollectionManager.add_lines] *)
Definition add_lines (now : time) (name : string) (lines : list string) : M unit :=
  do path <- lift (_file_path name);
  do present <- path_exists path;
  if negb present then raise FileNotFoundError
  else
    do_ append_text now path (joined ((λ line, rstrip_nl line +:+ nl) <$> lines));
    _update_meta_for now path.

(** [CollectionManager.remove_file] *)
Definition remove_file (now : time) (name : string) : M unit :=
  do path <- lift (_file_path name);
  do present <- path_exists path;
  if negb present then raise FileNotFoundError
  else
    do_ unlink path;
    do idx <- gets _index;
    if dict_has idx name then
      do_ modify (with_index (λ idx, dict_del idx name));
      _write_index now
    else ret tt.

(** [lines.pop(i)] for [0 <= i < len(lines)]. *)
Definition pop {A} (i : nat) (l : list A) : option (A * list A) :=
  match l !! i with
  | Some x => Some (x, take i l ++ drop (S i) l)
  | None => None
  end.

(** [with path.open("w") as fh: fh.writelines(lines)]: opening truncates
    the file, then the lines are written one after the other.  With
    [fault = Some k] the storage fails once [k] lines are written (a full
    disk, say) and the call raises. *)
Definition rewrite_lines (fault : option nat) (now : time) (path : Path)
    (lines : list string) : M unit :=
  match fault with
  | None => write_text now path (joined lines)
  | Some k =>
      do_ write_text now path (joined (take k lines));
      raise OSError
  end.

(** [CollectionManager.remove_line], with the fault the rewrite may meet. *)
Definition remove_line_faulty (fault : option nat) (now : time) (name : string)
    (line_no : Z) : M string :=
  if (line_no <? 1)%Z then raise (ValueError MSG_LINE_NO)
  else
    do path <- lift (_file_path name);
    do present <- path_exists path;
    if negb present then raise FileNotFoundError
    else
      do text <- read_text path;
      let lines := readlines text in
      if (Z.of_nat (length lines) <? line_no)%Z then raise IndexError
      else
        match pop (Z.to_nat (line_no - 1)) lines with
        | None => raise IndexError
        | Some (removed, rest) =>
            do_ rewrite_lines fault now path rest;
            do_ _update_meta_for now path;
            ret (rstrip_nl removed)
        end.

(** [CollectionManager.remove_line] *)
Definition remove_line : time → string → Z → M string :=
  remove_line_faulty None.

(** [CollectionManager._write_index] when the storage fails after [k]
    characters of the serialised index are written: the rename is not
    reached. *)
Definition _write_index_faulty (k : nat) (now : time) : M unit :=
  let tmp := with_suffix index_path ".tmp" in
  do idx <- gets _index;
  do_ write_text now tmp (String.substring 0 k (json_dump idx));
  raise OSError.

(** One file of [find_text]: the matching lines, numbered from 1. *)
Definition scan_file (needle : string) (ignore_case : bool) (fname : string)
    (lines : list string) : list (string * nat * string) :=
  mjoin (imap (λ i line,
    let hay := if ignore_case then str_lower line else line in
    if str_contains needle hay then [(fname, S i, rstrip_nl line)] else []) lines).

(** [CollectionManager.find_text] *)
Definition find_text (text : string) (ignore_case : bool) : M (list (string * nat * string)) :=
  let needle := if ignore_case then str_lower text else text in
  do m <- gets entries;
  ret (mjoin ((λ n,
    match m !! n with
    | Some (File c _ _) =>
        if bool_decide (n = INDEX_FILENAME) then []
        else scan_file needle ignore_case n (readlines c)
    | _ => []
    end) <$> sorted_iterdir m)).

(** [CollectionManager.get_meta] *)
Definition get_meta (name : string) : M (option FileMeta) :=
  do name <- lift (_sanitize_filename name);
  gets (λ s, dict_get (_index s) name).

(** [tags.remove(tag)]: the first occurrence goes. *)
Fixpoint list_remove_first (tag : string) (l : list string) : list string :=
  match l with
  | [] => []
  | t :: r => if decide (t = tag) then r else t :: list_remove_first tag r
  end.

Definition set_tags (meta : FileMeta) (ts : list string) : FileMeta :=
  mkFileMeta (filename meta) (created_at meta) (last_modified meta) (size meta) ts.

(** [CollectionManager.add_tag].  [meta] is the object held by the index:
    appending to its tag list changes the index entry under the sanitized
    name. *)
Definition add_tag (now : time) (name : string) (tag : string) : M unit :=
  do o <- get_meta name;
  match o with
  | None => raise FileNotFoundError
  | Some meta =>
      if bool_decide (tag ∈ tags meta) then ret tt
      else
        do_ modify (with_index (λ idx,
              dict_set idx (basename name) (set_tags meta (tags meta ++ [tag]))));
        _write_index now
  end.

(** [CollectionManager.remove_tag] *)
Definition remove_tag (now : time) (name : string) (tag : string) : M unit :=
  do o <- get_meta name;
  match o with
  | None => raise FileNotFoundError
  | Some meta =>
      if bool_decide (tag ∈ tags meta) then
        do_ modify (with_index (λ idx,
              dict_set idx (basename name) (set_tags meta (list_remove_first tag (tags meta)))));
        _write_index now
      else ret tt
  end.

End Manager.

(** ** Notions the properties are stated with *)

(** The temporary file of [_write_index]. *)
Definition TMP_FILENAME : string := "index.tmp".

(** The entry [_rebuild_index] makes for the directory entry named [n]. *)
Definition scan (m : gmap string node) (n : string) : option (string * FileMeta) :=
  match m !! n with
  | Some (File c ct mt) =>
      if bool_decide (n = INDEX_FILENAME) then None
      else Some (n, scanned_meta n c ct mt)
  | _ => None
  end.

(** The index a rebuild produces, in dictionary order. *)
Definition rebuilt_index (m : gmap string node) : list (string * FileMeta) :=
  omap (scan m) (sorted_iterdir m).

(** The invariant of the specification: the index has exactly one entry per
    regular file of the directory other than the index file, and no other
    entry. *)
Definition index_mirrors_disk (s : state) : Prop :=
  dict_keys (_index s) ≡ₚ filter (λ n, is_document (entries s) n) (iterdir (entries s)).

Global Instance index_mirrors_disk_dec s : Decision (index_mirrors_disk s).
Proof. unfold index_mirrors_disk. apply _. Defined.

(** The index mirrors the directory and no [index.tmp] is there. *)
Definition in_step (s : state) : Prop :=
  index_mirrors_disk s ∧ entries s !! TMP_FILENAME = None.

(** The text is empty or ends with a line feed. *)
Fixpoint ends_with_lf (s : string) : bool :=
  match s with
  | "" => false
  | String c r => match r with "" => Ascii.eqb c LF | _ => ends_with_lf r end
  end.

Definition terminated (s : string) : bool :=
  match s with "" => true | _ => ends_with_lf s end.

(** A line as [add_lines] writes it. *)
Definition normalized (line : string) : string := rstrip_nl line +:+ nl.

(** A line that holds no line break once its trailing line feeds are gone. *)
Definition single_line (line : string) : Prop :=
  has_char LF (rstrip_nl line) = false ∧ has_char CR (rstrip_nl line) = false.

Global Instance single_line_dec line : Decision (single_line line).
Proof. unfold single_line. apply _. Defined.

(** Results are ordered by file name, then by line number. *)
Definition name_lt (a b : string) : Prop := String.le a b ∧ a ≠ b.

Definition hit_lt (x y : string * nat * string) : Prop :=
  name_lt x.1.1 y.1.1 ∨ (x.1.1 = y.1.1 ∧ x.1.2 < y.1.2).

Definition fold_case (str_lower : string → string) (ignore_case : bool)
    (s : string) : string :=
  if ignore_case then str_lower s else s.

(** The hits of [find_text] in one directory entry. *)
Definition file_hits (str_lower : string → string) (m : gmap string node)
    (needle : string) (ignore_case : bool) (n : string) :
    list (string * nat * string) :=
  match m !! n with
  | Some (File c _ _) =>
      if bool_decide (n = INDEX_FILENAME) then []
      else scan_file str_lower needle ignore_case n (readlines c)
  | _ => []
  end.

(** The hit, if any, of the line at position [k + i]. *)
Definition hit_at (str_lower : string → string) (needle : string) (ic : bool)
    (n : string) (k i : nat) (line : string) : list (string * nat * string) :=
  if str_contains needle (fold_case str_lower ic line)
  then [(n, S (k + i), rstrip_nl line)] else [].

(** ** A sample collection

    A manager over an empty directory, then a few calls; the states below are
    all reached through the public operations. *)

Module Sample.

Definition dir : Path := ["srv"; "collection_data"].

(** A stand-in for [json.dump]: the keys of the index. *)
Definition dump (idx : list (string * FileMeta)) : string :=
  "{" +:+ String.concat "," (dict_keys idx) +:+ "}".

Definition after {A} (m : M A) (s : state) : state := (m s).2.

Definition load (text : string) : option (list (string * FileMeta)) := None.

(** A new manager over an empty directory: the constructor finds no index
    file and rebuilds. *)
Definition fresh : state := after (__init__ dir dump load 0) (mkState ∅ []).

Definition created : state := after (create_file dir dump 1 "a.txt" false) fresh.

Definition filled : state :=
  after (add_lines dir dump 2 "a.txt" ["line one"; "another line"; "final"]) created.

Definition tagged : state := after (add_tag dir dump 3 "a.txt" "important") filled.

(** A directory that holds [count] documents and no index yet. *)
Definition many (count : nat) : gmap string node :=
  list_to_map ((λ i, (String.concat "" (replicate (S i) "f"), File "" 0 0)) <$> seq 0 count).

Definition full : state := after (__init__ dir dump load 0) (mkState (many 100) []).

End Sample.

(** ** Further notions *)

(** Every character is of the class of [FILENAME_RE]. *)
Fixpoint all_filename_chars (s : string) : bool :=
  match s with
  | "" => true
  | String c r => filename_char c && all_filename_chars r
  end.

(** The text holds ASCII characters only: the names for which the class
    [\w] is the one [is_word_char] gives. *)
Fixpoint ascii_only (s : string) : bool :=
  match s with
  | "" => true
  | String c r => (nat_of_ascii c <? 128) && ascii_only r
  end.

(** ** The standalone script [collection_manager.py] *)

Module Script.

Definition MSG_EMPTY : string := "Invalid filename".
Definition MSG_CHARS : string :=
  "Filename contains invalid characters. Allowed: letters, numbers, underscore, dash, dot, space.".

(** [sanitize_filename] of the script: no name is reserved. *)
Definition sanitize_filename (name : string) : result string :=
  let base := basename name in
  if bool_decide (base = "") then Raise (ValueError MSG_EMPTY)
  else if negb (FILENAME_RE_match base) then Raise (ValueError MSG_CHARS)
  else Ok base.

End Script.

(** The index file and its temporary file can be written: neither name is
    taken by a directory. *)
Definition index_writable (m : gmap string node) : Prop :=
  m !! TMP_FILENAME ≠ Some Dir ∧ m !! INDEX_FILENAME ≠ Some Dir.

(** The entry [_update_meta_for] leaves under [key] for a file of [size]
    bytes. *)
Definition updated_meta (idx : list (string * FileMeta)) (key : string)
    (now : time) (size : nat) : FileMeta :=
  match dict_get idx key with
  | None => mkFileMeta key now now size []
  | Some meta => mkFileMeta (filename meta) (created_at meta) now size (tags meta)
  end.

(** The directory once the index [idx] is persisted. *)
Definition persisted_dir (json_dump : list (string * FileMeta) → string)
    (now : time) (idx : list (string * FileMeta)) (m : gmap string node) :
    gmap string node :=
  <[INDEX_FILENAME := File (json_dump idx) now now]> (delete TMP_FILENAME m).

(** A line with its line feed, and a last line without one; neither holds
    another line break. *)
Definition full_line (l : string) : Prop :=
  ∃ b, l = b +:+ nl ∧ has_char LF b = false ∧ has_char CR b = false.

Definition open_line (l : string) : Prop :=
  l ≠ "" ∧ has_char LF l = false ∧ has_char CR l = false.

(** The shape of the lines of a text: all full, but the last may be open. *)
Fixpoint lines_wf (ls : list string) : Prop :=
  match ls with
  | [] => True
  | l :: rest =>
      match rest with
      | [] => full_line l ∨ open_line l
      | _ => full_line l ∧ lines_wf rest
      end
  end.

(** The index [_load_index] builds from the pairs of a parsed index file. *)
Definition loaded_index (raw : list (string * FileMeta)) : list (string * FileMeta) :=
  foldl (λ d kv, dict_set d kv.1 kv.2) [] raw.

(** The directory holds no index file the manager can load. *)
Definition no_usable_index (json_load : string → option (list (string * FileMeta)))
    (m : gmap string node) : Prop :=
  match m !! INDEX_FILENAME with
  | Some (File c _ _) => json_load c = None
  | _ => True
  end.

(** [index.json] holds the serialisation of the index in memory. *)
Definition index_persisted (json_dump : list (string * FileMeta) → string)
    (s : state) : Prop :=
  ∃ t1 t2, entries s !! INDEX_FILENAME = Some (File (json_dump (_index s)) t1 t2).

(** Every entry whose document is on disk records the length of its text;
    [skip] is a name left out of the comparison. *)
Definition sizes_agree_but (skip : option string) (s : state) : Prop :=
  NoDup (dict_keys (_index s)) ∧
  ∀ n meta c ct mt,
    n ≠ INDEX_FILENAME → Some n ≠ skip →
    dict_get (_index s) n = Some meta →
    entries s !! n = Some (File c ct mt) →
    size meta = String.length c.

Definition sizes_agree : state → Prop := sizes_agree_but None.

(** The document and the entry named [b] are the same in both states. *)
Definition same_at (b : string) (s s' : state) : Prop :=
  entries s' !! b = entries s !! b ∧
  dict_get (_index s') b = dict_get (_index s) b.

(** A computation that leaves the document and the entry named [b] alone,
    whatever it returns. *)
Definition steady {A} (b : string) (m : M A) : Prop :=
  ∀ s, same_at b s (m s).2.

(** ** The web adapter [collection_manager/web.py]

    A handler gets the parts of the request it reads and gives the reply; an
    exception it does not catch leaves the handler.  [POST /files] is given
    the body whatever it is; [POST /files/<name>/lines] is given the field
    [lines] of a body that is a JSON object, a list of strings when it is a
    list. *)

Module Web.

Inductive body : Type :=
  | Metas (metas : list FileMeta)
  | Lines (filename : string) (lines : list string)
  | Created (filename : string)
  | Appended (count : nat)
  | Deleted (filename : string)
  | Removed (text : string)
  | Matches (hits : list (string * nat * string)).

(** [jsonify(...)], and [abort(code)]. *)
Inductive reply : Type :=
  | Json (b : body)
  | Abort (code : nat).

(** [try: m  except ...: abort(code)], then [return jsonify(k result)]:
    [handler e] is the code of the [except] clause that catches [e]. *)
Definition guarded {A} (m : M A) (handler : exn → option nat) (k : A → body) : M reply :=
  λ s, match m s with
       | (Ok a, s') => (Ok (Json (k a)), s')
       | (Raise e, s') =>
           match handler e with
           | Some code => (Ok (Abort code), s')
           | None => (Raise e, s')
           end
       end.

(** The body of a request as [POST /files] reads it: the value of the field
    [filename] of a JSON object is a string, or another JSON value, of which
    the handler asks only whether Python takes it for true. *)
Inductive field : Type :=
  | Text (s : string)
  | Other (truthy : bool).

Inductive request_body : Type :=
  | NotJson
  | NotObject
  | Object (filename : option field).

(** How that handler ends: with a reply, or with the [AttributeError] of a
    method the body does not have, which leaves the handler. *)
Inductive ending : Type :=
  | Replies (r : reply)
  | RaisesAttributeError.

(** [except FileNotFoundError: abort(404)] *)
Definition on_not_found (e : exn) : option nat :=
  match e with FileNotFoundError => Some 404 | _ => None end.

Section Handlers.

Variable data_dir : Path.
Variable json_dump : list (string * FileMeta) → string.
Variable str_lower : string → string.

(** [GET /files] *)
Definition list_files (now : time) : M reply :=
  guarded (list_files data_dir json_dump now) (λ _, None) Metas.

(** [GET /files/<path:filename>] *)
Definition show_file (filename : string) : M reply :=
  guarded (show_file data_dir filename) on_not_found (Lines filename).

(** [POST /files].  [request.get_json(force=True)] aborts with 400 when the
    body does not parse; [body.get("filename")] is outside the [try], and
    raises [AttributeError] when the body is not an object; an empty or
    false field is answered with 400; every exception of the manager is
    caught.  Given a field that is no string the manager raises before it
    touches anything: [RuntimeError] when the collection is full, else the
    [TypeError] of [os.path.basename]. *)
Definition create_file (now : time) (body : request_body) : state → ending * state :=
  λ s,
    match body with
    | NotJson => (Replies (Abort 400), s)
    | NotObject => (RaisesAttributeError, s)
    | Object None => (Replies (Abort 400), s)
    | Object (Some (Other false)) => (Replies (Abort 400), s)
    | Object (Some (Other true)) => (Replies (Abort 400), s)
    | Object (Some (Text f)) =>
        if bool_decide (f = "") then (Replies (Abort 400), s)
        else
          match create_file data_dir json_dump now f false s with
          | (Ok _, s') => (Replies (Json (Created f)), s')
          | (Raise _, s') => (Replies (Abort 400), s')
          end
    end.

(** [POST /files/<path:filename>/lines] with the field [lines] of the body;
    [None] when it is not a list. *)
Definition post_lines (now : time) (filename : string)
    (lines : option (list string)) : M reply :=
  match lines with
  | None => ret (Abort 400)
  | Some ls =>
      guarded (add_lines data_dir json_dump now filename ls) on_not_found
        (λ _, Appended (length ls))
  end.

(** [DELETE /files/<path:filename>] *)
Definition delete_file (now : time) (filename : string) : M reply :=
  guarded (remove_file data_dir json_dump now filename) on_not_found
    (λ _, Deleted filename).

(** [DELETE /files/<path:filename>/lines/<int:line_no>] *)
Definition delete_line (now : time) (filename : string) (line_no : nat) : M reply :=
  guarded (remove_line data_dir json_dump now filename (Z.of_nat line_no))
    (λ e, match e with
          | FileNotFoundError => Some 404
          | IndexError => Some 400
          | _ => None
          end)
    Removed.

(** [GET /find] with the query parameters [q] and [case], when given.
    Whether [case.lower()] is the ASCII word [true] depends on the ASCII
    letters of [case] only, where [str.lower] is [lower]. *)
Definition find (q case : option string) : M reply :=
  let q := default "" q in
  if bool_decide (q = "") then ret (Json (Matches []))
  else
    let cs := bool_decide (lower (default "false" case) = "true") in
    guarded (find_text str_lower q (negb cs)) (λ _, None) Matches.

End Handlers.

End Web.

(** ** The command-line adapter [collection_manager/cli.py] *)

Module Cli.

Definition PROMPT : string := "Enter lines. Enter a single '.' on a line to finish.".

(** The loop of [interactive_lines]: [input()] takes the next line of the
    standard input and raises [EOFError] when there is none. *)
Fixpoint read_lines (stdin : list string) (lines : list string) :
    list string * list string :=
  match stdin with
  | [] => (lines, [])
  | ln :: rest =>
      if bool_decide (ln = ".") then (lines, rest)
      else read_lines rest (lines ++ [ln])
  end.

(** [interactive_lines]: what is printed, the lines read and the input left. *)
Definition interactive_lines (stdin : list string) :
    list string * (list string * list string) :=
  ([PROMPT], read_lines stdin []).

End Cli.

(** ** A stored index that can be loaded *)

Module Reload.

(** The text of the index file of [Sample.filled]. *)
Definition text : string := Sample.dump (_index Sample.filled).

(** A stand-in for [json.load] that parses that text, and fails on others. *)
Definition load (t : string) : option (list (string * FileMeta)) :=
  if bool_decide (t = text) then Some (_index Sample.filled) else None.

End Reload.

(** ** A collection to search

    Three documents, reached through the public operations; their names in
    ascending order are [A.txt], [a.txt] and [b.log]. *)

Module Logs.

Definition with_log : state :=
  Sample.after (add_lines Sample.dir Sample.dump 5 "b.log"
                  ["An error occurred"; "all fine"; "ERROR: error again"])
    (Sample.after (create_file Sample.dir Sample.dump 4 "b.log" false) Sample.filled).

Definition logged : state :=
  Sample.after (add_lines Sample.dir Sample.dump 7 "A.txt" ["Another Error"])
    (Sample.after (create_file Sample.dir Sample.dump 6 "A.txt" false) with_log).

End Logs.

(** * Properties *)

(** ** Names and paths *)

Example basename_traversal : basename "../../etc/passwd" = "passwd".
Proof. reflexivity. Qed.
Example sanitize_notes : _sanitize_filename "notes.txt" = Ok "notes.txt".
Proof. reflexivity. Qed.
Example sanitize_nl : _sanitize_filename (String "a" nl) = Ok (String "a" nl).
Proof. reflexivity. Qed.

Lemma has_char_basename p : has_char SEP (basename p) = false.
Proof.
  induction p as [|c r IH]; cbn [basename]; [done|].
  destruct (has_char SEP r) eqn:Hr; [done|].
  destruct (Ascii.eqb c SEP) eqn:Hc; [done|].
  cbn [has_char]. rewrite Hr. rewrite Ascii.eqb_sym, Hc. done.
Qed.

Lemma basename_no_sep p : has_char SEP p = false → basename p = p.
Proof.
  destruct p as [|c r]; cbn [has_char basename]; [done|].
  intros [Hc Hr]%orb_false_iff. rewrite Hr.
  rewrite Ascii.eqb_sym, Hc. done.
Qed.

Lemma sanitize_Ok name base :
  _sanitize_filename name = Ok base →
  base = basename name ∧ base ≠ "" ∧ FILENAME_RE_match base = true ∧
  base ≠ INDEX_FILENAME.
Proof.
  unfold _sanitize_filename.
  destruct (bool_decide (basename name = "")) eqn:He; simpl; [done|].
  destruct (FILENAME_RE_match (basename name)) eqn:Hm; simpl; [|done].
  destruct (decide (basename name = INDEX_FILENAME)); [done|].
  intros [= <-]. apply bool_decide_eq_false in He. done.
Qed.

Lemma sanitize_Raise name e :
  _sanitize_filename name = Raise e → kind_of e = InvalidName.
Proof.
  unfold _sanitize_filename.
  destruct (_ || _); [by intros [= <-]|].
  destruct (decide _); [by intros [= <-]|done].
Qed.

Lemma sanitize_basename name base :
  _sanitize_filename name = Ok base → _sanitize_filename base = Ok base.
Proof.
  intros H. pose proof (sanitize_Ok _ _ H) as (-> & _).
  unfold _sanitize_filename in *.
  rewrite (basename_no_sep (basename name)); [done|].
  apply has_char_basename.
Qed.

Lemma resolve_from_app seen p q :
  resolve_from seen (p ++ q) = resolve_from (List.rev (resolve_from seen p)) q.
Proof.
  revert seen. induction p as [|c r IH]; intros seen; simpl.
  - by rewrite rev_involutive.
  - destruct (decide (c = "..")); apply IH.
Qed.

Lemma resolve_child p n : n ≠ ".." → resolve (p ++ [n]) = resolve p ++ [n].
Proof.
  intros Hn. unfold resolve. rewrite resolve_from_app. simpl.
  destruct (decide (n = "..")); [done|].
  simpl. by rewrite rev_involutive.
Qed.

Lemma resolve_parent p : resolve (p ++ [".."]) = removelast (resolve p).
Proof.
  unfold resolve. rewrite resolve_from_app. simpl.
  generalize (resolve_from [] p). intros r.
  induction r as [|x r IH] using rev_ind; [done|].
  rewrite rev_unit. simpl. rewrite rev_involutive.
  by rewrite removelast_last.
Qed.

Lemma strip_prefix_app d r : strip_prefix d (d ++ r) = Some r.
Proof.
  induction d as [|x d IH]; simpl; [done|].
  destruct (decide (x = x)); [apply IH|done].
Qed.

Lemma strip_prefix_Some d p q : strip_prefix d p = Some q → p = d ++ q.
Proof.
  revert p. induction d as [|x d IH]; intros [|y p]; simpl; try done.
  - by intros [= <-].
  - by intros [= <-].
  - destruct (decide (x = y)) as [<-|]; [|done].
    intros H. by rewrite (IH _ H).
Qed.

Lemma locate_child d n : n ≠ "." → n ≠ ".." → locate d (joinpath d n) = Inside n.
Proof.
  intros H1 H2. unfold locate, joinpath.
  destruct (decide (n = ".")); [done|].
  by rewrite resolve_child, strip_prefix_app.
Qed.

Lemma locate_self d : locate d (joinpath d ".") = Outside.
Proof.
  unfold locate, joinpath. simpl.
  rewrite <- (app_nil_r (resolve d)) at 2. by rewrite strip_prefix_app.
Qed.

Lemma locate_parent d : locate d (joinpath d "..") = Outside.
Proof.
  unfold locate, joinpath. simpl. rewrite resolve_parent.
  destruct (strip_prefix _ _) as [q|] eqn:Hq; [|done].
  apply strip_prefix_Some in Hq.
  destruct q as [|n [|??]]; try done.
  exfalso. apply (f_equal length) in Hq.
  rewrite length_app in Hq. simpl in Hq.
  destruct (resolve d) as [|x r] using rev_ind; [simpl in Hq; lia|].
  rewrite removelast_last, length_app in Hq. simpl in Hq. lia.
Qed.

Lemma path_name_joinpath d n : n ≠ "." → path_name (joinpath d n) = n.
Proof.
  intros Hn. unfold path_name, joinpath.
  destruct (decide (n = ".")); [done|]. apply last_last.
Qed.

(** C1, as the specification words it, does not hold: the name
    [../../etc/passwd] is not rejected. *)
Lemma C1_traversal_name_not_rejected :
  ¬ ∃ e, _sanitize_filename "../../etc/passwd" = Raise e ∧ kind_of e = InvalidName.
Proof. intros (e & H & _). vm_compute in H. discriminate H. Qed.

(** C1 (amended): sanitization strips the directory components, so
    [../../etc/passwd] is accepted as [passwd]; [notes.txt] is accepted
    unchanged; the reserved name [index.json] is rejected with InvalidName.
    For every name, the only path built from it is the collection directory
    joined with the sanitized basename, which holds no separator; when the
    name is rejected no path is built and every operation given the name
    raises that error and leaves the state as it was.  Two operations make
    a check before they look at the name: [create_file] raises
    CollectionFull when the collection is full, and [remove_line] raises
    InvalidArgument when the line number is below 1; both leave the state as
    it was, and in every other case they raise the error of the name. *)
Theorem C1_sanitize_before_path (data_dir : Path)
    (json_dump : list (string * FileMeta) → string) (name : string) :
  (_sanitize_filename "../../etc/passwd" = Ok "passwd" ∧
   _sanitize_filename "notes.txt" = Ok "notes.txt" ∧
   ∃ e, _sanitize_filename INDEX_FILENAME = Raise e ∧ kind_of e = InvalidName) ∧
  match _sanitize_filename name with
  | Ok base =>
      base = basename name ∧ has_char SEP base = false ∧
      _file_path data_dir name = Ok (joinpath data_dir base)
  | Raise e =>
      kind_of e = InvalidName ∧ _file_path data_dir name = Raise e ∧
      ∀ s now lines tag,
        show_file data_dir name s = (Raise e, s) ∧
        add_lines data_dir json_dump now name lines s = (Raise e, s) ∧
        remove_file data_dir json_dump now name s = (Raise e, s) ∧
        get_meta name s = (Raise e, s) ∧
        add_tag data_dir json_dump now name tag s = (Raise e, s) ∧
        remove_tag data_dir json_dump now name tag s = (Raise e, s) ∧
        (∀ overwrite,
           create_file data_dir json_dump now name overwrite s
           = if MAX_FILES <=? files_count (entries s)
             then (Raise (RuntimeError MSG_FULL), s) else (Raise e, s)) ∧
        (∀ line_no,
           remove_line data_dir json_dump now name line_no s
           = if (line_no <? 1)%Z
             then (Raise (ValueError MSG_LINE_NO), s) else (Raise e, s)) ∧
        kind_of (RuntimeError MSG_FULL) = CollectionFull ∧
        kind_of (ValueError MSG_LINE_NO) = InvalidArgument
  end.
Proof.
  split.
  - repeat split; try reflexivity.
    eexists. split; reflexivity.
  - destruct (_sanitize_filename name) as [base|e] eqn:Hs.
    + pose proof (sanitize_Ok _ _ Hs) as (Hb & _).
      repeat split; [done| |].
      * subst base. apply has_char_basename.
      * unfold _file_path. by rewrite Hs.
    + split; [by eapply sanitize_Raise|].
      assert (_file_path data_dir name = Raise e) as Hp.
      { unfold _file_path. by rewrite Hs. }
      split; [done|]. intros s now lines tag.
      unfold show_file, add_lines, remove_file, add_tag, remove_tag, get_meta,
        bind, lift.
      rewrite Hp, Hs. do 6 (split; [done|]). split; [|split; [|done]].
      * intros overwrite. unfold create_file, bind, gets, lift.
        destruct (MAX_FILES <=? files_count (entries s)); [done|].
        by rewrite Hp.
      * intros line_no. unfold remove_line, remove_line_faulty.
        destruct (line_no <? 1)%Z; [done|].
        unfold bind, lift. by rewrite Hp.
Qed.

(** C10: the names [.] and [..] pass sanitization unchanged (the dot is in
    the character class and the basename leaves them as they are); the path
    built from [.] is the collection directory itself and the path built from
    [..] resolves to its parent: neither is an entry inside the collection
    directory. *)
Theorem C10_dot_names_escape (data_dir : Path) :
  filename_char "." = true ∧
  basename "." = "." ∧ basename ".." = ".." ∧
  _sanitize_filename "." = Ok "." ∧ _sanitize_filename ".." = Ok ".." ∧
  (∃ p, _file_path data_dir "." = Ok p ∧
        resolve p = resolve data_dir ∧ locate data_dir p = Outside) ∧
  (∃ p, _file_path data_dir ".." = Ok p ∧
        resolve p = removelast (resolve data_dir) ∧ locate data_dir p = Outside).
Proof.
  repeat split; try reflexivity.
  - exists data_dir. repeat split. apply (locate_self data_dir).
  - exists (data_dir ++ [".."]). repeat split.
    + apply resolve_parent.
    + apply (locate_parent data_dir).
Qed.

(** ** Index persistence *)

Section Persistence.

Variable data_dir : Path.
Variable json_dump : list (string * FileMeta) → string.

Lemma with_suffix_last p n sfx : with_suffix (p ++ [n]) sfx = p ++ [stem n +:+ sfx].
Proof.
  induction p as [|c r IH]; [done|].
  cbn [app with_suffix]. rewrite IH.
  destruct (r ++ [n]) eqn:E; [by destruct r|done].
Qed.

Lemma tmp_path_eq :
  with_suffix (index_path data_dir) ".tmp" = joinpath data_dir TMP_FILENAME.
Proof. unfold index_path, joinpath. simpl. by rewrite with_suffix_last. Qed.

Lemma locate_tmp : locate data_dir (joinpath data_dir TMP_FILENAME) = Inside TMP_FILENAME.
Proof. by apply locate_child. Qed.

Lemma locate_index : locate data_dir (index_path data_dir) = Inside INDEX_FILENAME.
Proof. by apply locate_child. Qed.

(** What [_write_index] does to the directory: it fails on a directory
    named [index.tmp] or [index.json]; otherwise [index.json] holds the
    serialised index and no [index.tmp] is left. *)
Lemma _write_index_unfold now s :
  _write_index data_dir json_dump now s =
  let text := json_dump (_index s) in
  match entries s !! TMP_FILENAME with
  | Some Dir => (Raise IsADirectoryError, s)
  | _ =>
      match entries s !! INDEX_FILENAME with
      | Some Dir =>
          (Raise IsADirectoryError,
           with_entries (<[TMP_FILENAME := File text now now]>) s)
      | _ =>
          (Ok tt,
           with_entries (λ m, <[INDEX_FILENAME := File text now now]>
                                (delete TMP_FILENAME m)) s)
      end
  end.
Proof.
  unfold _write_index, bind, gets, write_text, replace.
  rewrite tmp_path_eq, locate_tmp, locate_index.
  destruct s as [m idx]. cbn [entries _index with_entries].
  destruct (m !! TMP_FILENAME) as [[c ct mt|]|] eqn:Ht; [|done|].
  all: unfold with_entries; cbn [entries _index].
  all: rewrite lookup_insert_eq, lookup_insert_ne by done.
  all: destruct (m !! INDEX_FILENAME) as [[c' ct' mt'|]|] eqn:Hi; try done.
  all: by rewrite delete_insert_eq.
Qed.

Lemma _write_index_index now s :
  _index (_write_index data_dir json_dump now s).2 = _index s.
Proof. rewrite _write_index_unfold. simpl. by repeat case_match. Qed.

Lemma _write_index_raises now s e s' :
  _write_index data_dir json_dump now s = (Raise e, s') → e = IsADirectoryError.
Proof.
  rewrite _write_index_unfold. simpl.
  repeat case_match; by intros [= <- <-].
Qed.

Lemma _write_index_other now s n :
  n ≠ TMP_FILENAME → n ≠ INDEX_FILENAME →
  entries (_write_index data_dir json_dump now s).2 !! n = entries s !! n.
Proof.
  intros H1 H2. rewrite _write_index_unfold. simpl.
  repeat case_match; simpl; try done.
  all: by rewrite ?lookup_insert_ne, ?lookup_delete_ne by done.
Qed.

(** [_update_meta_for] on a path that holds a regular file. *)
Lemma _update_meta_for_unfold now path s c ct mt :
  lookup_path data_dir path s = Some (File c ct mt) →
  _update_meta_for data_dir json_dump now path s =
  let key := path_name path in
  let meta :=
    match dict_get (_index s) key with
    | None => mkFileMeta key now now (String.length c) []
    | Some meta =>
        mkFileMeta (filename meta) (created_at meta) now (String.length c) (tags meta)
    end in
  _write_index data_dir json_dump now (with_index (λ idx, dict_set idx key meta) s).
Proof.
  intros Hl. unfold _update_meta_for, bind, path_stat, gets, modify.
  by rewrite Hl.
Qed.

Lemma _update_meta_for_raises now path s c ct mt e s' :
  lookup_path data_dir path s = Some (File c ct mt) →
  _update_meta_for data_dir json_dump now path s = (Raise e, s') →
  e = IsADirectoryError.
Proof.
  intros Hl. rewrite (_update_meta_for_unfold _ _ _ _ _ _ Hl). simpl.
  apply _write_index_raises.
Qed.

(** A successful [write_text] leaves a regular file at the path. *)
Lemma write_text_Ok now path text s s' :
  write_text data_dir now path text s = (Ok tt, s') →
  ∃ n, locate data_dir path = Inside n ∧
       s' = with_entries (<[n := File text now now]>) s ∧
       lookup_path data_dir path s' = Some (File text now now).
Proof.
  unfold write_text, lookup_path.
  destruct (locate data_dir path) as [n|]; [|done].
  intros H. exists n.
  assert (s' = with_entries (<[n := File text now now]>) s) as ->.
  { by repeat case_match; simplify_eq. }
  split; [done|]. split; [done|]. simpl. by rewrite lookup_insert_eq.
Qed.

Lemma write_text_Raise now path text s e s' :
  write_text data_dir now path text s = (Raise e, s') →
  e = IsADirectoryError ∧ s' = s.
Proof. unfold write_text. repeat case_match; by intros [= <- <-]. Qed.

End Persistence.

(** ** Deleting a line and creating a document: the failures *)

Section Failures.

Variable data_dir : Path.
Variable json_dump : list (string * FileMeta) → string.

Lemma _file_path_Raise name e :
  _file_path data_dir name = Raise e → kind_of e = InvalidName.
Proof.
  unfold _file_path. destruct (_sanitize_filename name) eqn:Hs; [done|].
  intros [= <-]. by eapply sanitize_Raise.
Qed.

Lemma remove_line_failure_frame now name line_no s e s' :
  remove_line data_dir json_dump now name line_no s = (Raise e, s') →
  e ≠ IsADirectoryError → s' = s.
Proof.
  unfold remove_line, remove_line_faulty, rewrite_lines.
  destruct (line_no <? 1)%Z; [by intros [= <- <-]|].
  unfold bind at 1, lift.
  destruct (_file_path data_dir name) as [path|e0]; [|by intros [= <- <-]].
  unfold bind at 1, path_exists, gets.
  destruct (bool_decide _); cbn [negb]; [|by intros [= <- <-]].
  unfold bind at 1, read_text.
  destruct (lookup_path data_dir path s) as [[c ct mt|]|];
    [|by intros [= <- <-]..].
  destruct (_ <? _)%Z; [by intros [= <- <-]|].
  destruct (pop _ _) as [[removed rest]|]; [|by intros [= <- <-]].
  unfold bind at 1.
  destruct (write_text data_dir now path (joined rest) s) as [[[]|e1] s1] eqn:Hw.
  - apply write_text_Ok in Hw as (n & _ & _ & Hl).
    unfold bind at 1.
    destruct (_update_meta_for _ _ _ _ s1) as [[[]|e2] s2] eqn:Hu.
    + done.
    + apply (_update_meta_for_raises _ _ _ _ _ _ _ _ _ _ Hl) in Hu.
      by intros [= <- <-].
  - apply write_text_Raise in Hw as [-> ->]. by intros [= <- <-].
Qed.

(** C5: removing a line fails with InvalidArgument for every line number
    below 1, whatever the name and the directory hold; from 1 on it fails
    with NotFound when the document is absent, and with OutOfRange when the
    document exists and the line number exceeds its line count.  Each of
    these failures, and every failure other than an I/O failure, leaves the
    directory and the index as they were. *)
Theorem C5_remove_line_failures now name (line_no : Z) s :
  ((line_no < 1)%Z →
     remove_line data_dir json_dump now name line_no s
       = (Raise (ValueError MSG_LINE_NO), s) ∧
     kind_of (ValueError MSG_LINE_NO) = InvalidArgument) ∧
  (∀ path, (1 ≤ line_no)%Z →
     _file_path data_dir name = Ok path →
     lookup_path data_dir path s = None →
     remove_line data_dir json_dump now name line_no s
       = (Raise FileNotFoundError, s) ∧
     kind_of FileNotFoundError = NotFound) ∧
  (∀ path c ct mt, (1 ≤ line_no)%Z →
     _file_path data_dir name = Ok path →
     lookup_path data_dir path s = Some (File c ct mt) →
     (Z.of_nat (length (readlines c)) < line_no)%Z →
     remove_line data_dir json_dump now name line_no s
       = (Raise IndexError, s) ∧
     kind_of IndexError = OutOfRange) ∧
  (∀ e s', remove_line data_dir json_dump now name line_no s = (Raise e, s') →
     kind_of e ≠ IOFailure → s' = s).
Proof.
  split; [|split; [|split]].
  - intros Hlt. split; [|done]. unfold remove_line, remove_line_faulty.
    by rewrite (proj2 (Z.ltb_lt _ _) Hlt).
  - intros path Hge Hp Hl. split; [|done]. unfold remove_line, remove_line_faulty.
    rewrite (proj2 (Z.ltb_ge _ _) Hge).
    unfold bind, lift, path_exists, gets. rewrite Hp, Hl.
    rewrite bool_decide_eq_false_2; [done|]. by intros [? ?].
  - intros path c ct mt Hge Hp Hl Hlen. split; [|done].
    unfold remove_line, remove_line_faulty.
    rewrite (proj2 (Z.ltb_ge _ _) Hge).
    unfold bind, lift, path_exists, gets, read_text. rewrite Hp, Hl.
    rewrite bool_decide_eq_true_2 by eauto. cbn [negb]. rewrite Hl.
    by rewrite (proj2 (Z.ltb_lt _ _) Hlen).
  - intros e s' Hr Hk. eapply remove_line_failure_frame; [done|].
    by intros ->.
Qed.

(** C6: creating a document fails with CollectionFull exactly when the
    directory holds at least 100 regular files other than the index file.
    The count is checked first: a full collection rejects the call whatever
    the overwrite flag, whether or not the document exists already and
    whatever the name, and nothing changes. *)
Theorem C6_collection_full now name overwrite s :
  MAX_FILES = 100 ∧
  ((∃ e, (create_file data_dir json_dump now name overwrite s).1 = Raise e ∧
         kind_of e = CollectionFull)
   ↔ MAX_FILES ≤ files_count (entries s)) ∧
  (MAX_FILES ≤ files_count (entries s) →
   create_file data_dir json_dump now name overwrite s
     = (Raise (RuntimeError MSG_FULL), s)).
Proof.
  split; [done|].
  assert (MAX_FILES ≤ files_count (entries s) →
    create_file data_dir json_dump now name overwrite s
      = (Raise (RuntimeError MSG_FULL), s)) as Hfull.
  { intros Hle. unfold create_file, bind, gets.
    by rewrite (proj2 (Nat.leb_le _ _) Hle). }
  split; [|done]. split.
  - intros (e & Hr & Hk).
    destruct (decide (MAX_FILES ≤ files_count (entries s))) as [|Hlt]; [done|].
    exfalso. revert Hr. unfold create_file, bind at 1, gets.
    rewrite (proj2 (Nat.leb_nle _ _) Hlt).
    unfold bind at 1, lift.
    destruct (_file_path data_dir name) as [path|e0] eqn:Hp.
    2:{ intros [= <-]. apply _file_path_Raise in Hp. congruence. }
    unfold bind at 1, path_exists, gets.
    destruct (_ && _); [intros [= <-]; done|].
    unfold bind at 1.
    destruct (write_text data_dir now path "" s) as [[[]|e1] s1] eqn:Hw.
    + apply write_text_Ok in Hw as (n & _ & _ & Hl).
      destruct (_update_meta_for _ _ _ _ s1) as [[[]|e2] s2] eqn:Hu; [done|].
      apply (_update_meta_for_raises _ _ _ _ _ _ _ _ _ _ Hl) in Hu.
      intros [= <-]. by subst e2.
    + apply write_text_Raise in Hw as [-> ->]. by intros [= <-].
  - intros Hle. rewrite (Hfull Hle). by eexists.
Qed.

End Failures.

(** ** The ordered dictionary *)

Section DictFacts.
Context {V : Type}.
Implicit Types (d : list (string * V)) (k : string) (v : V).

Lemma dict_get_set_eq d k v : dict_get (dict_set d k v) k = Some v.
Proof.
  induction d as [|[k' v'] r IH]; simpl.
  - by rewrite decide_True.
  - destruct (decide (k' = k)); simpl.
    + by rewrite decide_True.
    + by rewrite decide_False.
Qed.

Lemma dict_get_set_ne d k k' v : k ≠ k' → dict_get (dict_set d k v) k' = dict_get d k'.
Proof.
  intros Hne. induction d as [|[k0 v0] r IH]; simpl.
  - by rewrite decide_False.
  - destruct (decide (k0 = k)) as [->|]; simpl.
    + by rewrite !decide_False.
    + by rewrite IH.
Qed.

Lemma dict_get_None d k : dict_get d k = None ↔ k ∉ dict_keys d.
Proof.
  unfold dict_keys. induction d as [|[k' v'] r IH]; simpl.
  - split; [intros _; apply not_elem_of_nil|done].
  - rewrite not_elem_of_cons. destruct (decide (k' = k)) as [->|Hne].
    + split; [done|]. by intros [? _].
    + rewrite IH. split; [by split|]. by intros [_ ?].
Qed.

Lemma dict_get_Some_keys d k v : dict_get d k = Some v → k ∈ dict_keys d.
Proof.
  intros H. destruct (decide (k ∈ dict_keys d)) as [|Hn]; [done|].
  apply dict_get_None in Hn. congruence.
Qed.

Lemma dict_set_fresh d k v : k ∉ dict_keys d → dict_set d k v = d ++ [(k, v)].
Proof.
  unfold dict_keys. induction d as [|[k' v'] r IH]; simpl; [done|].
  rewrite not_elem_of_cons. intros [Hne Hr].
  rewrite decide_False by done. by rewrite IH.
Qed.

Lemma dict_keys_set_present d k v :
  k ∈ dict_keys d → dict_keys (dict_set d k v) = dict_keys d.
Proof.
  unfold dict_keys. induction d as [|[k' v'] r IH]; simpl.
  - by intros ?%elem_of_nil.
  - destruct (decide (k' = k)) as [->|Hne]; [done|].
    rewrite elem_of_cons. intros [?|Hr]; [congruence|].
    simpl. f_equal. by apply IH.
Qed.

Lemma dict_get_del_eq d k : NoDup (dict_keys d) → dict_get (dict_del d k) k = None.
Proof.
  unfold dict_keys. induction d as [|[k' v'] r IH]; simpl; [done|].
  rewrite NoDup_cons. intros [Hk Hr].
  destruct (decide (k' = k)) as [->|Hne]; simpl.
  - by apply dict_get_None.
  - rewrite decide_False by done. by apply IH.
Qed.

Lemma dict_get_del_ne d k k' : k ≠ k' → dict_get (dict_del d k) k' = dict_get d k'.
Proof.
  intros Hne. induction d as [|[k0 v0] r IH]; simpl; [done|].
  destruct (decide (k0 = k)) as [->|]; simpl.
  - by rewrite decide_False.
  - by rewrite IH.
Qed.
End DictFacts.

(** ** Tags *)

Section Tags.

Variable data_dir : Path.
Variable json_dump : list (string * FileMeta) → string.

Lemma get_meta_Ok name base s :
  _sanitize_filename name = Ok base →
  get_meta name s = (Ok (dict_get (_index s) base), s).
Proof. intros Hs. unfold get_meta, bind, lift, gets. by rewrite Hs. Qed.

Lemma tag_NotFound_iff (op : string → string → M unit) name tag s :
  (∀ base meta, _sanitize_filename name = Ok base →
     dict_get (_index s) base = Some meta →
     ∀ e, (op name tag s).1 = Raise e → e = IsADirectoryError) →
  (∀ base, _sanitize_filename name = Ok base →
     dict_get (_index s) base = None →
     op name tag s = (Raise FileNotFoundError, s)) →
  (∀ e, _sanitize_filename name = Raise e → op name tag s = (Raise e, s)) →
  (∃ e, (op name tag s).1 = Raise e ∧ kind_of e = NotFound) ↔
  (∃ base, _sanitize_filename name = Ok base ∧ dict_get (_index s) base = None).
Proof.
  intros Hsome Hnone Hbad. split.
  - intros (e & Hr & Hk).
    destruct (_sanitize_filename name) as [base|e0] eqn:Hs.
    + exists base. split; [done|].
      destruct (dict_get (_index s) base) as [meta|] eqn:Hg; [|done].
      rewrite (Hsome _ _ eq_refl Hg _ Hr) in Hk. done.
    + rewrite (Hbad _ eq_refl) in Hr. simpl in Hr. injection Hr as <-.
      apply sanitize_Raise in Hs. congruence.
  - intros (base & Hs & Hg). exists FileNotFoundError.
    by rewrite (Hnone _ Hs Hg).
Qed.

Lemma add_tag_unfold now name tag s base meta :
  _sanitize_filename name = Ok base →
  dict_get (_index s) base = Some meta →
  add_tag data_dir json_dump now name tag s =
  if bool_decide (tag ∈ tags meta) then (Ok tt, s)
  else _write_index data_dir json_dump now
         (with_index (λ idx, dict_set idx base
            (set_tags meta (tags meta ++ [tag]))) s).
Proof.
  intros Hs Hg. unfold add_tag. unfold bind at 1.
  rewrite (get_meta_Ok _ _ _ Hs), Hg.
  apply sanitize_Ok in Hs as (-> & _).
  by destruct (bool_decide _).
Qed.

Lemma remove_tag_unfold now name tag s base meta :
  _sanitize_filename name = Ok base →
  dict_get (_index s) base = Some meta →
  remove_tag data_dir json_dump now name tag s =
  if bool_decide (tag ∈ tags meta) then
    _write_index data_dir json_dump now
      (with_index (λ idx, dict_set idx base
         (set_tags meta (list_remove_first tag (tags meta)))) s)
  else (Ok tt, s).
Proof.
  intros Hs Hg. unfold remove_tag. unfold bind at 1.
  rewrite (get_meta_Ok _ _ _ Hs), Hg.
  apply sanitize_Ok in Hs as (-> & _).
  by destruct (bool_decide _).
Qed.

(** C8: for a document with a metadata entry, adding a tag that is there
    changes nothing and writes nothing, adding a new one appends it and
    persists the index, and adding the same tag again leaves the state of
    the first call as it is; removing a tag that is not there changes
    nothing and writes nothing, removing one that is there persists the
    index.  Both operations fail with NotFound exactly when the name is
    accepted and the index has no entry for it, whatever the directory
    holds. *)
Theorem C8_tags now now' name tag s :
  ((∃ e, (add_tag data_dir json_dump now name tag s).1 = Raise e ∧
         kind_of e = NotFound) ↔
   (∃ base, _sanitize_filename name = Ok base ∧
            dict_get (_index s) base = None)) ∧
  ((∃ e, (remove_tag data_dir json_dump now name tag s).1 = Raise e ∧
         kind_of e = NotFound) ↔
   (∃ base, _sanitize_filename name = Ok base ∧
            dict_get (_index s) base = None)) ∧
  ∀ base meta,
    _sanitize_filename name = Ok base →
    dict_get (_index s) base = Some meta →
    (tag ∈ tags meta →
       add_tag data_dir json_dump now name tag s = (Ok tt, s)) ∧
    (tag ∉ tags meta →
       add_tag data_dir json_dump now name tag s =
       _write_index data_dir json_dump now
         (with_index (λ idx, dict_set idx base
            (set_tags meta (tags meta ++ [tag]))) s)) ∧
    (let s1 := (add_tag data_dir json_dump now name tag s).2 in
     add_tag data_dir json_dump now' name tag s1 = (Ok tt, s1) ∧
     ∃ meta1, dict_get (_index s1) base = Some meta1 ∧
       tags meta1 = if bool_decide (tag ∈ tags meta) then tags meta
                    else tags meta ++ [tag]) ∧
    (tag ∉ tags meta →
       remove_tag data_dir json_dump now name tag s = (Ok tt, s)) ∧
    (tag ∈ tags meta →
       remove_tag data_dir json_dump now name tag s =
       _write_index data_dir json_dump now
         (with_index (λ idx, dict_set idx base
            (set_tags meta (list_remove_first tag (tags meta)))) s)).
Proof.
  split; [|split].
  - apply (tag_NotFound_iff (add_tag data_dir json_dump now)).
    + intros base meta Hs Hg e. rewrite (add_tag_unfold _ _ _ _ _ _ Hs Hg).
      destruct (bool_decide _); [done|].
      destruct (_write_index _ _ _ _) as [[[]|e'] s'] eqn:Hw; [done|].
      intros [= <-]. by eapply _write_index_raises.
    + intros base Hs Hg. unfold add_tag, bind.
      by rewrite (get_meta_Ok _ _ _ Hs), Hg.
    + intros e Hs. unfold add_tag, get_meta, bind, lift. by rewrite Hs.
  - apply (tag_NotFound_iff (remove_tag data_dir json_dump now)).
    + intros base meta Hs Hg e. rewrite (remove_tag_unfold _ _ _ _ _ _ Hs Hg).
      destruct (bool_decide _); [|done].
      destruct (_write_index _ _ _ _) as [[[]|e'] s'] eqn:Hw; [done|].
      intros [= <-]. by eapply _write_index_raises.
    + intros base Hs Hg. unfold remove_tag, bind.
      by rewrite (get_meta_Ok _ _ _ Hs), Hg.
    + intros e Hs. unfold remove_tag, get_meta, bind, lift. by rewrite Hs.
  - intros base meta Hs Hg.
    pose proof (add_tag_unfold now name tag s _ _ Hs Hg) as Ha.
    pose proof (remove_tag_unfold now name tag s _ _ Hs Hg) as Hr.
    split; [|split; [|split; [|split]]].
    + intros Hin. by rewrite Ha, bool_decide_eq_true_2.
    + intros Hin. by rewrite Ha, bool_decide_eq_false_2.
    + cbn zeta. rewrite Ha. destruct (bool_decide (tag ∈ tags meta)) eqn:Hin.
      * cbn [snd]. rewrite (add_tag_unfold now' name tag s _ _ Hs Hg), Hin.
        split; [done|]. by exists meta.
      * set (meta1 := set_tags meta (tags meta ++ [tag])).
        assert (dict_get (_index (_write_index data_dir json_dump now
          (with_index (λ idx, dict_set idx base meta1) s)).2) base
          = Some meta1) as Hg1.
        { rewrite _write_index_index. simpl. apply dict_get_set_eq. }
        split; [|by exists meta1].
        rewrite (add_tag_unfold now' name tag _ _ _ Hs Hg1).
        rewrite bool_decide_eq_true_2; [done|].
        simpl. apply elem_of_app. right. apply list_elem_of_singleton. done.
    + intros Hin. by rewrite Hr, bool_decide_eq_false_2.
    + intros Hin. by rewrite Hr, bool_decide_eq_true_2.
Qed.

End Tags.

(** ** Listing rebuilds the index *)

Lemma rebuild_step_scan m idx n :
  rebuild_step m idx n =
  match scan m n with
  | Some (_, meta) => dict_set idx n meta
  | None => idx
  end.
Proof.
  unfold rebuild_step, scan.
  destruct (m !! n) as [[c ct mt|]|]; [|done..].
  by destruct (bool_decide _).
Qed.

Lemma scan_key m n kv : scan m n = Some kv → kv.1 = n.
Proof. unfold scan. repeat case_match; naive_solver. Qed.

Lemma rebuild_fold m names acc :
  NoDup names → (∀ n, n ∈ names → n ∉ dict_keys acc) →
  foldl (rebuild_step m) acc names = acc ++ omap (scan m) names.
Proof.
  revert acc. induction names as [|n names IH]; intros acc Hnd Hfresh; simpl.
  - by rewrite app_nil_r.
  - apply NoDup_cons in Hnd as [Hn Hnd].
    rewrite rebuild_step_scan.
    destruct (scan m n) as [[k meta]|] eqn:Hs.
    + pose proof (scan_key _ _ _ Hs) as Hk. simpl in Hk. subst k.
      rewrite dict_set_fresh by (apply Hfresh; left).
      rewrite IH; [by rewrite <- app_assoc|done|].
      intros n' Hn'. unfold dict_keys. rewrite fmap_app, elem_of_app. simpl.
      intros [Hin|Hin%list_elem_of_singleton].
      * by apply (Hfresh n'); [right|].
      * congruence.
    + apply IH; [done|]. intros n' Hn'. apply Hfresh. by right.
Qed.

Lemma NoDup_sorted_iterdir m : NoDup (sorted_iterdir m).
Proof.
  unfold sorted_iterdir, iterdir.
  rewrite merge_sort_Permutation. apply NoDup_fst_map_to_list.
Qed.

Lemma elem_of_sorted_iterdir m n : n ∈ sorted_iterdir m ↔ is_Some (m !! n).
Proof.
  unfold sorted_iterdir, iterdir. rewrite merge_sort_Permutation.
  rewrite list_elem_of_fmap. split.
  - intros ([k v] & -> & Hin). apply elem_of_map_to_list in Hin. by exists v.
  - intros [v Hv]. exists (n, v). split; [done|]. by apply elem_of_map_to_list.
Qed.

Lemma dict_get_omap_scan m names n :
  dict_get (omap (scan m) names) n =
  if decide (n ∈ names) then snd <$> scan m n else None.
Proof.
  induction names as [|k names IH]; [done|].
  change (omap (scan m) (k :: names)) with
    (match scan m k with
     | Some y => y :: omap (scan m) names
     | None => omap (scan m) names
     end).
  destruct (scan m k) as [[k' meta]|] eqn:Hs; cbn [dict_get].
  - pose proof (scan_key _ _ _ Hs) as Hk. simpl in Hk. subst k'.
    destruct (decide (k = n)) as [->|Hne].
    + rewrite decide_True by left. by rewrite Hs.
    + rewrite IH. destruct (decide (n ∈ names)) as [Hin|Hin].
      * rewrite decide_True; [done|]. by right.
      * rewrite decide_False; [done|].
        intros [Heq|?]%elem_of_cons; [by subst|done].
  - rewrite IH. destruct (decide (n ∈ names)) as [Hin|Hin].
    + rewrite decide_True; [done|]. by right.
    + destruct (decide (n ∈ k :: names)) as [Hin'|]; [|done].
      apply elem_of_cons in Hin' as [->|]; [|done]. by rewrite Hs.
Qed.

Lemma dict_get_rebuilt m n : dict_get (rebuilt_index m) n = snd <$> scan m n.
Proof.
  unfold rebuilt_index. rewrite dict_get_omap_scan.
  destruct (decide (n ∈ sorted_iterdir m)) as [|Hn]; [done|].
  rewrite elem_of_sorted_iterdir in Hn. unfold scan.
  destruct (m !! n); [|done]. exfalso. apply Hn. by eexists.
Qed.

Section Listing.

Variable data_dir : Path.
Variable json_dump : list (string * FileMeta) → string.

Lemma _rebuild_index_unfold now s :
  _rebuild_index data_dir json_dump now s =
  _write_index data_dir json_dump now
    (mkState (entries s) (rebuilt_index (entries s))).
Proof.
  unfold _rebuild_index, bind, modify, gets, with_index. cbn [entries _index].
  unfold rebuilt_index. rewrite rebuild_fold; [done|apply NoDup_sorted_iterdir|].
  intros n _. apply not_elem_of_nil.
Qed.

Lemma list_files_index now s :
  _index (list_files data_dir json_dump now s).2 = rebuilt_index (entries s).
Proof.
  unfold list_files, bind, gets. rewrite _rebuild_index_unfold.
  pose proof (_write_index_index data_dir json_dump now
    (mkState (entries s) (rebuilt_index (entries s)))) as Hi.
  destruct (_write_index _ _ _ _) as [[[]|e] s']; exact Hi.
Qed.

(** Listing rebuilds the index from the directory alone.  Whatever the index
    held before, afterwards it has, for every regular file other than the
    index file, tracked before or not, the entry made of the file's change
    time, modification time and size and an empty tag list, and no entry for
    any other name; the entries are returned in that order, sorted by name,
    unless persisting the index fails. *)
Lemma list_files_rebuilds_from_disk now s :
  let r := list_files data_dir json_dump now s in
  _index r.2 = rebuilt_index (entries s) ∧
  (r.1 = Ok (dict_values (rebuilt_index (entries s))) ∨
   r.1 = Raise IsADirectoryError) ∧
  ∀ n, dict_get (_index r.2) n =
       match entries s !! n with
       | Some (File c ct mt) =>
           if bool_decide (n = INDEX_FILENAME) then None
           else Some (mkFileMeta n ct mt (String.length c) [])
       | _ => None
       end.
Proof.
  cbn zeta. split; [apply list_files_index|]. split.
  - pose proof (list_files_index now s) as Hi. revert Hi.
    unfold list_files, bind, gets.
    destruct (_rebuild_index _ _ _ _) as [[[]|e] s'] eqn:Hr; simpl.
    + intros ->. by left.
    + intros _. right. f_equal.
      rewrite _rebuild_index_unfold in Hr. by eapply _write_index_raises.
  - intros n. rewrite list_files_index, dict_get_rebuilt. unfold scan.
    destruct (entries s !! n) as [[c ct mt|]|]; [|done..].
    by destruct (bool_decide _).
Qed.

End Listing.

Example sample_filled_entries :
  map_to_list (entries Sample.filled) =
  [("index.json", File "{a.txt}" 2 2);
   ("a.txt", File ("line one" +:+ nl +:+ "another line" +:+ nl +:+ "final" +:+ nl) 2 2)].
Proof. vm_compute. reflexivity. Qed.

Example sample_tagged_index :
  _index Sample.tagged = [("a.txt", mkFileMeta "a.txt" 1 2 28 ["important"])].
Proof. vm_compute. reflexivity. Qed.

Example sample_scenario :
  (find_text lower "another" true Sample.filled).1 = Ok [("a.txt", 2, "another line")] ∧
  (remove_line Sample.dir Sample.dump 3 "a.txt" 2 Sample.filled).1 = Ok "another line" ∧
  (show_file Sample.dir "a.txt"
     (Sample.after (remove_line Sample.dir Sample.dump 3 "a.txt" 2) Sample.filled)).1
  = Ok ["line one"; "final"].
Proof. vm_compute. done. Qed.

(** C3 fails on the code: a document created at time 1, appended to at
    time 2 and tagged [important] is tracked with creation time 1 and that
    tag; listing the collection replaces its entry by one built from the file
    system, so the tag is gone and the creation time is the file's change
    time 2.  The claim wants both kept, as [_update_meta_for] keeps them. *)
Theorem C3_list_discards_metadata :
  let s := Sample.tagged in
  let r := list_files Sample.dir Sample.dump 4 s in
  dict_get (_index s) "a.txt" = Some (mkFileMeta "a.txt" 1 2 28 ["important"]) ∧
  r.1 = Ok [mkFileMeta "a.txt" 2 2 28 []] ∧
  dict_get (_index r.2) "a.txt" = Some (mkFileMeta "a.txt" 2 2 28 []) ∧
  ¬ ∃ new, dict_get (_index r.2) "a.txt" = Some new ∧
           created_at new = 1 ∧ last_modified new = 2 ∧ tags new = ["important"].
Proof.
  cbn zeta. split; [|split; [|split]]; try (vm_compute; reflexivity).
  intros (new & Hnew & Hc & _). vm_compute in Hnew.
  injection Hnew as <-. discriminate Hc.
Qed.

(** C5 on the sample: line 0, an absent document, and line 4 of a three-line
    document. *)
Lemma C5_remove_line_failures_witness :
  remove_line Sample.dir Sample.dump 9 "a.txt" 0 Sample.filled
    = (Raise (ValueError MSG_LINE_NO), Sample.filled) ∧
  remove_line Sample.dir Sample.dump 9 "b.txt" 1 Sample.filled
    = (Raise FileNotFoundError, Sample.filled) ∧
  remove_line Sample.dir Sample.dump 9 "a.txt" 4 Sample.filled
    = (Raise IndexError, Sample.filled).
Proof.
  split; [|split].
  - apply (C5_remove_line_failures Sample.dir Sample.dump 9 "a.txt" 0 Sample.filled).
    lia.
  - apply (proj1 (proj2 (C5_remove_line_failures Sample.dir Sample.dump 9 "b.txt" 1
      Sample.filled)) (Sample.dir ++ ["b.txt"])); [lia|reflexivity|].
    vm_compute. reflexivity.
  - apply (proj1 (proj2 (proj2 (C5_remove_line_failures Sample.dir Sample.dump 9 "a.txt" 4
      Sample.filled))) (Sample.dir ++ ["a.txt"])
      ("line one" +:+ nl +:+ "another line" +:+ nl +:+ "final" +:+ nl) 2 2);
      [lia|reflexivity|vm_compute; reflexivity|vm_compute; reflexivity].
Defined.

(** C6 on a collection of 100 documents: overwriting an existing document is
    rejected as well. *)
Lemma C6_collection_full_witness :
  files_count (entries Sample.full) = 100 ∧
  create_file Sample.dir Sample.dump 1 "f" true Sample.full
    = (Raise (RuntimeError MSG_FULL), Sample.full) ∧
  (∃ e, (create_file Sample.dir Sample.dump 1 "f" false Sample.full).1 = Raise e ∧
        kind_of e = CollectionFull).
Proof.
  assert (files_count (entries Sample.full) = 100) as Hc by (vm_compute; reflexivity).
  split; [done|]. split.
  - apply (C6_collection_full Sample.dir Sample.dump 1 "f" true Sample.full).
    rewrite Hc. unfold MAX_FILES. lia.
  - apply (C6_collection_full Sample.dir Sample.dump 1 "f" false Sample.full).
    rewrite Hc. unfold MAX_FILES. lia.
Defined.

(** C8 on the sample: a tag that is there is not added again, a tag that is
    not there is not removed, and nothing is written. *)
Lemma C8_tags_witness :
  add_tag Sample.dir Sample.dump 5 "a.txt" "important" Sample.tagged
    = (Ok tt, Sample.tagged) ∧
  remove_tag Sample.dir Sample.dump 5 "a.txt" "urgent" Sample.tagged
    = (Ok tt, Sample.tagged).
Proof.
  pose proof (proj2 (proj2 (C8_tags Sample.dir Sample.dump 5 5 "a.txt" "important"
    Sample.tagged)) "a.txt" (mkFileMeta "a.txt" 1 2 28 ["important"])
    eq_refl eq_refl) as (Hadd & _).
  pose proof (proj2 (proj2 (C8_tags Sample.dir Sample.dump 5 5 "a.txt" "urgent"
    Sample.tagged)) "a.txt" (mkFileMeta "a.txt" 1 2 28 ["important"])
    eq_refl eq_refl) as (_ & _ & _ & Hrem & _).
  split.
  - apply Hadd. vm_compute. apply list_elem_of_here.
  - apply Hrem. vm_compute. intros H. inversion H; subst.
    inversion H2.
Defined.

(** ** The index against the directory *)

(** C2 fails on the code: on a collection that holds [a.txt], tracked in the
    index, deleting the document under a name with a directory component
    succeeds and removes the file, but looks the raw name up in the index and
    so keeps the entry of the file that is gone. *)
Theorem C2_remove_file_keeps_stale_entry :
  let s := Sample.filled in
  let r := remove_file Sample.dir Sample.dump 4 "x/a.txt" s in
  index_mirrors_disk s ∧
  r.1 = Ok tt ∧
  entries r.2 !! "a.txt" = None ∧
  is_Some (dict_get (_index r.2) "a.txt") ∧
  ¬ index_mirrors_disk r.2.
Proof.
  cbn zeta. split; [|split; [|split; [|split]]].
  - apply (bool_decide_unpack _). vm_compute. exact I.
  - vm_compute. reflexivity.
  - vm_compute. reflexivity.
  - vm_compute. by eexists.
  - apply (bool_decide_eq_false_1 (index_mirrors_disk _)). vm_compute. reflexivity.
Qed.

(** The same invariant breaks without any directory component: the temporary
    file of [_write_index] is named [index.tmp], which is a valid document
    name, so a document of that name is replaced by the serialised index and
    renamed away while its entry stays. *)
Example index_tmp_document_vanishes :
  let r := create_file Sample.dir Sample.dump 4 "index.tmp" false Sample.filled in
  r.1 = Ok tt ∧
  entries r.2 !! "index.tmp" = None ∧
  is_Some (dict_get (_index r.2) "index.tmp") ∧
  ¬ index_mirrors_disk r.2.
Proof.
  cbn zeta. split; [|split; [|split]].
  - vm_compute. reflexivity.
  - vm_compute. reflexivity.
  - vm_compute. by eexists.
  - apply (bool_decide_eq_false_1 (index_mirrors_disk _)). vm_compute. reflexivity.
Qed.

(** ** Lines of text *)

Lemma app_cons c r b : String c r +:+ b = String c (r +:+ b).
Proof. reflexivity. Qed.

Lemma app_empty_l b : "" +:+ b = b.
Proof. reflexivity. Qed.

Lemma app_empty_r a : a +:+ "" = a.
Proof. induction a as [|c r IH]; [done|]. by rewrite app_cons, IH. Qed.

Lemma app_assoc_str a b c : (a +:+ b) +:+ c = a +:+ (b +:+ c).
Proof. induction a as [|x r IH]; [done|]. by rewrite !app_cons, IH. Qed.

Lemma has_char_app x a b : has_char x (a +:+ b) = has_char x a || has_char x b.
Proof.
  induction a as [|c r IH]; [done|].
  rewrite app_cons. cbn [has_char]. by rewrite IH, orb_assoc.
Qed.

(** Induction over strings two characters at a time, as
    [universal_newlines] recurses. *)
Lemma string_pair_ind (P : string → Prop) :
  P "" → (∀ c, P (String c "")) →
  (∀ c d r, P r → P (String d r) → P (String c (String d r))) →
  ∀ s, P s.
Proof.
  intros H0 H1 H2 s.
  enough (P s ∧ ∀ c, P (String c s)) as [? _] by done.
  induction s as [|d r [IHr IHc]]; [by split|].
  split; [apply IHc|]. intros c. apply H2; [done|apply IHc].
Qed.

Lemma terminated_cons c r :
  terminated (String c r) = true →
  terminated r = true ∧ (r = "" → c = LF).
Proof.
  cbn [terminated ends_with_lf]. destruct r as [|d r]; [|by split].
  intros Hc%Ascii.eqb_eq. by split.
Qed.

Lemma terminated_cons_2 c r : r ≠ "" → terminated r = true → terminated (String c r) = true.
Proof. by destruct r. Qed.

Lemma universal_newlines_empty s : universal_newlines s = "" → s = "".
Proof.
  destruct s as [|c r]; [done|]. cbn [universal_newlines].
  destruct (Ascii.eqb c CR); [|done]. destruct r as [|d r]; [done|].
  by destruct (Ascii.eqb d LF).
Qed.

Lemma universal_newlines_pair c d r :
  universal_newlines (String c (String d r)) =
  if Ascii.eqb c CR then
    if Ascii.eqb d LF then String LF (universal_newlines r)
    else String LF (universal_newlines (String d r))
  else String c (universal_newlines (String d r)).
Proof. reflexivity. Qed.

Lemma universal_newlines_app a b :
  terminated a = true →
  universal_newlines (a +:+ b) = universal_newlines a +:+ universal_newlines b.
Proof.
  revert a. apply (string_pair_ind (λ a, terminated a = true →
    universal_newlines (a +:+ b) = universal_newlines a +:+ universal_newlines b)).
  - done.
  - intros c [_ Hc]%terminated_cons. rewrite (Hc eq_refl). done.
  - intros c d r IHr IHd [Hd _]%terminated_cons.
    pose proof Hd as [Hr _]%terminated_cons.
    rewrite !app_cons, !universal_newlines_pair.
    rewrite <- (app_cons d r b).
    destruct (Ascii.eqb c CR).
    + destruct (Ascii.eqb d LF).
      * by rewrite (IHr Hr).
      * by rewrite (IHd Hd).
    + by rewrite (IHd Hd).
Qed.

Lemma terminated_universal_newlines a :
  terminated a = true → terminated (universal_newlines a) = true.
Proof.
  revert a. apply (string_pair_ind (λ a, terminated a = true →
    terminated (universal_newlines a) = true)).
  - done.
  - intros c [_ Hc]%terminated_cons. rewrite (Hc eq_refl). done.
  - intros c d r IHr IHd [Hd _]%terminated_cons.
    pose proof Hd as [Hr Hr0]%terminated_cons.
    assert (universal_newlines (String d r) ≠ "") as Hne.
    { by intros ?%universal_newlines_empty. }
    rewrite universal_newlines_pair.
    destruct (Ascii.eqb c CR).
    + destruct (Ascii.eqb d LF).
      * destruct (universal_newlines r) eqn:Hu; [done|].
        apply terminated_cons_2; [done|]. by apply IHr.
      * apply terminated_cons_2; [done|]. by apply IHd.
    + apply terminated_cons_2; [done|]. by apply IHd.
Qed.

Lemma split_lines_empty s : split_lines s = [] → s = "".
Proof.
  destruct s as [|c r]; [done|]. cbn [split_lines].
  destruct (Ascii.eqb c LF); [done|]. by destruct (split_lines r).
Qed.

Lemma split_lines_app a b :
  terminated a = true → split_lines (a +:+ b) = split_lines a ++ split_lines b.
Proof.
  induction a as [|c r IH]; [done|].
  intros [Hr Hc]%terminated_cons. rewrite app_cons. cbn [split_lines].
  destruct (Ascii.eqb c LF) eqn:Hlf.
  - by rewrite (IH Hr).
  - rewrite (IH Hr). destruct (split_lines r) as [|l ls] eqn:Hs; [|done].
    apply split_lines_empty in Hs. rewrite (Hc Hs) in Hlf. done.
Qed.

Lemma readlines_app a b :
  terminated a = true → readlines (a +:+ b) = readlines a ++ readlines b.
Proof.
  intros Ha. unfold readlines. rewrite universal_newlines_app by done.
  apply split_lines_app. by apply terminated_universal_newlines.
Qed.

Lemma universal_newlines_no_cr s : has_char CR s = false → universal_newlines s = s.
Proof.
  induction s as [|c r IH]; [done|]. cbn [has_char universal_newlines].
  intros [Hc Hr]%orb_false_iff. rewrite Ascii.eqb_sym, Hc. by rewrite IH.
Qed.

Lemma split_lines_line x rest :
  has_char LF x = false → split_lines ((x +:+ nl) +:+ rest) = (x +:+ nl) :: split_lines rest.
Proof.
  induction x as [|c r IH]; [done|]. cbn [has_char].
  intros [Hc Hr]%orb_false_iff. rewrite !app_cons. cbn [split_lines].
  rewrite Ascii.eqb_sym, Hc. by rewrite (IH Hr).
Qed.

Lemma rstrip_nl_app_nl x : rstrip_nl (x +:+ nl) = rstrip_nl x.
Proof.
  induction x as [|c r IH]; [done|].
  rewrite app_cons. cbn [rstrip_nl]. by rewrite IH.
Qed.

Lemma rstrip_nl_idemp s : rstrip_nl (rstrip_nl s) = rstrip_nl s.
Proof.
  induction s as [|c r IH]; [done|]. cbn [rstrip_nl].
  destruct (rstrip_nl r) as [|d r'] eqn:Hr.
  - destruct (Ascii.eqb c LF) eqn:Hc; [done|].
    cbn [rstrip_nl]. by rewrite Hc.
  - cbn [rstrip_nl] in *. by rewrite IH.
Qed.

Lemma readlines_normalized (lines : list string) :
  Forall single_line lines →
  readlines (joined (normalized <$> lines)) = normalized <$> lines.
Proof.
  intros Hall. unfold readlines.
  rewrite universal_newlines_no_cr.
  - induction Hall as [|l ls [Hlf _] _ IH]; [done|].
    cbn [fmap list_fmap joined foldr]. fold (joined (normalized <$> ls)).
    unfold normalized at 1. rewrite split_lines_line by done.
    f_equal. exact IH.
  - induction Hall as [|l ls [_ Hcr] _ IH]; [done|].
    cbn [fmap list_fmap joined foldr]. fold (joined (normalized <$> ls)).
    unfold normalized at 1. rewrite !has_char_app, Hcr, IH. done.
Qed.

Lemma rstrip_nl_normalized (lines : list string) :
  rstrip_nl <$> (normalized <$> lines) = rstrip_nl <$> lines.
Proof.
  rewrite <- list_fmap_compose. apply list_fmap_ext. intros _ l _. simpl.
  unfold normalized. by rewrite rstrip_nl_app_nl, rstrip_nl_idemp.
Qed.

(** ** Appending and reading back *)

Section AppendRead.

Variable data_dir : Path.
Variable json_dump : list (string * FileMeta) → string.

(** A sanitized name whose path holds a regular file names an entry of the
    collection directory. *)
Lemma _file_path_File name path s c ct mt :
  _file_path data_dir name = Ok path →
  lookup_path data_dir path s = Some (File c ct mt) →
  ∃ base, _sanitize_filename name = Ok base ∧ path = joinpath data_dir base ∧
          locate data_dir path = Inside base ∧ path_name path = base ∧
          entries s !! base = Some (File c ct mt) ∧ base ≠ INDEX_FILENAME.
Proof.
  unfold _file_path, lookup_path.
  destruct (_sanitize_filename name) as [base|] eqn:Hs; [|done].
  intros [= <-] Hl. exists base.
  destruct (decide (base = ".")) as [->|Hd].
  { by rewrite locate_self in Hl. }
  destruct (decide (base = "..")) as [->|Hdd].
  { by rewrite locate_parent in Hl. }
  rewrite locate_child in Hl by done.
  apply sanitize_Ok in Hs as (_ & _ & _ & Hi).
  repeat split; try done.
  - by apply locate_child.
  - by apply path_name_joinpath.
Qed.

Lemma show_file_File name path s c ct mt :
  _file_path data_dir name = Ok path →
  lookup_path data_dir path s = Some (File c ct mt) →
  show_file data_dir name s = (Ok (rstrip_nl <$> readlines c), s).
Proof.
  intros Hp Hl. unfold show_file, bind, lift, path_exists, gets, read_text.
  rewrite Hp, Hl. rewrite bool_decide_eq_true_2 by eauto. cbn [negb].
  by rewrite Hl.
Qed.

Lemma add_lines_unfold now name (lines : list string) path s c ct mt :
  _file_path data_dir name = Ok path →
  lookup_path data_dir path s = Some (File c ct mt) →
  let text := joined (normalized <$> lines) in
  let stamp := if bool_decide (text = "") then (ct, mt) else (now, now) in
  add_lines data_dir json_dump now name lines s =
  _update_meta_for data_dir json_dump now path
    (with_entries (<[path_name path := File (c +:+ text) stamp.1 stamp.2]>) s).
Proof.
  intros Hp Hl. cbn zeta.
  destruct (_file_path_File _ _ _ _ _ _ Hp Hl) as (base & _ & _ & Hloc & Hn & He & _).
  unfold add_lines, bind, lift, path_exists, gets, append_text.
  rewrite Hp, Hl. rewrite bool_decide_eq_true_2 by eauto. cbn [negb].
  rewrite Hloc, He, Hn. fold normalized.
  destruct (bool_decide (joined (normalized <$> lines) = "")) eqn:Ht; [|done].
  apply bool_decide_eq_true in Ht. rewrite Ht, app_empty_r. cbn [fst snd].
  unfold with_entries. rewrite insert_id by done. by destruct s.
Qed.

(** C4 (amended): for a document other than [index.tmp] whose text is empty
    or ends with a line feed, and for lines that hold no line break once
    their trailing line feeds are stripped, appending writes every line
    with its trailing line feeds replaced by exactly one, and reading the
    document back yields the previous lines followed by the appended
    lines, stripped of their trailing line feeds, in order. *)
Theorem C4_append_then_read now name (lines : list string) s path c ct mt :
  _file_path data_dir name = Ok path →
  lookup_path data_dir path s = Some (File c ct mt) →
  path_name path ≠ TMP_FILENAME →
  terminated c = true →
  Forall single_line lines →
  let r := add_lines data_dir json_dump now name lines s in
  (r.1 = Ok tt ∨ r.1 = Raise IsADirectoryError) ∧
  (∃ ct' mt', lookup_path data_dir path r.2
     = Some (File (c +:+ joined (normalized <$> lines)) ct' mt')) ∧
  show_file data_dir name s = (Ok (rstrip_nl <$> readlines c), s) ∧
  show_file data_dir name r.2
    = (Ok ((rstrip_nl <$> readlines c) ++ (rstrip_nl <$> lines)), r.2).
Proof.
  intros Hp Hl Htmp Hterm Hlines. cbn zeta.
  destruct (_file_path_File _ _ _ _ _ _ Hp Hl) as (base & _ & _ & Hloc & Hn & He & Hi).
  rewrite (add_lines_unfold _ _ _ _ _ _ _ _ Hp Hl). rewrite Hn in *.
  set (text := c +:+ joined (normalized <$> lines)).
  generalize (if bool_decide (joined (normalized <$> lines) = "")
              then (ct, mt) else (now, now)).
  intros [ct' mt']. cbn [fst snd].
  set (s1 := with_entries (<[base := File text ct' mt']>) s).
  assert (lookup_path data_dir path s1 = Some (File text ct' mt')) as Hl1.
  { unfold lookup_path. rewrite Hloc. simpl. apply lookup_insert_eq. }
  rewrite (_update_meta_for_unfold _ _ _ _ _ _ _ _ Hl1). cbn zeta.
  set (s2 := with_index _ s1).
  assert (lookup_path data_dir path (_write_index data_dir json_dump now s2).2
          = Some (File text ct' mt')) as Hl2.
  { unfold lookup_path. rewrite Hloc. rewrite _write_index_other by done.
    simpl. apply lookup_insert_eq. }
  split; [|split; [by eauto|split]].
  - destruct (_write_index data_dir json_dump now s2) as [[[]|e] s3] eqn:Hw.
    + by left.
    + right. simpl. f_equal. by eapply _write_index_raises.
  - by eapply show_file_File.
  - rewrite (show_file_File _ _ _ _ _ _ Hp Hl2). do 2 f_equal.
    unfold text. rewrite readlines_app by done.
    rewrite readlines_normalized by done.
    by rewrite fmap_app, rstrip_nl_normalized.
Qed.

End AppendRead.

(** C4, as the specification words it, does not hold: a line with a line
    break inside is read back as two lines. *)
Lemma C4_line_break_inside_a_line :
  let s := Sample.created in
  let line := "a" +:+ nl +:+ "b" in
  let s' := (add_lines Sample.dir Sample.dump 2 "a.txt" [line] s).2 in
  show_file Sample.dir "a.txt" s = (Ok [], s) ∧
  show_file Sample.dir "a.txt" s' = (Ok ["a"; "b"], s') ∧
  (show_file Sample.dir "a.txt" s').1 ≠ Ok ([] ++ (rstrip_nl <$> [line])).
Proof.
  cbn zeta. split; [|split].
  - vm_compute. reflexivity.
  - vm_compute. reflexivity.
  - vm_compute. discriminate.
Qed.

(** C4 on the sample: two more lines, the second with two trailing line
    feeds. *)
Lemma C4_append_then_read_witness :
  let r := add_lines Sample.dir Sample.dump 5 "a.txt" ["x"; "y" +:+ nl +:+ nl] Sample.filled in
  show_file Sample.dir "a.txt" r.2
    = (Ok (["line one"; "another line"; "final"] ++ ["x"; "y"]), r.2).
Proof.
  cbn zeta.
  apply (C4_append_then_read Sample.dir Sample.dump 5 "a.txt"
    ["x"; "y" +:+ nl +:+ nl] Sample.filled (Sample.dir ++ ["a.txt"])
    ("line one" +:+ nl +:+ "another line" +:+ nl +:+ "final" +:+ nl) 2 2).
  - reflexivity.
  - vm_compute. reflexivity.
  - vm_compute. discriminate.
  - vm_compute. reflexivity.
  - apply (bool_decide_unpack _). vm_compute. exact I.
Defined.

(** ** Lines written back are the lines read *)

Lemma lines_wf_cons l rest :
  lines_wf (l :: rest) ↔
  (rest = [] ∧ (full_line l ∨ open_line l)) ∨
  (rest ≠ [] ∧ full_line l ∧ lines_wf rest).
Proof.
  destruct rest as [|l' rest]; cbn [lines_wf].
  - split; [by left|]. by intros [[_ ?]|[? _]].
  - split; [by right|]. by intros [[? _]|[_ ?]].
Qed.

Lemma has_char_universal_newlines s : has_char CR (universal_newlines s) = false.
Proof.
  revert s. apply string_pair_ind.
  - done.
  - intros c. cbn [universal_newlines].
    destruct (Ascii.eqb c CR) eqn:Hc; [done|].
    cbn [has_char]. by rewrite Ascii.eqb_sym, Hc.
  - intros c d r IHr IHd. rewrite universal_newlines_pair.
    destruct (Ascii.eqb c CR) eqn:Hc.
    + destruct (Ascii.eqb d LF); cbn [has_char]; [by rewrite IHr|by rewrite IHd].
    + cbn [has_char]. by rewrite Ascii.eqb_sym, Hc, IHd.
Qed.

Lemma full_line_cons c l :
  Ascii.eqb c LF = false → Ascii.eqb c CR = false → full_line l → full_line (String c l).
Proof.
  intros Hlf Hcr (b & -> & Hb1 & Hb2). exists (String c b).
  split; [done|]. cbn [has_char].
  by rewrite (Ascii.eqb_sym LF), (Ascii.eqb_sym CR), Hlf, Hcr, Hb1, Hb2.
Qed.

Lemma open_line_cons c l :
  Ascii.eqb c LF = false → Ascii.eqb c CR = false →
  has_char LF l = false → has_char CR l = false → open_line (String c l).
Proof.
  intros Hlf Hcr Hl1 Hl2. split; [done|]. cbn [has_char].
  by rewrite (Ascii.eqb_sym LF), (Ascii.eqb_sym CR), Hlf, Hcr, Hl1, Hl2.
Qed.

Lemma lines_wf_split_lines t : has_char CR t = false → lines_wf (split_lines t).
Proof.
  induction t as [|c r IH]; [done|]. cbn [has_char split_lines].
  intros [Hc Hr]%orb_false_iff. specialize (IH Hr).
  rewrite Ascii.eqb_sym in Hc.
  destruct (Ascii.eqb c LF) eqn:Hlf.
  - assert (full_line nl) as Hnl by (by exists "").
    apply lines_wf_cons. destruct (split_lines r) as [|l ls].
    + left. split; [done|by left].
    + right. by repeat split.
  - destruct (split_lines r) as [|l ls].
    + right. by apply open_line_cons.
    + apply lines_wf_cons in IH as [[-> [Hf|(_ & Hl1 & Hl2)]]|(Hne & Hf & Hwf)];
        apply lines_wf_cons.
      * left. split; [done|]. left. by apply full_line_cons.
      * left. split; [done|]. right. by apply open_line_cons.
      * right. split; [done|]. split; [by apply full_line_cons|done].
Qed.

Lemma lines_wf_readlines c : lines_wf (readlines c).
Proof. apply lines_wf_split_lines, has_char_universal_newlines. Qed.

Lemma lines_wf_delete ls i : lines_wf ls → lines_wf (delete i ls).
Proof.
  revert i. induction ls as [|l rest IH]; intros i Hwf; [done|].
  apply lines_wf_cons in Hwf. destruct i as [|i]; cbn [delete list_delete].
  - destruct Hwf as [[-> _]|(_ & _ & Hwf)]; done.
  - destruct Hwf as [[-> Hl]|(Hne & Hf & Hwf)]; [by apply lines_wf_cons; left|].
    apply lines_wf_cons. pose proof (IH i Hwf) as Hwf'.
    destruct (delete i rest) as [|l' rest'].
    + left. split; [done|by left].
    + right. by repeat split.
Qed.

Lemma split_lines_open l :
  l ≠ "" → has_char LF l = false → split_lines l = [l].
Proof.
  induction l as [|c r IH]; [done|]. intros _. cbn [has_char split_lines].
  intros [Hc Hr]%orb_false_iff. rewrite Ascii.eqb_sym, Hc.
  destruct r as [|d r']; [done|]. by rewrite IH.
Qed.

Lemma lines_wf_no_cr ls : lines_wf ls → has_char CR (joined ls) = false.
Proof.
  induction ls as [|l rest IH]; [done|]. intros Hwf.
  cbn [joined foldr]. fold (joined rest). rewrite has_char_app.
  apply lines_wf_cons in Hwf as [[-> Hl]|(_ & Hf & Hwf)].
  - rewrite orb_false_r. destruct Hl as [(b & -> & _ & Hb)|(_ & _ & Hl)]; [|done].
    by rewrite has_char_app, Hb.
  - rewrite (IH Hwf), orb_false_r. destruct Hf as (b & -> & _ & Hb).
    by rewrite has_char_app, Hb.
Qed.

Lemma split_lines_joined ls : lines_wf ls → split_lines (joined ls) = ls.
Proof.
  induction ls as [|l rest IH]; [done|]. intros Hwf.
  cbn [joined foldr]. fold (joined rest).
  apply lines_wf_cons in Hwf as [[-> Hl]|(_ & Hf & Hwf)].
  - cbn [joined foldr]. destruct Hl as [(b & -> & Hb & _)|(Hne & Hl & _)].
    + by rewrite split_lines_line.
    + rewrite app_empty_r. by apply split_lines_open.
  - destruct Hf as (b & -> & Hb & _). rewrite split_lines_line by done.
    by rewrite (IH Hwf).
Qed.

Lemma readlines_joined ls : lines_wf ls → readlines (joined ls) = ls.
Proof.
  intros Hwf. unfold readlines.
  rewrite universal_newlines_no_cr by (by apply lines_wf_no_cr).
  by apply split_lines_joined.
Qed.

(** ** Searching *)

(** The substring test is the literal one. *)
Lemma prefix_spec needle hay :
  String.prefix needle hay = true ↔ ∃ b, hay = needle +:+ b.
Proof.
  revert hay. induction needle as [|c r IH]; intros hay.
  - split; [intros _; by exists hay|intros _; by destruct hay].
  - destruct hay as [|d h]; cbn [String.prefix].
    + split; [done|]. intros [b Hb]. by rewrite app_cons in Hb.
    + destruct (ascii_dec c d) as [->|Hne].
      * rewrite IH. split; intros [b Hb]; exists b.
        -- by rewrite app_cons, Hb.
        -- rewrite app_cons in Hb. by injection Hb.
      * split; [done|]. intros [b Hb]. rewrite app_cons in Hb. by injection Hb.
Qed.

Lemma str_contains_spec needle hay :
  str_contains needle hay = true ↔ ∃ a b, hay = a +:+ (needle +:+ b).
Proof.
  induction hay as [|d h IH].
  - cbn [str_contains]. rewrite orb_false_r, prefix_spec. split.
    + intros [b Hb]. by exists "", b.
    + intros (a & b & Hab). destruct a; [by exists b|by rewrite app_cons in Hab].
  - cbn [str_contains]. rewrite orb_true_iff, prefix_spec, IH. split.
    + intros [[b Hb]|(a & b & Hab)].
      * by exists "", b.
      * exists (String d a), b. by rewrite app_cons, Hab.
    + intros ([|c a] & b & Hab).
      * left. by exists b.
      * right. rewrite app_cons in Hab. injection Hab as -> ->. by exists a, b.
Qed.

Lemma joined_split_lines t : joined (split_lines t) = t.
Proof.
  induction t as [|c r IH]; [done|]. cbn [split_lines].
  destruct (Ascii.eqb c LF) eqn:Hc.
  - apply Ascii.eqb_eq in Hc as ->. cbn [joined foldr]. fold (joined (split_lines r)).
    by rewrite IH.
  - destruct (split_lines r) as [|l ls].
    + cbn [joined foldr] in *. by rewrite <- IH.
    + cbn [joined foldr] in *. by rewrite <- IH.
Qed.

Lemma joined_readlines c : joined (readlines c) = universal_newlines c.
Proof. apply joined_split_lines. Qed.

(** The lines of a text are determined by the text. *)
Lemma lines_unique (ls : list string) c :
  lines_wf ls → joined ls = universal_newlines c → readlines c = ls.
Proof.
  intros Hwf Hj. unfold readlines. rewrite <- Hj. by apply split_lines_joined.
Qed.

Lemma lower_app a b : lower (a +:+ b) = lower a +:+ lower b.
Proof. induction a as [|x r IH]; [done|]. rewrite app_cons. cbn [lower]. by rewrite IH. Qed.

Section Search.

Variable str_lower : string → string.

Lemma find_text_unfold text ignore_case s :
  find_text str_lower text ignore_case s =
  (Ok (mjoin (file_hits str_lower (entries s) (fold_case str_lower ignore_case text) ignore_case
              <$> sorted_iterdir (entries s))), s).
Proof. reflexivity. Qed.

Lemma elem_of_scan_file needle ic n (lines : list string) h :
  h ∈ scan_file str_lower needle ic n lines ↔
  ∃ i line, lines !! i = Some line ∧
            str_contains needle (fold_case str_lower ic line) = true ∧
            h = (n, S i, rstrip_nl line).
Proof.
  unfold scan_file. rewrite list_elem_of_join. split.
  - intros (l & Hh & Hl). apply elem_of_lookup_imap in Hl as (i & line & -> & Hi).
    exists i, line. fold (fold_case str_lower ic line) in Hh.
    destruct (str_contains needle (fold_case str_lower ic line)); [|by apply elem_of_nil in Hh].
    apply list_elem_of_singleton in Hh. done.
  - intros (i & line & Hi & Hc & ->).
    exists [(n, S i, rstrip_nl line)]. split; [apply list_elem_of_singleton; done|].
    apply elem_of_lookup_imap. exists i, line. split; [|done].
    fold (fold_case str_lower ic line). by rewrite Hc.
Qed.

Lemma scan_file_sorted_from needle ic n (lines : list string) k :
  StronglySorted hit_lt (mjoin (imap (hit_at str_lower needle ic n k) lines)) ∧
  Forall (λ h, h.1.1 = n ∧ k < h.1.2) (mjoin (imap (hit_at str_lower needle ic n k) lines)).
Proof.
  revert k. induction lines as [|line lines IH]; intros k.
  - split; constructor.
  - cbn [imap mjoin list_join].
    assert (imap (hit_at str_lower needle ic n k ∘ S) lines
            = imap (hit_at str_lower needle ic n (S k)) lines) as ->.
    { apply imap_ext. intros i x _. unfold hit_at, compose.
      by rewrite Nat.add_succ_r. }
    destruct (IH (S k)) as [Hs Hf].
    assert (Forall (λ h : string * nat * string, h.1.1 = n ∧ k < h.1.2)
      (mjoin (imap (hit_at str_lower needle ic n (S k)) lines))) as Hf'.
    { eapply Forall_impl; [exact Hf|]. simpl. intros h [? ?]. split; [done|lia]. }
    unfold hit_at at 1 3.
    destruct (str_contains needle (fold_case str_lower ic line)); cbn [app].
    + split.
      * constructor; [done|]. eapply Forall_impl; [exact Hf|].
        intros h [Hn Hk]. right. simpl. split; [done|lia].
      * constructor; [simpl; split; [done|lia]|done].
    + by split.
Qed.

Lemma scan_file_sorted needle ic n (lines : list string) :
  StronglySorted hit_lt (scan_file str_lower needle ic n lines) ∧
  Forall (λ h, h.1.1 = n) (scan_file str_lower needle ic n lines).
Proof.
  destruct (scan_file_sorted_from needle ic n lines 0) as [Hs Hf].
  split; [exact Hs|]. eapply Forall_impl; [exact Hf|]. by intros h [? _].
Qed.

Lemma file_hits_sorted m needle ic n :
  StronglySorted hit_lt (file_hits str_lower m needle ic n) ∧
  Forall (λ h, h.1.1 = n) (file_hits str_lower m needle ic n).
Proof.
  unfold file_hits. destruct (m !! n) as [[c ct mt|]|]; [|by split; constructor..].
  destruct (bool_decide _); [by split; constructor|]. apply scan_file_sorted.
Qed.

Lemma StronglySorted_strict (names : list string) :
  StronglySorted String.le names → NoDup names → StronglySorted name_lt names.
Proof.
  induction 1 as [|n names Hs IH Hall]; intros Hnd; [constructor|].
  apply NoDup_cons in Hnd as [Hn Hnd]. constructor; [by apply IH|].
  apply Forall_forall. intros n' Hin. split.
  - rewrite Forall_forall in Hall. by apply Hall.
  - by intros ->.
Qed.

Lemma sorted_iterdir_strict m : StronglySorted name_lt (sorted_iterdir m).
Proof.
  apply StronglySorted_strict; [|apply NoDup_sorted_iterdir].
  unfold sorted_iterdir. apply (StronglySorted_merge_sort String.le).
Qed.

Lemma hits_sorted (hits : string → list (string * nat * string)) names :
  (∀ n, StronglySorted hit_lt (hits n) ∧ Forall (λ h, h.1.1 = n) (hits n)) →
  StronglySorted name_lt names →
  StronglySorted hit_lt (mjoin (hits <$> names)).
Proof.
  intros Hhits. induction 1 as [|n names Hs IH Hall]; [constructor|].
  cbn [fmap list_fmap mjoin list_join].
  apply StronglySorted_app_2; [|apply Hhits|exact IH].
  intros x y Hx Hy. left.
  destruct (Hhits n) as [_ Hn]. rewrite Forall_forall in Hn.
  rewrite (Hn _ Hx).
  apply list_elem_of_join in Hy as (l & Hy & Hl).
  apply list_elem_of_fmap in Hl as (n' & -> & Hn').
  destruct (Hhits n') as [_ Hn2]. rewrite Forall_forall in Hn2.
  rewrite (Hn2 _ Hy). rewrite Forall_forall in Hall. by apply Hall.
Qed.

Lemma name_lt_irrefl n : ¬ name_lt n n.
Proof. by intros [_ ?]. Qed.

Lemma hit_lt_keys_NoDup (l : list (string * nat * string)) :
  StronglySorted hit_lt l → NoDup ((λ h, (h.1.1, h.1.2)) <$> l).
Proof.
  induction 1 as [|x l Hs IH Hall]; [constructor|].
  cbn [fmap list_fmap]. apply NoDup_cons. split; [|exact IH].
  intros (y & Heq & Hy)%list_elem_of_fmap.
  rewrite Forall_forall in Hall. specialize (Hall _ Hy).
  injection Heq as Hf Hi.
  destruct Hall as [Hlt|[_ Hlt]].
  - rewrite Hf in Hlt. by apply name_lt_irrefl in Hlt.
  - lia.
Qed.

Lemma elem_of_find_text text ic s f i t :
  (f, i, t) ∈ mjoin (file_hits str_lower (entries s) (fold_case str_lower ic text) ic
                      <$> sorted_iterdir (entries s)) ↔
  ∃ c ct mt line,
    entries s !! f = Some (File c ct mt) ∧ f ≠ INDEX_FILENAME ∧
    1 ≤ i ∧ readlines c !! (i - 1) = Some line ∧
    str_contains (fold_case str_lower ic text) (fold_case str_lower ic line) = true ∧
    t = rstrip_nl line.
Proof.
  rewrite list_elem_of_join. split.
  - intros (l & Hh & Hl). apply list_elem_of_fmap in Hl as (n & -> & Hn).
    unfold file_hits in Hh.
    destruct (entries s !! n) as [[c ct mt|]|] eqn:Hm; [|by apply elem_of_nil in Hh..].
    destruct (bool_decide (n = INDEX_FILENAME)) eqn:Hi; [by apply elem_of_nil in Hh|].
    apply bool_decide_eq_false in Hi.
    apply elem_of_scan_file in Hh as (j & line & Hj & Hc & Heq).
    injection Heq as -> -> ->. exists c, ct, mt, line.
    repeat split; try done; [lia|]. by rewrite Nat.sub_1_r.
  - intros (c & ct & mt & line & Hm & Hi & Hge & Hl & Hc & ->).
    exists (file_hits str_lower (entries s) (fold_case str_lower ic text) ic f). split.
    + unfold file_hits. rewrite Hm, bool_decide_eq_false_2 by done.
      apply elem_of_scan_file. exists (i - 1), line.
      repeat split; try done. do 2 f_equal. lia.
    + apply list_elem_of_fmap. exists f. split; [done|].
      apply elem_of_sorted_iterdir. by eexists.
Qed.

(** C7: [find_text] reports exactly the lines of the regular files other
    than the index file whose text, lowered by [str.lower] when case is
    ignored, holds the needle, lowered likewise, as a literal substring: the
    lines are those the text of the file is made of, each ending with its
    line feed and the last possibly without one; the report gives the file
    name, the 1-based line number and the line without its trailing line
    feeds.  The results come in ascending order of file name and, within a
    file, of line number, so a line is reported once however often it holds
    the needle; the index file is never reported.  With case ignored the
    needle [ERROR] is found in every line of ASCII text that holds
    [error occurred], and in the collection [Logs.logged] it is found in
    three lines of two files, one of which holds it twice. *)
Theorem C7_find_text text ignore_case s :
  ∃ results,
    find_text str_lower text ignore_case s = (Ok results, s) ∧
    (∀ f i t, (f, i, t) ∈ results ↔
       ∃ c ct mt (ls : list string) line,
         entries s !! f = Some (File c ct mt) ∧ f ≠ INDEX_FILENAME ∧
         lines_wf ls ∧ joined ls = universal_newlines c ∧
         1 ≤ i ∧ ls !! (i - 1) = Some line ∧
         (∃ a b, fold_case str_lower ignore_case line
                 = a +:+ fold_case str_lower ignore_case text +:+ b) ∧
         t = rstrip_nl line) ∧
    StronglySorted hit_lt results ∧
    NoDup ((λ h, (h.1.1, h.1.2)) <$> results) ∧
    Forall (λ h, h.1.1 ≠ INDEX_FILENAME) results ∧
    (∀ a b, ascii_only a = true → ascii_only b = true →
       ∃ a' b', fold_case lower true (a +:+ "error occurred" +:+ b)
                = a' +:+ fold_case lower true "ERROR" +:+ b') ∧
    find_text lower "ERROR" true Logs.logged
      = (Ok [("A.txt", 1, "Another Error");
             ("b.log", 1, "An error occurred");
             ("b.log", 3, "ERROR: error again")], Logs.logged) ∧
    find_text lower "ERROR" false Logs.logged
      = (Ok [("b.log", 3, "ERROR: error again")], Logs.logged).
Proof.
  eexists. split; [apply find_text_unfold|].
  set (hits := mjoin (file_hits str_lower (entries s)
                        (fold_case str_lower ignore_case text) ignore_case
                      <$> sorted_iterdir (entries s))).
  assert (StronglySorted hit_lt hits) as Hsorted.
  { apply hits_sorted; [apply file_hits_sorted|apply sorted_iterdir_strict]. }
  split; [|split; [exact Hsorted|split; [by apply hit_lt_keys_NoDup|split; [|split]]]].
  - intros f i t. unfold hits. rewrite elem_of_find_text. split.
    + intros (c & ct & mt & line & Hm & Hi & Hge & Hl & Hc & ->).
      exists c, ct, mt, (readlines c), line.
      split; [done|]. split; [done|]. split; [apply lines_wf_readlines|].
      split; [apply joined_readlines|]. split; [done|]. split; [done|].
      split; [by apply str_contains_spec|done].
    + intros (c & ct & mt & ls & line & Hm & Hi & Hwf & Hj & Hge & Hl & Hc & ->).
      exists c, ct, mt, line. rewrite (lines_unique ls c Hwf Hj).
      split; [done|]. split; [done|]. split; [done|]. split; [done|].
      split; [by apply str_contains_spec|done].
  - apply Forall_forall. intros [[f i] t] Hin. unfold hits in Hin.
    apply elem_of_find_text in Hin as (c & ct & mt & line & _ & Hi & _). exact Hi.
  - intros a b _ _. exists (lower a), (" occurred" +:+ lower b).
    cbn [fold_case]. rewrite !lower_app. reflexivity.
  - split; vm_compute; reflexivity.
Qed.

End Search.

(** ** Failures in the middle of a write *)

Section Interrupted.

Variable data_dir : Path.
Variable json_dump : list (string * FileMeta) → string.

(** A failure while the index is written leaves [index.json] as it was:
    only the temporary file was touched. *)
Lemma _write_index_faulty_keeps_index k now s :
  entries (_write_index_faulty data_dir json_dump k now s).2 !! INDEX_FILENAME
  = entries s !! INDEX_FILENAME.
Proof.
  unfold _write_index_faulty, bind, gets, raise, write_text.
  rewrite tmp_path_eq, locate_tmp.
  destruct (entries s !! TMP_FILENAME) as [[c ct mt|]|]; simpl; try done.
  all: by rewrite lookup_insert_ne.
Qed.

(** A failure while a document is rewritten leaves the lines written so
    far in the document. *)
Lemma remove_line_faulty_partial k now name line_no s path c ct mt removed rest :
  (1 ≤ line_no)%Z →
  _file_path data_dir name = Ok path →
  lookup_path data_dir path s = Some (File c ct mt) →
  pop (Z.to_nat (line_no - 1)) (readlines c) = Some (removed, rest) →
  remove_line_faulty data_dir json_dump (Some k) now name line_no s =
  (Raise OSError,
   with_entries (<[path_name path := File (joined (take k rest)) now now]>) s).
Proof.
  intros Hge Hp Hl Hpop.
  destruct (_file_path_File _ _ _ _ _ _ _ Hp Hl) as (base & _ & _ & Hloc & Hn & He & _).
  unfold remove_line_faulty. rewrite (proj2 (Z.ltb_ge _ _) Hge).
  unfold bind at 1, lift. rewrite Hp.
  unfold bind at 1, path_exists, gets. rewrite Hl.
  rewrite bool_decide_eq_true_2 by eauto. cbn [negb].
  unfold bind at 1, read_text. rewrite Hl.
  assert ((Z.of_nat (length (readlines c)) <? line_no)%Z = false) as ->.
  { apply Z.ltb_ge. unfold pop in Hpop.
    destruct (readlines c !! Z.to_nat (line_no - 1)) eqn:Hlk; [|done].
    apply lookup_lt_Some in Hlk. lia. }
  rewrite Hpop. unfold rewrite_lines, bind, raise, write_text.
  by rewrite Hloc, He, Hn.
Qed.

End Interrupted.

(** C9 fails on the code: [remove_line] rewrites the document in place.
    With the three-line document of the sample, deleting line 1 while the
    storage fails after one of the two remaining lines is written leaves the
    document with that single line: neither the old text nor the new one.
    The index, in contrast, is written to a temporary file and renamed, and
    the same failure leaves it untouched. *)
Theorem C9_rewrite_leaves_partial_document :
  let s := Sample.filled in
  let old := "line one" +:+ nl +:+ "another line" +:+ nl +:+ "final" +:+ nl in
  let new := "another line" +:+ nl +:+ "final" +:+ nl in
  let done := remove_line Sample.dir Sample.dump 3 "a.txt" 1 s in
  let failed := remove_line_faulty Sample.dir Sample.dump (Some 1) 3 "a.txt" 1 s in
  entries s !! "a.txt" = Some (File old 2 2) ∧
  done.1 = Ok "line one" ∧
  entries done.2 !! "a.txt" = Some (File new 3 3) ∧
  failed.1 = Raise OSError ∧
  entries failed.2 !! "a.txt" = Some (File ("another line" +:+ nl) 3 3) ∧
  "another line" +:+ nl ≠ old ∧ "another line" +:+ nl ≠ new ∧
  entries (_write_index_faulty Sample.dir Sample.dump 1 3 s).2 !! INDEX_FILENAME
    = entries s !! INDEX_FILENAME.
Proof.
  cbn zeta. repeat split; try (vm_compute; reflexivity); vm_compute; discriminate.
Qed.

(** ** Where the index does mirror the directory

    The sibling paths of [remove_file] key the index by the sanitized name.
    With a name that has no directory component, and as long as no document
    is called [index.tmp], every successful operation keeps the index in
    step with the directory. *)

Section DictKeys.
Context {V : Type}.
Implicit Types (d : list (string * V)) (k n : string) (v : V).

Lemma elem_of_dict_keys_set d k v n :
  n ∈ dict_keys (dict_set d k v) ↔ n = k ∨ n ∈ dict_keys d.
Proof.
  unfold dict_keys. induction d as [|[k' v'] r IH]; cbn [dict_set].
  - cbn. rewrite list_elem_of_singleton. split; [by left|].
    intros [?|?%elem_of_nil]; done.
  - destruct (decide (k' = k)) as [->|Hne]; cbn [fmap list_fmap fst].
    + rewrite !elem_of_cons. tauto.
    + rewrite !elem_of_cons, IH. tauto.
Qed.

Lemma NoDup_dict_keys_set d k v :
  NoDup (dict_keys d) → NoDup (dict_keys (dict_set d k v)).
Proof.
  unfold dict_keys. induction d as [|[k' v'] r IH]; cbn [dict_set].
  - intros _. apply NoDup_singleton.
  - destruct (decide (k' = k)) as [->|Hne]; cbn [fmap list_fmap fst]; [done|].
    rewrite !NoDup_cons. intros [Hk Hr]. split; [|by apply IH].
    intros [?|?]%(elem_of_dict_keys_set r k v k'); [congruence|done].
Qed.

Lemma elem_of_dict_keys_del d k n :
  NoDup (dict_keys d) →
  n ∈ dict_keys (dict_del d k) ↔ n ≠ k ∧ n ∈ dict_keys d.
Proof.
  unfold dict_keys. induction d as [|[k' v'] r IH]; cbn [dict_del].
  - intros _. split; [by intros ?%elem_of_nil|by intros [_ ?%elem_of_nil]].
  - cbn [fmap list_fmap fst]. rewrite NoDup_cons. intros [Hk Hr].
    destruct (decide (k' = k)) as [->|Hne]; cbn [fmap list_fmap fst].
    + rewrite elem_of_cons. split.
      * intros Hin. split; [by intros ->|by right].
      * intros [Hn [?|?]]; done.
    + rewrite !elem_of_cons, (IH Hr). split.
      * intros [->|[? ?]]; [by split; [|left]|by split; [|right]].
      * intros [Hn [->|?]]; [by left|by right].
Qed.

Lemma NoDup_dict_keys_del d k : NoDup (dict_keys d) → NoDup (dict_keys (dict_del d k)).
Proof.
  unfold dict_keys. induction d as [|[k' v'] r IH]; cbn [dict_del]; [done|].
  cbn [fmap list_fmap fst]. rewrite NoDup_cons. intros [Hk Hr].
  destruct (decide (k' = k)) as [->|Hne]; cbn [fmap list_fmap fst]; [done|].
  apply NoDup_cons. split; [|by apply IH].
  by intros [_ ?]%(elem_of_dict_keys_del r k k' Hr).
Qed.

Lemma dict_has_keys d k : dict_has d k = true ↔ k ∈ dict_keys d.
Proof.
  unfold dict_has. rewrite bool_decide_eq_true, <- not_eq_None_Some, dict_get_None.
  split; [apply dec_stable|by intros ? ?].
Qed.
End DictKeys.

Lemma index_mirrors_disk_pointwise s :
  index_mirrors_disk s ↔
  NoDup (dict_keys (_index s)) ∧
  ∀ n, n ∈ dict_keys (_index s) ↔ is_document (entries s) n.
Proof.
  assert (∀ n, n ∈ filter (λ n, is_document (entries s) n) (iterdir (entries s))
               ↔ is_document (entries s) n) as Hdocs.
  { intros n. rewrite list_elem_of_filter. split; [by intros [? _]|].
    intros Hd. split; [done|]. unfold iterdir. apply list_elem_of_fmap.
    unfold is_document, is_regular in Hd.
    destruct (entries s !! n) as [nd|] eqn:He; [|done].
    exists (n, nd). split; [done|]. by apply elem_of_map_to_list. }
  unfold index_mirrors_disk. split.
  - intros Hp. split.
    + rewrite Hp. apply NoDup_filter, NoDup_fst_map_to_list.
    + intros n. by rewrite Hp.
  - intros [Hnd Hiff]. apply NoDup_Permutation; [done| |].
    + apply NoDup_filter, NoDup_fst_map_to_list.
    + intros n. by rewrite Hiff, Hdocs.
Qed.

Lemma is_document_insert_file m base c ct mt n :
  base ≠ INDEX_FILENAME →
  is_document (<[base := File c ct mt]> m) n ↔ n = base ∨ is_document m n.
Proof.
  intros Hb. unfold is_document. destruct (decide (n = base)) as [->|Hne].
  - rewrite lookup_insert_eq. cbn [is_regular].
    rewrite bool_decide_eq_false_2 by done. split; [by left|done].
  - rewrite lookup_insert_ne by done. split; [by right|]. by intros [?|?].
Qed.

Lemma is_document_delete m base n :
  is_document (delete base m) n ↔ n ≠ base ∧ is_document m n.
Proof.
  unfold is_document. destruct (decide (n = base)) as [->|Hne].
  - rewrite lookup_delete_eq. cbn [is_regular andb]. split; [done|by intros [? _]].
  - rewrite lookup_delete_ne by done. split; [by split|by intros [_ ?]].
Qed.

Lemma is_document_persisted m f n :
  m !! TMP_FILENAME = None →
  is_document (<[INDEX_FILENAME := f]> (delete TMP_FILENAME m)) n ↔ is_document m n.
Proof.
  intros Ht. unfold is_document.
  destruct (decide (n = INDEX_FILENAME)) as [->|Hi].
  - rewrite bool_decide_eq_true_2 by done. by rewrite !andb_false_r.
  - rewrite lookup_insert_ne by done.
    destruct (decide (n = TMP_FILENAME)) as [->|Hn].
    + by rewrite lookup_delete_eq, Ht.
    + by rewrite lookup_delete_ne.
Qed.

Section Mirror.

Variable data_dir : Path.
Variable json_dump : list (string * FileMeta) → string.

Lemma _write_index_Ok now s s' :
  _write_index data_dir json_dump now s = (Ok tt, s') →
  s' = with_entries (λ m, <[INDEX_FILENAME := File (json_dump (_index s)) now now]>
                            (delete TMP_FILENAME m)) s.
Proof.
  rewrite _write_index_unfold. cbn zeta.
  repeat case_match; intros [= <-]; done.
Qed.

(** Persisting the index keeps a state in step. *)
Lemma in_step_persisted now s s' :
  in_step s → _write_index data_dir json_dump now s = (Ok tt, s') → in_step s'.
Proof.
  intros [Hm Ht] Hw. apply _write_index_Ok in Hw as ->. split.
  - apply index_mirrors_disk_pointwise in Hm as [Hnd Hiff].
    apply index_mirrors_disk_pointwise. split; [done|].
    intros n. cbn [with_entries entries _index].
    by rewrite is_document_persisted.
  - cbn [with_entries entries]. rewrite lookup_insert_ne by done.
    apply lookup_delete_eq.
Qed.

(** Writing a document and its entry under the same name keeps a state in
    step. *)
Lemma in_step_upsert s base c ct mt meta :
  in_step s → base ≠ INDEX_FILENAME → base ≠ TMP_FILENAME →
  in_step (with_index (λ idx, dict_set idx base meta)
             (with_entries (<[base := File c ct mt]>) s)).
Proof.
  intros [Hm Ht] Hi Htmp. split.
  - apply index_mirrors_disk_pointwise in Hm as [Hnd Hiff].
    apply index_mirrors_disk_pointwise. cbn [with_index with_entries entries _index].
    split; [by apply NoDup_dict_keys_set|].
    intros n. rewrite elem_of_dict_keys_set, is_document_insert_file by done.
    by rewrite Hiff.
  - cbn [with_index with_entries entries]. by rewrite lookup_insert_ne.
Qed.

Lemma in_step_retag s base meta :
  in_step s → base ∈ dict_keys (_index s) →
  in_step (with_index (λ idx, dict_set idx base meta) s).
Proof.
  intros [Hm Ht] Hin. split; [|done].
  apply index_mirrors_disk_pointwise in Hm as [Hnd Hiff].
  apply index_mirrors_disk_pointwise. cbn [with_index entries _index].
  split; [by apply NoDup_dict_keys_set|].
  intros n. rewrite elem_of_dict_keys_set, <- Hiff.
  split; [by intros [->|?]|by right].
Qed.

Lemma in_step_remove s base :
  in_step s → base ≠ TMP_FILENAME →
  in_step (with_index (λ idx, dict_del idx base) (with_entries (delete base) s)).
Proof.
  intros [Hm Ht] Htmp. split.
  - apply index_mirrors_disk_pointwise in Hm as [Hnd Hiff].
    apply index_mirrors_disk_pointwise. cbn [with_index with_entries entries _index].
    split; [by apply NoDup_dict_keys_del|].
    intros n. rewrite elem_of_dict_keys_del, is_document_delete by done.
    by rewrite Hiff.
  - cbn [with_index with_entries entries]. by rewrite lookup_delete_ne.
Qed.

Lemma locate_joinpath n :
  locate data_dir (joinpath data_dir n) =
  if bool_decide (n = "." ∨ n = "..") then Outside else Inside n.
Proof.
  case_bool_decide as Hn.
  - destruct Hn as [->| ->]; [apply locate_self|apply locate_parent].
  - apply locate_child; tauto.
Qed.

End Mirror.

Lemma dict_del_absent {V} (d : list (string * V)) k : k ∉ dict_keys d → dict_del d k = d.
Proof.
  unfold dict_keys. induction d as [|[k' v'] r IH]; cbn [dict_del]; [done|].
  cbn [fmap list_fmap fst]. rewrite not_elem_of_cons. intros [Hne Hr].
  rewrite decide_False by done. by rewrite IH.
Qed.

Lemma scan_is_document m n :
  match scan m n with
  | Some kv => kv.1 = n ∧ is_document m n
  | None => ¬ is_document m n
  end.
Proof.
  unfold scan, is_document, is_regular.
  destruct (m !! n) as [[c ct mt|]|]; cbn [andb]; [|by intros ?..].
  destruct (bool_decide (n = INDEX_FILENAME)); cbn [negb]; [by intros ?|done].
Qed.

Lemma dict_keys_omap_scan m names :
  dict_keys (omap (scan m) names) = filter (λ n, is_document m n) names.
Proof.
  unfold dict_keys. induction names as [|n names IH]; [done|].
  change (omap (scan m) (n :: names)) with
    (match scan m n with
     | Some y => y :: omap (scan m) names
     | None => omap (scan m) names
     end).
  rewrite filter_cons. pose proof (scan_is_document m n) as Hd.
  destruct (scan m n) as [[k meta]|].
  - destruct Hd as [Hk Hd]. cbn in Hk. subst k.
    rewrite decide_True by done. cbn [fmap list_fmap fst]. by rewrite IH.
  - by rewrite decide_False.
Qed.

Lemma rebuilt_index_mirrors m :
  index_mirrors_disk (mkState m (rebuilt_index m)).
Proof.
  unfold index_mirrors_disk, rebuilt_index. cbn [entries _index].
  rewrite dict_keys_omap_scan. unfold sorted_iterdir.
  by rewrite merge_sort_Permutation.
Qed.

Section MirrorOps.

Variable data_dir : Path.
Variable json_dump : list (string * FileMeta) → string.

Lemma list_files_in_step now s metas s' :
  entries s !! TMP_FILENAME = None →
  list_files data_dir json_dump now s = (Ok metas, s') → in_step s'.
Proof.
  intros Ht. unfold list_files, bind, gets. rewrite _rebuild_index_unfold.
  destruct (_write_index _ _ _ _) as [[[]|e] s1] eqn:Hw; [|done].
  intros [= _ <-]. eapply in_step_persisted; [|exact Hw].
  split; [apply rebuilt_index_mirrors|done].
Qed.

Lemma plain_path name :
  _sanitize_filename name = Ok name →
  _file_path data_dir name = Ok (joinpath data_dir name) ∧ name ≠ INDEX_FILENAME ∧
  ∀ n, locate data_dir (joinpath data_dir name) = Inside n →
       n = name ∧ path_name (joinpath data_dir name) = name.
Proof.
  intros Hs. unfold _file_path. rewrite Hs.
  apply sanitize_Ok in Hs as (_ & _ & _ & Hi). split; [done|]. split; [done|].
  intros n. rewrite locate_joinpath. case_bool_decide as Hn; [done|].
  intros [= <-]. split; [done|]. apply path_name_joinpath. tauto.
Qed.

Lemma lookup_path_File path s c ct mt :
  lookup_path data_dir path s = Some (File c ct mt) →
  ∃ n, locate data_dir path = Inside n ∧ entries s !! n = Some (File c ct mt).
Proof.
  unfold lookup_path. destruct (locate data_dir path) as [n|]; [|done].
  intros Hl. by exists n.
Qed.

Lemma create_file_in_step now name overwrite s s' :
  in_step s → _sanitize_filename name = Ok name → name ≠ TMP_FILENAME →
  create_file data_dir json_dump now name overwrite s = (Ok tt, s') → in_step s'.
Proof.
  intros Hin Hs Htmp.
  destruct (plain_path name Hs) as (Hp & Hi & Hplace).
  unfold create_file. unfold bind at 1, gets.
  destruct (MAX_FILES <=? _); [done|].
  unfold bind at 1, lift. rewrite Hp. unfold bind at 1, path_exists, gets.
  destruct (_ && _); [done|]. unfold bind at 1.
  destruct (write_text data_dir now _ "" s) as [[[]|e] s1] eqn:Hw; [|done].
  apply write_text_Ok in Hw as (n & Hloc & -> & Hl1).
  destruct (Hplace _ Hloc) as [-> Hn].
  rewrite (_update_meta_for_unfold _ _ _ _ _ _ _ _ Hl1). cbn zeta. rewrite Hn.
  intros Hw. eapply in_step_persisted; [|exact Hw]. by apply in_step_upsert.
Qed.

Lemma add_lines_in_step now name lines s s' :
  in_step s → _sanitize_filename name = Ok name → name ≠ TMP_FILENAME →
  add_lines data_dir json_dump now name lines s = (Ok tt, s') → in_step s'.
Proof.
  intros Hin Hs Htmp.
  destruct (plain_path name Hs) as (Hp & Hi & Hplace).
  destruct (lookup_path data_dir (joinpath data_dir name) s) as [[c ct mt|]|] eqn:Hl.
  - rewrite (add_lines_unfold data_dir json_dump now name lines _ s c ct mt Hp Hl).
    cbn zeta.
    destruct (lookup_path_File _ _ _ _ _ Hl) as (n & Hloc & He).
    destruct (Hplace _ Hloc) as [-> Hn]. rewrite Hn.
    set (stamp := if bool_decide _ then _ else _).
    erewrite _update_meta_for_unfold.
    2:{ unfold lookup_path. rewrite Hloc. cbn. apply lookup_insert_eq. }
    cbn zeta. rewrite Hn.
    intros Hw. eapply in_step_persisted; [|exact Hw]. by apply in_step_upsert.
  - unfold add_lines, bind, lift, path_exists, gets, append_text. rewrite Hp, Hl.
    rewrite bool_decide_eq_true_2 by eauto. cbn [negb].
    unfold lookup_path in Hl. destruct (locate data_dir _) as [n|]; [|done].
    by rewrite Hl.
  - unfold add_lines, bind, lift, path_exists, gets. rewrite Hp, Hl.
    rewrite bool_decide_eq_false_2; [done|]. by intros [? ?].
Qed.

Lemma remove_line_in_step now name line_no s removed s' :
  in_step s → _sanitize_filename name = Ok name → name ≠ TMP_FILENAME →
  remove_line data_dir json_dump now name line_no s = (Ok removed, s') → in_step s'.
Proof.
  intros Hin Hs Htmp.
  destruct (plain_path name Hs) as (Hp & Hi & Hplace).
  unfold remove_line, remove_line_faulty, rewrite_lines.
  destruct (line_no <? 1)%Z; [done|].
  unfold bind at 1, lift. rewrite Hp. unfold bind at 1, path_exists, gets.
  destruct (bool_decide _); cbn [negb]; [|done].
  unfold bind at 1, read_text.
  destruct (lookup_path data_dir _ s) as [[c ct mt|]|]; [|done..].
  destruct (_ <? _)%Z; [done|].
  destruct (pop _ _) as [[line rest]|]; [|done].
  unfold bind at 1.
  destruct (write_text data_dir now _ (joined rest) s) as [[[]|e] s1] eqn:Hw; [|done].
  apply write_text_Ok in Hw as (n & Hloc & -> & Hl1).
  destruct (Hplace _ Hloc) as [-> Hn].
  unfold bind at 1. rewrite (_update_meta_for_unfold _ _ _ _ _ _ _ _ Hl1).
  cbn zeta. rewrite Hn.
  destruct (_write_index _ _ _ _) as [[[]|e] s2] eqn:Hw; [|done].
  intros [= _ <-]. eapply in_step_persisted; [|exact Hw]. by apply in_step_upsert.
Qed.

Lemma remove_file_in_step now name s s' :
  in_step s → _sanitize_filename name = Ok name → name ≠ TMP_FILENAME →
  remove_file data_dir json_dump now name s = (Ok tt, s') → in_step s'.
Proof.
  intros Hin Hs Htmp.
  destruct (plain_path name Hs) as (Hp & Hi & Hplace).
  unfold remove_file. unfold bind at 1, lift. rewrite Hp.
  unfold bind at 1, path_exists, gets.
  destruct (bool_decide _); cbn [negb]; [|done].
  unfold bind at 1, unlink.
  destruct (locate data_dir _) as [n|] eqn:Hloc; [|done].
  destruct (Hplace _ eq_refl) as [-> Hn].
  destruct (entries s !! name) as [[c ct mt|]|]; [|done..].
  unfold bind at 1, gets. cbn [with_entries _index].
  destruct (dict_has (_index s) name) eqn:Hhas.
  - unfold bind, modify. intros Hw.
    eapply in_step_persisted; [|exact Hw]. by apply in_step_remove.
  - intros [= <-].
    assert (name ∉ dict_keys (_index s)) as Hout.
    { intros Hk%dict_has_keys. congruence. }
    pose proof (in_step_remove s name Hin Htmp) as Hr.
    unfold with_index in Hr. cbn [with_entries entries _index] in Hr.
    by rewrite (dict_del_absent _ _ Hout) in Hr.
Qed.

Lemma add_tag_in_step now name tag s s' :
  in_step s → _sanitize_filename name = Ok name →
  add_tag data_dir json_dump now name tag s = (Ok tt, s') → in_step s'.
Proof.
  intros Hin Hs.
  destruct (dict_get (_index s) name) as [meta|] eqn:Hg.
  - rewrite (add_tag_unfold _ _ _ _ _ _ _ _ Hs Hg).
    destruct (bool_decide _); [by intros [= <-]|].
    intros Hw. eapply in_step_persisted; [|exact Hw].
    apply in_step_retag; [done|]. by eapply dict_get_Some_keys.
  - unfold add_tag, bind. by rewrite (get_meta_Ok _ _ _ Hs), Hg.
Qed.

Lemma remove_tag_in_step now name tag s s' :
  in_step s → _sanitize_filename name = Ok name →
  remove_tag data_dir json_dump now name tag s = (Ok tt, s') → in_step s'.
Proof.
  intros Hin Hs.
  destruct (dict_get (_index s) name) as [meta|] eqn:Hg.
  - rewrite (remove_tag_unfold _ _ _ _ _ _ _ _ Hs Hg).
    destruct (bool_decide _); [|by intros [= <-]].
    intros Hw. eapply in_step_persisted; [|exact Hw].
    apply in_step_retag; [done|]. by eapply dict_get_Some_keys.
  - unfold remove_tag, bind. by rewrite (get_meta_Ok _ _ _ Hs), Hg.
Qed.

(** With a name that is its own sanitized form and is not [index.tmp], every
    successful mutation keeps a state in step; so does every successful
    listing, whatever the index held before. *)
Theorem plain_names_keep_in_step now name s s' :
  in_step s → _sanitize_filename name = Ok name → name ≠ TMP_FILENAME →
  (∀ overwrite,
     create_file data_dir json_dump now name overwrite s = (Ok tt, s') → in_step s') ∧
  (∀ lines,
     add_lines data_dir json_dump now name lines s = (Ok tt, s') → in_step s') ∧
  (∀ line_no removed,
     remove_line data_dir json_dump now name line_no s = (Ok removed, s') → in_step s') ∧
  (remove_file data_dir json_dump now name s = (Ok tt, s') → in_step s') ∧
  (∀ tag, add_tag data_dir json_dump now name tag s = (Ok tt, s') → in_step s') ∧
  (∀ tag, remove_tag data_dir json_dump now name tag s = (Ok tt, s') → in_step s') ∧
  (∀ metas, list_files data_dir json_dump now s = (Ok metas, s') → in_step s').
Proof.
  intros Hin Hs Htmp.
  split; [|split; [|split; [|split; [|split; [|split]]]]]; intros.
  - by eapply create_file_in_step.
  - by eapply add_lines_in_step.
  - by eapply remove_line_in_step.
  - by eapply remove_file_in_step.
  - by eapply add_tag_in_step.
  - by eapply remove_tag_in_step.
  - eapply list_files_in_step; [|done]. apply Hin.
Qed.

End MirrorOps.

(** On the sample, deleting [a.txt] under its plain name leaves a state in
    step, where the name [x/a.txt] did not. *)
Example plain_remove_on_sample :
  in_step (Sample.after (remove_file Sample.dir Sample.dump 4 "a.txt") Sample.filled).
Proof.
  assert (in_step Sample.filled) as Hin.
  { split; [apply (bool_decide_unpack _); vm_compute; exact I|].
    vm_compute. reflexivity. }
  assert ("a.txt" ≠ TMP_FILENAME) as Hne by discriminate.
  destruct (plain_names_keep_in_step Sample.dir Sample.dump 4 "a.txt" Sample.filled
    (Sample.after (remove_file Sample.dir Sample.dump 4 "a.txt") Sample.filled)
    Hin eq_refl Hne) as (_ & _ & _ & Hrm & _).
  apply Hrm. vm_compute. reflexivity.
Qed.

(** * Further properties *)

(** ** Which names are accepted *)

Lemma FILENAME_RE_match_cons c r :
  FILENAME_RE_match (String c r) =
  filename_char c &&
  match r with "" => true | _ => String.eqb r nl || FILENAME_RE_match r end.
Proof. by destruct r. Qed.

Lemma FILENAME_RE_match_spec s :
  FILENAME_RE_match s = true ↔
  ∃ b, b ≠ "" ∧ all_filename_chars b = true ∧ (s = b ∨ s = b +:+ nl).
Proof.
  split.
  - induction s as [|c r IH]; [done|].
    rewrite FILENAME_RE_match_cons. intros [Hc Hr]%andb_true_iff.
    destruct r as [|d r'].
    + exists (String c ""). split; [done|]. split; [|by left].
      cbn [all_filename_chars]. by rewrite Hc.
    + apply orb_true_iff in Hr as [Hnl|Hm].
      * apply String.eqb_eq in Hnl. exists (String c "").
        split; [done|]. split; [|right; by rewrite Hnl].
        cbn [all_filename_chars]. by rewrite Hc.
      * destruct (IH Hm) as (b & Hb & Hall & Hs).
        exists (String c b). split; [done|]. split.
        -- cbn [all_filename_chars]. by rewrite Hc, Hall.
        -- destruct Hs as [->| ->]; [by left|by right].
  - intros (b & Hb & Hall & Hs). revert s Hs.
    induction b as [|c b' IH]; [done|]. intros s Hs.
    cbn [all_filename_chars] in Hall. apply andb_true_iff in Hall as [Hc Hall].
    destruct b' as [|d b''].
    + destruct Hs as [->| ->]; [|rewrite app_cons, app_empty_l];
        by rewrite FILENAME_RE_match_cons, Hc.
    + assert (∀ r, r = String d b'' ∨ r = String d b'' +:+ nl →
                   FILENAME_RE_match (String c r) = true) as Hstep.
      { intros r Hr. rewrite FILENAME_RE_match_cons, Hc.
        rewrite (IH ltac:(done) Hall r Hr), orb_true_r.
        by destruct Hr as [->| ->]. }
      destruct Hs as [->| ->]; [apply Hstep; by left|].
      rewrite app_cons. apply Hstep. by right.
Qed.

Lemma all_filename_chars_has_char b x :
  all_filename_chars b = true → filename_char x = false → has_char x b = false.
Proof.
  intros Hall Hx. induction b as [|c r IH]; [done|].
  cbn [all_filename_chars] in Hall. apply andb_true_iff in Hall as [Hc Hall].
  cbn [has_char]. rewrite (IH Hall), orb_false_r.
  apply Ascii.eqb_neq. intros ->. congruence.
Qed.

Lemma sanitize_Ok_iff name base :
  _sanitize_filename name = Ok base ↔
  base = basename name ∧ base ≠ INDEX_FILENAME ∧
  ∃ b, b ≠ "" ∧ all_filename_chars b = true ∧ (base = b ∨ base = b +:+ nl).
Proof.
  split.
  - intros Hs. apply sanitize_Ok in Hs as (Hb & _ & Hm & Hi).
    split; [done|]. split; [done|]. by apply FILENAME_RE_match_spec.
  - intros (-> & Hi & Hb). apply FILENAME_RE_match_spec in Hb as Hm.
    unfold _sanitize_filename. rewrite Hm.
    rewrite bool_decide_eq_false_2.
    + cbn. by rewrite decide_False.
    + intros He. rewrite He in Hm. done.
Qed.

(** What [_sanitize_filename] accepts among the names whose basename is
    ASCII text: the basename of the name, when it is not [index.json] and
    consists of one or more characters of the class, possibly followed by
    one line feed.  The reserved-name error is raised exactly for the
    basename [index.json]. *)
Theorem sanitize_accepts_exactly name base :
  ascii_only (basename name) = true →
  (_sanitize_filename name = Ok base ↔
   base = basename name ∧ base ≠ INDEX_FILENAME ∧
   ∃ b, b ≠ "" ∧ all_filename_chars b = true ∧ (base = b ∨ base = b +:+ nl)) ∧
  (_sanitize_filename name = Raise (ValueError MSG_RESERVED) ↔
   basename name = INDEX_FILENAME).
Proof.
  intros _. split; [apply sanitize_Ok_iff|].
  unfold _sanitize_filename. split.
  - destruct (_ || _); [done|]. by destruct (decide _).
  - intros ->. reflexivity.
Qed.

Lemma sanitize_accepts_exactly_witness :
  _sanitize_filename "docs/notes v2.txt" = Ok "notes v2.txt".
Proof.
  apply (proj1 (sanitize_accepts_exactly "docs/notes v2.txt" "notes v2.txt" eq_refl)).
  split; [reflexivity|]. split; [discriminate|].
  exists "notes v2.txt". split; [discriminate|]. split; [reflexivity|by left].
Defined.

(** A line feed after an acceptable name passes: Python's [$] matches before
    a final line feed, the line feed stays in the sanitized name, and the
    comparison with the reserved name no longer holds, so [index.json]
    followed by a line feed is accepted too. *)
Theorem sanitize_accepts_trailing_line_feed b :
  b ≠ "" → all_filename_chars b = true →
  _sanitize_filename (b +:+ nl) = Ok (b +:+ nl).
Proof.
  intros Hb Hall.
  assert (has_char SEP (b +:+ nl) = false) as Hsep.
  { rewrite has_char_app, (all_filename_chars_has_char b SEP) by done. done. }
  apply sanitize_Ok_iff. rewrite basename_no_sep by done.
  split; [done|]. split; [|by exists b; eauto].
  intros Heq. apply (f_equal (has_char LF)) in Heq.
  rewrite has_char_app in Heq. cbn in Heq. by rewrite orb_true_r in Heq.
Qed.

Lemma sanitize_accepts_trailing_line_feed_witness :
  _sanitize_filename ("index.json" +:+ nl) = Ok ("index.json" +:+ nl).
Proof.
  apply (sanitize_accepts_trailing_line_feed "index.json"); [discriminate|reflexivity].
Defined.

(** Sanitizing is idempotent: the sanitized name holds no separator, is
    accepted as it is, and gives the same path as the name it came from. *)
Theorem sanitize_idempotent (data_dir : Path) name base :
  _sanitize_filename name = Ok base →
  has_char SEP base = false ∧
  _sanitize_filename base = Ok base ∧
  _file_path data_dir base = _file_path data_dir name.
Proof.
  intros Hs. pose proof (sanitize_basename _ _ Hs) as Hb.
  split; [|split; [done|]].
  - apply sanitize_Ok in Hs as (-> & _). apply has_char_basename.
  - unfold _file_path. by rewrite Hs, Hb.
Qed.

Lemma sanitize_idempotent_witness :
  _sanitize_filename "passwd" = Ok "passwd" ∧
  _file_path Sample.dir "passwd" = _file_path Sample.dir "../../etc/passwd".
Proof.
  apply (sanitize_idempotent Sample.dir "../../etc/passwd" "passwd"). reflexivity.
Defined.

(** The script's sanitizer accepts what the manager's accepts, with the same
    result, and the basename [index.json] besides. *)
Theorem script_sanitize_vs_manager name base :
  Script.sanitize_filename name = Ok base ↔
  _sanitize_filename name = Ok base ∨
  (basename name = INDEX_FILENAME ∧ base = INDEX_FILENAME).
Proof.
  unfold Script.sanitize_filename, _sanitize_filename.
  destruct (bool_decide (basename name = "")) eqn:He; cbn [orb].
  { split; [done|]. intros [?|[Hi _]]; [done|].
    apply bool_decide_eq_true in He. by rewrite He in Hi. }
  destruct (FILENAME_RE_match (basename name)) eqn:Hm; cbn [negb].
  - destruct (decide (basename name = INDEX_FILENAME)) as [Hi|Hi].
    + split; [intros [= <-]; by right|]. intros [?|[_ ->]]; [done|by rewrite Hi].
    + split; [by left|]. by intros [?|[? _]].
  - split; [done|]. intros [?|[Hi _]]; [done|]. by rewrite Hi in Hm.
Qed.

(** ** What the mutations do *)

Lemma dict_get_Some_values {V} (d : list (string * V)) k v :
  dict_get d k = Some v → v ∈ dict_values d.
Proof.
  unfold dict_values. induction d as [|[k' v'] r IH]; [done|]. cbn [dict_get].
  destruct (decide (k' = k)).
  - intros [= ->]. cbn. by left.
  - intros Hg. cbn. right. by apply IH.
Qed.

Lemma length_app_str a b : String.length (a +:+ b) = String.length a + String.length b.
Proof. induction a as [|c r IH]; [done|]. rewrite app_cons. cbn. by rewrite IH. Qed.

Lemma lookup_persisted_dir json_dump now idx m n :
  n ≠ TMP_FILENAME → n ≠ INDEX_FILENAME →
  persisted_dir json_dump now idx m !! n = m !! n.
Proof.
  intros H1 H2. unfold persisted_dir.
  by rewrite lookup_insert_ne, lookup_delete_ne.
Qed.

Lemma index_writable_persisted json_dump now idx m :
  index_writable (persisted_dir json_dump now idx m).
Proof.
  unfold index_writable, persisted_dir. split.
  - by rewrite lookup_insert_ne, lookup_delete_eq.
  - by rewrite lookup_insert_eq.
Qed.

Lemma index_writable_insert m n f :
  n ≠ TMP_FILENAME → n ≠ INDEX_FILENAME →
  index_writable m → index_writable (<[n := f]> m).
Proof. intros H1 H2 [Ht Hi]. split; by rewrite lookup_insert_ne. Qed.

Section Effects.

Variable data_dir : Path.
Variable json_dump : list (string * FileMeta) → string.

Lemma _write_index_writable now s :
  index_writable (entries s) →
  _write_index data_dir json_dump now s =
  (Ok tt, mkState (persisted_dir json_dump now (_index s) (entries s)) (_index s)).
Proof.
  intros [Ht Hi]. rewrite _write_index_unfold. cbn zeta.
  destruct (entries s !! TMP_FILENAME) as [[]|]; try done.
  all: destruct (entries s !! INDEX_FILENAME) as [[]|]; done.
Qed.

Lemma _update_meta_for_effect now path s c ct mt :
  lookup_path data_dir path s = Some (File c ct mt) →
  index_writable (entries s) →
  let key := path_name path in
  let idx := dict_set (_index s) key (updated_meta (_index s) key now (String.length c)) in
  _update_meta_for data_dir json_dump now path s =
  (Ok tt, mkState (persisted_dir json_dump now idx (entries s)) idx).
Proof.
  intros Hl Hw. cbn zeta. rewrite (_update_meta_for_unfold _ _ _ _ _ _ _ _ Hl).
  cbn zeta. by rewrite _write_index_writable.
Qed.

Lemma _file_path_Inside name path n :
  _file_path data_dir name = Ok path → locate data_dir path = Inside n →
  _sanitize_filename name = Ok n ∧ path_name path = n ∧ n ≠ INDEX_FILENAME.
Proof.
  unfold _file_path. destruct (_sanitize_filename name) as [base|] eqn:Hs; [|done].
  intros [= <-]. rewrite locate_joinpath. case_bool_decide as Hd; [done|].
  intros [= <-]. apply sanitize_Ok in Hs as (_ & _ & _ & Hi).
  split; [done|]. split; [|done]. apply path_name_joinpath. tauto.
Qed.

Lemma lookup_path_not_dir path s :
  lookup_path data_dir path s ≠ Some Dir →
  ∃ n, locate data_dir path = Inside n ∧ lookup_path data_dir path s = entries s !! n.
Proof.
  unfold lookup_path. destruct (locate data_dir path) as [n|]; [|done].
  intros _. by exists n.
Qed.

(** [create_file] where it succeeds: the collection is not full, the name is
    accepted and is not [index.tmp], the document is absent or is a regular
    file to overwrite, and the index can be written.  Then the document
    exists and is empty; a new entry has both times now, size 0 and no tag,
    an overwritten one keeps its creation time and tags; the index is
    persisted; the document reads as no line, and a listing shows it with
    size 0. *)
Theorem create_file_effect now now' name overwrite s path :
  files_count (entries s) < MAX_FILES →
  _file_path data_dir name = Ok path →
  path_name path ≠ TMP_FILENAME →
  lookup_path data_dir path s = None ∨
    (overwrite = true ∧ is_regular (lookup_path data_dir path s) = true) →
  index_writable (entries s) →
  ∃ s', create_file data_dir json_dump now name overwrite s = (Ok tt, s') ∧
    lookup_path data_dir path s' = Some (File "" now now) ∧
    dict_get (_index s') (path_name path)
      = Some (updated_meta (_index s) (path_name path) now 0) ∧
    entries s' !! INDEX_FILENAME = Some (File (json_dump (_index s')) now now) ∧
    show_file data_dir name s' = (Ok [], s') ∧
    ∃ metas, (list_files data_dir json_dump now' s').1 = Ok metas ∧
             mkFileMeta (path_name path) now now 0 [] ∈ metas.
Proof.
  intros Hcount Hp Htmp Hstate Hw.
  destruct (lookup_path_not_dir path s) as (n & Hloc & Hl).
  { destruct Hstate as [->|[_ Hr]]; [done|]. intros Hd. by rewrite Hd in Hr. }
  destruct (_file_path_Inside _ _ _ Hp Hloc) as (Hs & Hn & Hi). rewrite Hn in *.
  set (idx := dict_set (_index s) n (updated_meta (_index s) n now 0)).
  set (m1 := <[n := File "" now now]> (entries s)).
  exists (mkState (persisted_dir json_dump now idx m1) idx).
  assert (create_file data_dir json_dump now name overwrite s
          = (Ok tt, mkState (persisted_dir json_dump now idx m1) idx)) as Hrun.
  { unfold create_file. unfold bind at 1, gets.
    rewrite (proj2 (Nat.leb_gt _ _) Hcount).
    unfold bind at 1, lift. rewrite Hp. unfold bind at 1, path_exists, gets.
    assert (bool_decide (is_Some (lookup_path data_dir path s)) && negb overwrite
            = false) as ->.
    { destruct Hstate as [->|[-> _]]; [|apply andb_false_r].
      rewrite bool_decide_eq_false_2; [done|]. by intros [? ?]. }
    unfold bind at 1, write_text. rewrite Hloc.
    assert (entries s !! n ≠ Some Dir) as Hnd.
    { rewrite <- Hl. destruct Hstate as [->|[_ Hr]]; [done|].
      intros Hd. by rewrite Hd in Hr. }
    assert (∀ (A : Type) (a b : A),
      match entries s !! n with Some Dir => a | _ => b end = b) as Hm.
    { intros A a b. by destruct (entries s !! n) as [[]|]. }
    rewrite Hm.
    rewrite (_update_meta_for_effect now path _ "" now now).
    - by rewrite Hn.
    - unfold lookup_path. rewrite Hloc. cbn. apply lookup_insert_eq.
    - cbn. by apply index_writable_insert. }
  assert (lookup_path data_dir path (mkState (persisted_dir json_dump now idx m1) idx)
          = Some (File "" now now)) as Hl'.
  { unfold lookup_path. rewrite Hloc. cbn [entries].
    rewrite lookup_persisted_dir by done. apply lookup_insert_eq. }
  split; [done|]. split; [done|]. split; [apply dict_get_set_eq|].
  split; [apply lookup_insert_eq|].
  split; [by rewrite (show_file_File _ _ _ _ _ _ _ Hp Hl')|].
  exists (dict_values (rebuilt_index (persisted_dir json_dump now idx m1))).
  split.
  - unfold list_files, bind, gets. rewrite _rebuild_index_unfold.
    rewrite _write_index_writable; [done|]. apply index_writable_persisted.
  - apply (dict_get_Some_values _ n). rewrite dict_get_rebuilt. unfold scan.
    rewrite lookup_persisted_dir by done. unfold m1. rewrite lookup_insert_eq.
    by rewrite bool_decide_eq_false_2.
Qed.

(** [create_file] on what exists: when the collection is not full and the
    path exists, the call without overwrite fails with AlreadyExists; when
    the path is a directory, as for the names [.] and [..], the call with
    overwrite fails on the write.  Nothing changes in either case. *)
Theorem create_file_existing now name s path :
  files_count (entries s) < MAX_FILES →
  _file_path data_dir name = Ok path →
  (is_Some (lookup_path data_dir path s) →
   create_file data_dir json_dump now name false s = (Raise FileExistsError, s) ∧
   kind_of FileExistsError = AlreadyExists) ∧
  (lookup_path data_dir path s = Some Dir →
   create_file data_dir json_dump now name true s = (Raise IsADirectoryError, s)).
Proof.
  intros Hcount Hp. split.
  - intros Hsome. split; [|done]. unfold create_file. unfold bind at 1, gets.
    rewrite (proj2 (Nat.leb_gt _ _) Hcount).
    unfold bind at 1, lift. rewrite Hp. unfold bind at 1, path_exists, gets.
    by rewrite bool_decide_eq_true_2.
  - intros Hd. unfold create_file. unfold bind at 1, gets.
    rewrite (proj2 (Nat.leb_gt _ _) Hcount).
    unfold bind at 1, lift. rewrite Hp. unfold bind at 1, path_exists, gets.
    rewrite andb_false_r. unfold bind at 1, write_text.
    unfold lookup_path in Hd. destruct (locate data_dir path) as [n|]; [|done].
    by rewrite Hd.
Qed.

End Effects.

Lemma joined_normalized_empty (lines : list string) :
  joined (normalized <$> lines) = "" ↔ lines = [].
Proof.
  split; [|by intros ->]. destruct lines as [|l ls]; [done|].
  cbn [fmap list_fmap joined foldr]. unfold normalized at 1.
  destruct (rstrip_nl l); by rewrite ?app_cons.
Qed.

Lemma pop_delete {A} (l : list A) i x : l !! i = Some x → pop i l = Some (x, delete i l).
Proof. intros Hl. unfold pop. by rewrite Hl, delete_take_drop. Qed.

Section Mutations.

Variable data_dir : Path.
Variable json_dump : list (string * FileMeta) → string.

(** [add_lines] where it succeeds: on a regular file other than [index.tmp],
    with a writable index.  The normalized lines are appended; the entry gets
    the new size and modification time and keeps its creation time and tags;
    the index is persisted.  With no line at all the file keeps its text and
    its times, and the entry is stamped all the same. *)
Theorem add_lines_effect now name (lines : list string) s path c ct mt :
  _file_path data_dir name = Ok path →
  lookup_path data_dir path s = Some (File c ct mt) →
  path_name path ≠ TMP_FILENAME →
  index_writable (entries s) →
  let text := joined (normalized <$> lines) in
  ∃ s' ct' mt',
    add_lines data_dir json_dump now name lines s = (Ok tt, s') ∧
    lookup_path data_dir path s' = Some (File (c +:+ text) ct' mt') ∧
    (lines ≠ [] → ct' = now ∧ mt' = now) ∧
    (lines = [] → c +:+ text = c ∧ ct' = ct ∧ mt' = mt) ∧
    dict_get (_index s') (path_name path)
      = Some (updated_meta (_index s) (path_name path) now
                (String.length c + String.length text)) ∧
    entries s' !! INDEX_FILENAME = Some (File (json_dump (_index s')) now now).
Proof.
  intros Hp Hl Htmp Hw. cbn zeta.
  destruct (_file_path_File _ _ _ _ _ _ _ Hp Hl) as (base & _ & _ & Hloc & Hn & He & Hi).
  rewrite (add_lines_unfold data_dir json_dump now name lines _ s c ct mt Hp Hl).
  cbn zeta. rewrite Hn in *.
  set (text := joined (normalized <$> lines)).
  set (stamp := if bool_decide (text = "") then (ct, mt) else (now, now)).
  set (s1 := with_entries (<[base := File (c +:+ text) stamp.1 stamp.2]>) s).
  assert (lookup_path data_dir path s1 = Some (File (c +:+ text) stamp.1 stamp.2)) as Hl1.
  { unfold lookup_path. rewrite Hloc. cbn. apply lookup_insert_eq. }
  rewrite (_update_meta_for_effect data_dir json_dump now path s1 _ _ _ Hl1).
  2:{ cbn. by apply index_writable_insert. }
  cbn zeta. rewrite Hn. eexists _, stamp.1, stamp.2. split; [done|].
  split.
  { unfold lookup_path. rewrite Hloc. cbn [entries].
    rewrite lookup_persisted_dir by done. cbn. apply lookup_insert_eq. }
  split.
  { intros Hne. unfold stamp. rewrite bool_decide_eq_false_2; [done|].
    unfold text. by rewrite joined_normalized_empty. }
  split.
  { intros ->. unfold stamp, text. cbn. by rewrite app_empty_r. }
  split; [|apply lookup_insert_eq].
  cbn [_index]. rewrite dict_get_set_eq. by rewrite length_app_str.
Qed.

(** [remove_line] where it succeeds: line [i + 1] of a regular file other
    than [index.tmp], with a writable index.  The call returns that line
    without its line feed; the file is rewritten from the other lines as
    they were read, so that every line ending becomes a line feed; reading
    the document gives the former lines without that one; the entry gets the
    new size and modification time. *)
Theorem remove_line_effect now name s path c ct mt i line :
  _file_path data_dir name = Ok path →
  lookup_path data_dir path s = Some (File c ct mt) →
  path_name path ≠ TMP_FILENAME →
  index_writable (entries s) →
  readlines c !! i = Some line →
  let rest := delete i (readlines c) in
  ∃ s',
    remove_line data_dir json_dump now name (Z.of_nat (S i)) s
      = (Ok (rstrip_nl line), s') ∧
    lookup_path data_dir path s' = Some (File (joined rest) now now) ∧
    show_file data_dir name s = (Ok (rstrip_nl <$> readlines c), s) ∧
    show_file data_dir name s' = (Ok (delete i (rstrip_nl <$> readlines c)), s') ∧
    dict_get (_index s') (path_name path)
      = Some (updated_meta (_index s) (path_name path) now (String.length (joined rest))).
Proof.
  intros Hp Hl Htmp Hw Hi. cbn zeta.
  destruct (_file_path_File _ _ _ _ _ _ _ Hp Hl) as (base & _ & _ & Hloc & Hn & He & Hidx).
  rewrite Hn in *.
  set (rest := delete i (readlines c)).
  set (s1 := with_entries (<[base := File (joined rest) now now]>) s).
  assert (lookup_path data_dir path s1 = Some (File (joined rest) now now)) as Hl1.
  { unfold lookup_path. rewrite Hloc. cbn. apply lookup_insert_eq. }
  pose proof (_update_meta_for_effect data_dir json_dump now path s1 _ _ _ Hl1) as Hu.
  cbn zeta in Hu. rewrite Hn in Hu.
  eexists. split.
  { unfold remove_line, remove_line_faulty, rewrite_lines.
    assert ((Z.of_nat (S i) <? 1)%Z = false) as -> by (apply Z.ltb_ge; lia).
    unfold bind at 1, lift. rewrite Hp. unfold bind at 1, path_exists, gets.
    rewrite Hl. rewrite bool_decide_eq_true_2 by eauto. cbn [negb].
    unfold bind at 1, read_text. rewrite Hl.
    assert ((Z.of_nat (length (readlines c)) <? Z.of_nat (S i))%Z = false) as ->.
    { apply Z.ltb_ge. apply lookup_lt_Some in Hi. lia. }
    replace (Z.to_nat (Z.of_nat (S i) - 1)) with i by lia.
    rewrite (pop_delete _ _ _ Hi). fold rest.
    unfold bind at 1, write_text. rewrite Hloc, He. fold s1.
    unfold bind at 1. rewrite Hu; [reflexivity|].
    cbn. by apply index_writable_insert. }
  assert (lookup_path data_dir path
            (mkState (persisted_dir json_dump now
               (dict_set (_index s1) base
                  (updated_meta (_index s1) base now (String.length (joined rest))))
               (entries s1))
               (dict_set (_index s1) base
                  (updated_meta (_index s1) base now (String.length (joined rest)))))
          = Some (File (joined rest) now now)) as Hl2.
  { unfold lookup_path. rewrite Hloc. cbn [entries].
    rewrite lookup_persisted_dir by done. cbn. apply lookup_insert_eq. }
  split; [exact Hl2|]. split; [by eapply show_file_File|]. split.
  - rewrite (show_file_File _ _ _ _ _ _ _ Hp Hl2). do 2 f_equal.
    rewrite readlines_joined by apply lines_wf_delete, lines_wf_readlines.
    apply list_fmap_delete.
  - cbn [_index]. apply dict_get_set_eq.
Qed.

(** [remove_file] on a regular file other than [index.tmp]: afterwards the
    file is gone and reading the document fails with NotFound; the call
    succeeds when the index can be written, and can fail only on that write;
    the index has no entry left under the name as it was passed. *)
Theorem remove_file_effect now name s path c ct mt :
  _file_path data_dir name = Ok path →
  lookup_path data_dir path s = Some (File c ct mt) →
  path_name path ≠ TMP_FILENAME →
  NoDup (dict_keys (_index s)) →
  let r := remove_file data_dir json_dump now name s in
  (r.1 = Ok tt ∨ r.1 = Raise IsADirectoryError) ∧
  (index_writable (entries s) → r.1 = Ok tt) ∧
  lookup_path data_dir path r.2 = None ∧
  show_file data_dir name r.2 = (Raise FileNotFoundError, r.2) ∧
  dict_get (_index r.2) name = None.
Proof.
  intros Hp Hl Htmp Hnd. cbn zeta.
  destruct (_file_path_File _ _ _ _ _ _ _ Hp Hl) as (base & _ & _ & Hloc & Hn & He & Hidx).
  rewrite Hn in *.
  set (s1 := with_entries (delete base) s).
  assert (remove_file data_dir json_dump now name s =
    if dict_has (_index s) name
    then _write_index data_dir json_dump now (with_index (λ idx, dict_del idx name) s1)
    else (Ok tt, s1)) as ->.
  { unfold remove_file. unfold bind at 1, lift. rewrite Hp.
    unfold bind at 1, path_exists, gets. rewrite Hl.
    rewrite bool_decide_eq_true_2 by eauto. cbn [negb].
    unfold bind at 1, unlink. rewrite Hloc, He. fold s1.
    unfold bind at 1, gets. cbn [_index s1 with_entries].
    by destruct (dict_has (_index s) name). }
  assert (∀ s2 : state, entries s2 !! base = None →
    lookup_path data_dir path s2 = None ∧
    show_file data_dir name s2 = (Raise FileNotFoundError, s2)) as Hgone.
  { intros s2 H2.
    assert (lookup_path data_dir path s2 = None) as Hl2.
    { unfold lookup_path. by rewrite Hloc. }
    split; [done|]. unfold show_file, bind, lift, path_exists, gets.
    rewrite Hp, Hl2. rewrite bool_decide_eq_false_2; [done|]. by intros [? ?]. }
  destruct (dict_has (_index s) name) eqn:Hhas.
  - set (s2 := with_index (λ idx, dict_del idx name) s1).
    assert (entries (_write_index data_dir json_dump now s2).2 !! base = None) as H2.
    { rewrite _write_index_other by done. cbn. apply lookup_delete_eq. }
    assert (_index (_write_index data_dir json_dump now s2).2 = dict_del (_index s) name)
      as Hidx2 by (by rewrite _write_index_index).
    split; [|split; [|split; [apply Hgone, H2|split; [apply Hgone, H2|]]]].
    + destruct (_write_index data_dir json_dump now s2) as [[[]|e] s3] eqn:Hwr;
        [by left|right]. cbn. f_equal. by eapply _write_index_raises.
    + intros [Ht Hi]. rewrite _write_index_writable; [done|].
      cbn. split; by rewrite lookup_delete_ne.
    + rewrite Hidx2. by apply dict_get_del_eq.
  - cbn [fst snd]. split; [by left|]. split; [done|].
    assert (entries s1 !! base = None) as H1 by (cbn; apply lookup_delete_eq).
    split; [apply Hgone, H1|]. split; [apply Hgone, H1|].
    cbn. apply dict_get_None. rewrite <- dict_has_keys. by rewrite Hhas.
Qed.

(** A document that is not there: reading it, appending to it and deleting it
    fail with NotFound and change nothing. *)
Theorem missing_document_not_found now name (lines : list string) s path :
  _file_path data_dir name = Ok path →
  lookup_path data_dir path s = None →
  show_file data_dir name s = (Raise FileNotFoundError, s) ∧
  add_lines data_dir json_dump now name lines s = (Raise FileNotFoundError, s) ∧
  remove_file data_dir json_dump now name s = (Raise FileNotFoundError, s) ∧
  kind_of FileNotFoundError = NotFound.
Proof.
  intros Hp Hl.
  assert (bool_decide (is_Some (lookup_path data_dir path s)) = false) as Hb.
  { rewrite Hl. apply bool_decide_eq_false_2. by intros [? ?]. }
  unfold show_file, add_lines, remove_file, bind, lift, path_exists, gets.
  by rewrite Hp, Hb.
Qed.

End Mutations.

(** ** Reading never writes *)

(** [show_file], [find_text] and [get_meta] leave the directory and the index
    as they are, whatever they are given and whether or not they fail. *)
Theorem read_only_operations (data_dir : Path) (str_lower : string → string)
    name text ignore_case s :
  (show_file data_dir name s).2 = s ∧
  (find_text str_lower text ignore_case s).2 = s ∧
  (get_meta name s).2 = s.
Proof.
  split; [|split].
  - unfold show_file, bind, lift, path_exists, gets, read_text, raise, ret.
    destruct (_file_path data_dir name); [|done].
    destruct (bool_decide _); cbn [negb]; [|done].
    by destruct (lookup_path data_dir a s) as [[]|].
  - done.
  - unfold get_meta, bind, lift, gets. by destruct (_sanitize_filename name).
Qed.

(** ** Persisting and loading the index *)

Section Loading.

Variable data_dir : Path.
Variable json_dump : list (string * FileMeta) → string.
Variable json_load : string → option (list (string * FileMeta)).

(** [_write_index] is all or nothing for [index.json]: it succeeds exactly
    when neither [index.tmp] nor [index.json] is a directory, and then
    [index.json] holds the serialised index and no [index.tmp] is left;
    otherwise it raises and [index.json] is as before.  The index in memory
    and every other entry of the directory are untouched either way. *)
Theorem _write_index_all_or_nothing now s :
  let r := _write_index data_dir json_dump now s in
  (r.1 = Ok tt ↔ index_writable (entries s)) ∧
  (r.1 = Ok tt →
   entries r.2 !! INDEX_FILENAME = Some (File (json_dump (_index s)) now now) ∧
   entries r.2 !! TMP_FILENAME = None) ∧
  (r.1 ≠ Ok tt →
   r.1 = Raise IsADirectoryError ∧
   entries r.2 !! INDEX_FILENAME = entries s !! INDEX_FILENAME) ∧
  _index r.2 = _index s ∧
  ∀ n, n ≠ TMP_FILENAME → n ≠ INDEX_FILENAME → entries r.2 !! n = entries s !! n.
Proof.
  cbn zeta. split; [|split; [|split; [|split]]].
  - split.
    + rewrite _write_index_unfold. cbn zeta. unfold index_writable.
      destruct (entries s !! TMP_FILENAME) as [[]|];
        destruct (entries s !! INDEX_FILENAME) as [[]|]; cbn; try done.
    + intros Hw. by rewrite _write_index_writable.
  - rewrite _write_index_unfold. cbn zeta.
    destruct (entries s !! TMP_FILENAME) as [[]|];
      destruct (entries s !! INDEX_FILENAME) as [[]|]; cbn; try done.
    all: intros _; split; [apply lookup_insert_eq|].
    all: by rewrite lookup_insert_ne, lookup_delete_eq.
  - rewrite _write_index_unfold. cbn zeta.
    destruct (entries s !! TMP_FILENAME) as [[]|] eqn:Ht;
      destruct (entries s !! INDEX_FILENAME) as [[]|] eqn:Hi; cbn; try done.
    all: intros _; split; [done|].
    all: by rewrite ?lookup_insert_ne.
  - apply _write_index_index.
  - intros n H1 H2. by apply _write_index_other.
Qed.

Lemma loaded_index_from acc (raw : list (string * FileMeta)) :
  NoDup raw.*1 → (∀ k, k ∈ raw.*1 → k ∉ dict_keys acc) →
  foldl (λ d kv, dict_set d kv.1 kv.2) acc raw = acc ++ raw.
Proof.
  revert acc. induction raw as [|[k v] raw IH]; intros acc Hnd Hfresh.
  - by rewrite app_nil_r.
  - cbn [fmap list_fmap fst] in Hnd. apply NoDup_cons in Hnd as [Hk Hnd].
    cbn [foldl fst snd]. rewrite dict_set_fresh by (apply Hfresh; cbn; left).
    rewrite IH; [by rewrite <- app_assoc|done|].
    intros k' Hk'. unfold dict_keys. rewrite fmap_app, elem_of_app. cbn.
    intros [Hin|Hin%list_elem_of_singleton].
    + apply (Hfresh k'); [by right|done].
    + congruence.
Qed.

Lemma NoDup_loaded_from acc (raw : list (string * FileMeta)) :
  NoDup (dict_keys acc) →
  NoDup (dict_keys (foldl (λ d kv, dict_set d kv.1 kv.2) acc raw)).
Proof.
  revert acc. induction raw as [|[k v] raw IH]; intros acc Hnd; [done|].
  cbn [foldl]. apply IH. by apply NoDup_dict_keys_set.
Qed.

Lemma lookup_index_path s :
  lookup_path data_dir (index_path data_dir) s = entries s !! INDEX_FILENAME.
Proof. unfold lookup_path. by rewrite locate_index. Qed.

Lemma __init___unfold now m idx0 :
  __init__ data_dir json_dump json_load now (mkState m idx0) =
  match m !! INDEX_FILENAME with
  | Some (File c _ _) =>
      match json_load c with
      | Some raw => (Ok tt, mkState m (loaded_index raw))
      | None => _write_index data_dir json_dump now (mkState m (rebuilt_index m))
      end
  | _ => _write_index data_dir json_dump now (mkState m (rebuilt_index m))
  end.
Proof.
  unfold __init__. unfold bind at 1, modify.
  change (with_index _ (mkState m idx0)) with (mkState m []).
  unfold _load_index, bind, path_exists, gets, read_text.
  rewrite lookup_index_path. cbn [entries].
  destruct (m !! INDEX_FILENAME) as [[c ct mt|]|] eqn:Hi.
  - rewrite bool_decide_eq_true_2 by done.
    rewrite lookup_index_path. cbn [entries]. rewrite Hi.
    destruct (json_load c); [done|]. by rewrite _rebuild_index_unfold.
  - rewrite bool_decide_eq_true_2 by done.
    rewrite lookup_index_path. cbn [entries]. rewrite Hi.
    by rewrite _rebuild_index_unfold.
  - rewrite bool_decide_eq_false_2 by (by intros [? ?]).
    by rewrite _rebuild_index_unfold.
Qed.

(** A new manager over a directory without a usable index file (none, one
    that does not parse, or a directory of that name) rebuilds the index from
    the directory, whatever it held in memory.  It succeeds exactly when the
    index can be written; a directory named [index.json] makes the
    constructor fail.  After a success, if the directory held no
    [index.tmp], the index mirrors the directory. *)
Theorem init_rebuilds now m idx0 :
  no_usable_index json_load m →
  let r := __init__ data_dir json_dump json_load now (mkState m idx0) in
  _index r.2 = rebuilt_index m ∧
  (r.1 = Ok tt ↔ index_writable m) ∧
  (m !! INDEX_FILENAME = Some Dir → r.1 = Raise IsADirectoryError) ∧
  (r.1 = Ok tt →
   entries r.2 !! INDEX_FILENAME = Some (File (json_dump (rebuilt_index m)) now now) ∧
   (m !! TMP_FILENAME = None → in_step r.2)).
Proof.
  intros Hno. cbn zeta.
  assert (__init__ data_dir json_dump json_load now (mkState m idx0)
          = _write_index data_dir json_dump now (mkState m (rebuilt_index m))) as ->.
  { rewrite __init___unfold. unfold no_usable_index in Hno.
    destruct (m !! INDEX_FILENAME) as [[c ct mt|]|]; [|done..]. by rewrite Hno. }
  set (s0 := mkState m (rebuilt_index m)).
  assert (index_writable m → _write_index data_dir json_dump now s0
          = (Ok tt, mkState (persisted_dir json_dump now (rebuilt_index m) m)
                      (rebuilt_index m))) as Hok.
  { intros Hw. by rewrite _write_index_writable. }
  split; [by rewrite _write_index_index|]. split; [|split].
  - split; [|by intros Hw; rewrite Hok].
    rewrite _write_index_unfold. cbn zeta. unfold index_writable. cbn [entries s0].
    destruct (m !! TMP_FILENAME) as [[]|];
      destruct (m !! INDEX_FILENAME) as [[]|]; cbn; try done.
  - intros Hd. rewrite _write_index_unfold. cbn zeta. cbn [entries s0].
    rewrite Hd. by destruct (m !! TMP_FILENAME) as [[]|].
  - intros Hr.
    destruct (_write_index data_dir json_dump now s0) as [[[]|e] s1] eqn:Hw; [|done].
    pose proof (_write_index_Ok _ _ _ _ _ Hw) as ->. split.
    + cbn. apply lookup_insert_eq.
    + intros Ht. eapply in_step_persisted; [|exact Hw].
      split; [apply rebuilt_index_mirrors|done].
Qed.

(** A new manager over a directory whose [index.json] parses takes the index
    from the file alone: the directory is not read further and nothing is
    written, so the index is not checked against the documents.  The keys of
    the index are distinct, and for a file with distinct keys, as a parsed
    JSON object has them, the index is the pairs of the file in their
    order. *)
Theorem init_loads now m idx0 c ct mt raw :
  m !! INDEX_FILENAME = Some (File c ct mt) →
  json_load c = Some raw →
  __init__ data_dir json_dump json_load now (mkState m idx0)
    = (Ok tt, mkState m (loaded_index raw)) ∧
  NoDup (dict_keys (loaded_index raw)) ∧
  (NoDup raw.*1 → loaded_index raw = raw).
Proof.
  intros Hi Hl. split; [|split].
  - by rewrite __init___unfold, Hi, Hl.
  - apply NoDup_loaded_from. constructor.
  - intros Hnd. unfold loaded_index. rewrite loaded_index_from; [done..|].
    intros k _. apply not_elem_of_nil.
Qed.

(** Persist, then reload: when the index was written and the parser reads
    the serialised index back, a new manager over the resulting directory has
    the same index, entry for entry and in the same order. *)
Theorem persist_then_reload now now' s s1 idx0 :
  _write_index data_dir json_dump now s = (Ok tt, s1) →
  NoDup (dict_keys (_index s)) →
  json_load (json_dump (_index s)) = Some (_index s) →
  __init__ data_dir json_dump json_load now' (mkState (entries s1) idx0)
    = (Ok tt, mkState (entries s1) (_index s)).
Proof.
  intros Hw Hnd Hload. apply _write_index_Ok in Hw as ->. cbn [entries with_entries].
  rewrite __init___unfold, lookup_insert_eq, Hload.
  unfold loaded_index. rewrite loaded_index_from; [done..|].
  intros k _. apply not_elem_of_nil.
Qed.

End Loading.

(** ** Searching, reading and listing together *)

(** What [find_text] reports can be read: for a hit in a file whose name the
    manager accepts as it is, [show_file] of that file succeeds and has the
    reported text at the reported line number. *)
Theorem find_hits_are_lines (data_dir : Path) (str_lower : string → string)
    text ignore_case s results f i t :
  find_text str_lower text ignore_case s = (Ok results, s) →
  (f, i, t) ∈ results →
  _sanitize_filename f = Ok f → f ≠ "." → f ≠ ".." →
  ∃ lines, show_file data_dir f s = (Ok lines, s) ∧
           1 ≤ i ∧ lines !! (i - 1) = Some t.
Proof.
  rewrite find_text_unfold. intros [= <-] Hin Hs Hd Hdd.
  apply elem_of_find_text in Hin as (c & ct & mt & line & Hm & _ & Hge & Hl & _ & ->).
  exists (rstrip_nl <$> readlines c). split; [|split; [done|]].
  - apply (show_file_File data_dir f (joinpath data_dir f) s c ct mt).
    + unfold _file_path. by rewrite Hs.
    + unfold lookup_path. by rewrite locate_child.
  - by rewrite list_lookup_fmap, Hl.
Qed.

Lemma str_contains_empty hay : str_contains "" hay = true.
Proof. by destruct hay. Qed.

(** The empty text is found in every line: [find_text] with an empty needle
    reports each line of each regular file other than the index file
    ([str.lower] gives the empty text for the empty text). *)
Theorem find_text_empty_needle (str_lower : string → string)
    ignore_case s f c ct mt i line :
  str_lower "" = "" →
  entries s !! f = Some (File c ct mt) → f ≠ INDEX_FILENAME →
  readlines c !! i = Some line →
  ∃ results, find_text str_lower "" ignore_case s = (Ok results, s) ∧
             (f, S i, rstrip_nl line) ∈ results.
Proof.
  intros Hlow Hm Hi Hl. eexists. split; [apply find_text_unfold|].
  apply elem_of_find_text. exists c, ct, mt, line.
  repeat split; try done; [lia| |].
  - by rewrite Nat.sub_1_r.
  - assert (fold_case str_lower ignore_case "" = "") as ->
      by (by destruct ignore_case).
    apply str_contains_empty.
Qed.

Lemma scan_filename m n k meta : scan m n = Some (k, meta) → k = n ∧ filename meta = n.
Proof.
  unfold scan. destruct (m !! n) as [[c ct mt|]|]; [|done..].
  destruct (bool_decide (n = INDEX_FILENAME)); [done|]. by intros [= <- <-].
Qed.

Lemma filename_rebuilt m names :
  filename <$> dict_values (omap (scan m) names) = dict_keys (omap (scan m) names).
Proof.
  unfold dict_values, dict_keys. induction names as [|n names IH]; [done|].
  change (omap (scan m) (n :: names)) with
    (match scan m n with
     | Some y => y :: omap (scan m) names
     | None => omap (scan m) names
     end).
  destruct (scan m n) as [[k meta]|] eqn:Hs; [|done].
  apply scan_filename in Hs as [-> Hf].
  cbn [fmap list_fmap fst snd]. rewrite Hf. f_equal. exact IH.
Qed.

Lemma StronglySorted_filter_lt (P : string → Prop) `{∀ x, Decision (P x)} names :
  StronglySorted name_lt names → StronglySorted name_lt (filter P names).
Proof.
  induction 1 as [|n names Hs IH Hall]; [constructor|].
  rewrite filter_cons. destruct (decide (P n)); [|done].
  constructor; [done|]. apply Forall_forall. intros x [_ Hx]%list_elem_of_filter.
  rewrite Forall_forall in Hall. by apply Hall.
Qed.

(** [list_files] returns one entry per regular file other than the index
    file, under the file's name, in ascending order of name. *)
Theorem list_files_sorted (data_dir : Path)
    (json_dump : list (string * FileMeta) → string) now s metas s' :
  list_files data_dir json_dump now s = (Ok metas, s') →
  filename <$> metas
    = filter (λ n, is_document (entries s) n) (sorted_iterdir (entries s)) ∧
  StronglySorted name_lt (filename <$> metas) ∧
  length metas = files_count (entries s) ∧
  ∀ n, n ∈ (filename <$> metas) ↔ is_document (entries s) n.
Proof.
  unfold list_files, bind, gets. rewrite _rebuild_index_unfold.
  pose proof (_write_index_index data_dir json_dump now
    (mkState (entries s) (rebuilt_index (entries s)))) as Hidx.
  destruct (_write_index _ _ _ _) as [[[]|e] s1]; [|done].
  intros [= <- <-]. cbn [snd _index] in Hidx. rewrite Hidx.
  assert (filename <$> dict_values (rebuilt_index (entries s))
          = filter (λ n, is_document (entries s) n) (sorted_iterdir (entries s))) as Heq.
  { unfold rebuilt_index. by rewrite filename_rebuilt, dict_keys_omap_scan. }
  split; [done|]. split; [|split].
  - rewrite Heq. apply StronglySorted_filter_lt, sorted_iterdir_strict.
  - rewrite <- (length_fmap filename), Heq. unfold files_count, sorted_iterdir.
    by rewrite merge_sort_Permutation.
  - intros n. rewrite Heq, list_elem_of_filter, elem_of_sorted_iterdir.
    split; [by intros [? _]|]. intros Hd. split; [done|].
    unfold is_document, is_regular in Hd. by destruct (entries s !! n).
Qed.

(** ** Tags there and back *)

Lemma dict_set_same {V} (d : list (string * V)) k v :
  dict_get d k = Some v → dict_set d k v = d.
Proof.
  induction d as [|[k' v'] r IH]; [done|]. cbn [dict_get dict_set].
  destruct (decide (k' = k)) as [->|Hne].
  - by intros [= ->].
  - intros Hg. by rewrite IH.
Qed.

Lemma dict_set_set {V} (d : list (string * V)) k v w :
  dict_set (dict_set d k v) k w = dict_set d k w.
Proof.
  induction d as [|[k' v'] r IH]; cbn [dict_set].
  - by rewrite decide_True.
  - destruct (decide (k' = k)) as [->|Hne]; cbn [dict_set].
    + by rewrite decide_True.
    + by rewrite decide_False, IH.
Qed.

Lemma list_remove_first_snoc tag (ts : list string) :
  tag ∉ ts → list_remove_first tag (ts ++ [tag]) = ts.
Proof.
  induction ts as [|t ts IH]; cbn [app list_remove_first].
  - intros _. by rewrite decide_True.
  - intros [Hne Hts]%not_elem_of_cons. rewrite decide_False by done.
    by rewrite IH.
Qed.

(** Adding a tag that is not there and removing it again gives the index back
    as it was; in between, [get_meta] shows the tag last in the list. *)
Theorem add_then_remove_tag (data_dir : Path)
    (json_dump : list (string * FileMeta) → string) now now' name tag s base meta :
  _sanitize_filename name = Ok base →
  dict_get (_index s) base = Some meta →
  tag ∉ tags meta →
  let s1 := (add_tag data_dir json_dump now name tag s).2 in
  let s2 := (remove_tag data_dir json_dump now' name tag s1).2 in
  get_meta name s1 = (Ok (Some (set_tags meta (tags meta ++ [tag]))), s1) ∧
  get_meta name s2 = (Ok (Some meta), s2) ∧
  _index s2 = _index s.
Proof.
  intros Hs Hg Hin. cbn zeta.
  rewrite (add_tag_unfold _ _ _ _ _ _ _ _ Hs Hg).
  rewrite bool_decide_eq_false_2 by done.
  set (meta1 := set_tags meta (tags meta ++ [tag])).
  set (s1 := (_write_index data_dir json_dump now _).2).
  assert (_index s1 = dict_set (_index s) base meta1) as Hi1.
  { unfold s1. by rewrite _write_index_index. }
  assert (dict_get (_index s1) base = Some meta1) as Hg1.
  { rewrite Hi1. apply dict_get_set_eq. }
  rewrite (remove_tag_unfold _ _ _ _ _ _ _ _ Hs Hg1).
  rewrite bool_decide_eq_true_2.
  2:{ cbn. apply elem_of_app. right. by apply list_elem_of_singleton. }
  assert (set_tags meta1 (list_remove_first tag (tags meta1)) = meta) as ->.
  { unfold meta1. cbn. rewrite list_remove_first_snoc by done. by destruct meta. }
  set (s2 := (_write_index data_dir json_dump now' _).2).
  assert (_index s2 = _index s) as Hi2.
  { unfold s2. rewrite _write_index_index. cbn. rewrite Hi1, dict_set_set.
    by apply dict_set_same. }
  split; [by rewrite (get_meta_Ok _ _ _ Hs), Hg1|].
  split; [|done]. by rewrite (get_meta_Ok _ _ _ Hs), Hi2, Hg.
Qed.

(** ** What every successful operation keeps *)

Lemma bind_Ok {A B} (m : M A) (k : A → M B) s b s' :
  bind m k s = (Ok b, s') → ∃ a s1, m s = (Ok a, s1) ∧ k a s1 = (Ok b, s').
Proof.
  unfold bind. destruct (m s) as [[a|e] s1]; [|done]. intros Hk. by exists a, s1.
Qed.

Lemma gets_Ok {A} (f : state → A) s a s' : gets f s = (Ok a, s') → a = f s ∧ s' = s.
Proof. by intros [= <- <-]. Qed.

Lemma lift_Ok {A} (r : result A) s a s' : lift r s = (Ok a, s') → r = Ok a ∧ s' = s.
Proof. by intros [= -> <-]. Qed.

Lemma modify_Ok f s u s' : modify f s = (Ok u, s') → s' = f s.
Proof. by intros [= <-]. Qed.

Ltac inv_step H s1 H1 :=
  let a := fresh "a" in
  apply bind_Ok in H as (a & s1 & H1 & H);
  try (match type of a with unit => destruct a end);
  first [ apply gets_Ok in H1 as [-> ->]
        | apply lift_Ok in H1 as [H1 ->]
        | apply modify_Ok in H1 as ->
        | idtac ].

Section Kept.

Variable data_dir : Path.
Variable json_dump : list (string * FileMeta) → string.

Lemma unlink_Ok path s s' :
  unlink data_dir path s = (Ok tt, s') →
  ∃ n, locate data_dir path = Inside n ∧ s' = with_entries (delete n) s.
Proof.
  unfold unlink. destruct (locate data_dir path) as [n|]; [|done].
  destruct (entries s !! n) as [[]|]; [|done..]. intros [= <-]. by exists n.
Qed.

Lemma append_text_Ok now path text s s' :
  append_text data_dir now path text s = (Ok tt, s') →
  ∃ n c ct mt,
    locate data_dir path = Inside n ∧
    lookup_path data_dir path s' = Some (File c ct mt) ∧
    (s' = s ∨ s' = with_entries (<[n := File c ct mt]>) s).
Proof.
  unfold append_text, lookup_path.
  destruct (locate data_dir path) as [n|]; [|done]. intros H.
  destruct (entries s !! n) as [[c ct mt|]|] eqn:He; [|done|].
  - destruct (bool_decide _); injection H as <-.
    + exists n, c, ct, mt. by repeat split; [|left].
    + eexists n, _, now, now. repeat split; [|by right].
      cbn. apply lookup_insert_eq.
  - injection H as <-. eexists n, _, now, now. repeat split; [|by right].
    cbn. apply lookup_insert_eq.
Qed.

Lemma _write_index_persists now s s' :
  _write_index data_dir json_dump now s = (Ok tt, s') → index_persisted json_dump s'.
Proof.
  intros Hw. apply _write_index_Ok in Hw as ->.
  exists now, now. cbn. apply lookup_insert_eq.
Qed.

Lemma _update_meta_for_persists now path s s' :
  _update_meta_for data_dir json_dump now path s = (Ok tt, s') →
  index_persisted json_dump s'.
Proof.
  unfold _update_meta_for. intros H.
  inv_step H s1 H1. inv_step H s2 H2. inv_step H s3 H3.
  by eapply _write_index_persists.
Qed.

Lemma index_persisted_other (s s' : state) :
  _index s' = _index s →
  entries s' !! INDEX_FILENAME = entries s !! INDEX_FILENAME →
  index_persisted json_dump s → index_persisted json_dump s'.
Proof. intros Hi He (t1 & t2 & H). exists t1, t2. by rewrite Hi, He. Qed.

(** After every successful operation the index file is up to date: if
    [index.json] held the serialisation of the index in memory before the
    call, it holds the serialisation of the index in memory after it. *)
Theorem operations_keep_index_persisted now name s s' :
  index_persisted json_dump s →
  (∀ overwrite,
     create_file data_dir json_dump now name overwrite s = (Ok tt, s') →
     index_persisted json_dump s') ∧
  (∀ lines,
     add_lines data_dir json_dump now name lines s = (Ok tt, s') →
     index_persisted json_dump s') ∧
  (∀ line_no removed,
     remove_line data_dir json_dump now name line_no s = (Ok removed, s') →
     index_persisted json_dump s') ∧
  (remove_file data_dir json_dump now name s = (Ok tt, s') →
     index_persisted json_dump s') ∧
  (∀ tag, add_tag data_dir json_dump now name tag s = (Ok tt, s') →
     index_persisted json_dump s') ∧
  (∀ tag, remove_tag data_dir json_dump now name tag s = (Ok tt, s') →
     index_persisted json_dump s') ∧
  (∀ metas, list_files data_dir json_dump now s = (Ok metas, s') →
     index_persisted json_dump s').
Proof.
  intros Hp. split; [|split; [|split; [|split; [|split; [|split]]]]].
  - intros overwrite H. unfold create_file in H. inv_step H s1 H1.
    destruct (MAX_FILES <=? _); [done|]. inv_step H s2 Hpath. inv_step H s3 H3.
    destruct (_ && _); [done|]. inv_step H s4 Hw.
    by eapply _update_meta_for_persists.
  - intros lines H. unfold add_lines in H. inv_step H s1 Hpath. inv_step H s2 H2.
    destruct (negb _); [done|]. inv_step H s3 Hw.
    by eapply _update_meta_for_persists.
  - intros line_no removed H. unfold remove_line, remove_line_faulty in H.
    destruct (line_no <? 1)%Z; [done|]. inv_step H s1 Hpath. inv_step H s2 H2.
    destruct (negb _); [done|]. inv_step H s3 Hr.
    destruct (_ <? _)%Z; [done|]. destruct (pop _ _) as [[line rest]|]; [|done].
    inv_step H s4 Hw. inv_step H s5 Hu. injection H as _ <-.
    by eapply _update_meta_for_persists.
  - intros H. unfold remove_file in H. inv_step H s1 Hpath. inv_step H s2 H2.
    destruct (negb _); [done|]. inv_step H s3 Hu. inv_step H s4 H4.
    apply unlink_Ok in Hu as (n & Hloc & ->).
    destruct (_file_path_Inside _ _ _ _ Hpath Hloc) as (_ & _ & Hi).
    cbn [with_entries _index] in H.
    destruct (dict_has (_index s) name).
    + inv_step H s5 H5. by eapply _write_index_persists.
    + injection H as <-. eapply index_persisted_other; [| |exact Hp]; [done|].
      cbn. by apply lookup_delete_ne.
  - intros tag H. unfold add_tag, get_meta in H. inv_step H s1 Hg.
    inv_step Hg s2 Hs. apply gets_Ok in Hg as [-> ->].
    destruct (dict_get _ _) as [meta|]; [|done].
    destruct (bool_decide _); [by injection H as <-|].
    inv_step H s3 H3. by eapply _write_index_persists.
  - intros tag H. unfold remove_tag, get_meta in H. inv_step H s1 Hg.
    inv_step Hg s2 Hs. apply gets_Ok in Hg as [-> ->].
    destruct (dict_get _ _) as [meta|]; [|done].
    destruct (bool_decide _); [|by injection H as <-].
    inv_step H s3 H3. by eapply _write_index_persists.
  - intros metas H. unfold list_files in H. inv_step H s1 Hr.
    apply gets_Ok in H as [_ ->]. rewrite _rebuild_index_unfold in Hr.
    by eapply _write_index_persists.
Qed.

End Kept.

Section Sizes.

Variable data_dir : Path.
Variable json_dump : list (string * FileMeta) → string.

Lemma sizes_agree_weaken skip s : sizes_agree s → sizes_agree_but skip s.
Proof.
  intros [Hnd H]. split; [done|]. intros n meta c ct mt Hi _. by apply H.
Qed.

Lemma sizes_agree_insert s n f :
  sizes_agree s → sizes_agree_but (Some n) (with_entries (<[n := f]>) s).
Proof.
  intros [Hnd H]. split; [done|]. intros n' meta c ct mt Hi Hn Hg He.
  cbn in He. rewrite lookup_insert_ne in He by congruence. by eapply H.
Qed.

Lemma sizes_agree_persisted now s s' :
  sizes_agree s → _write_index data_dir json_dump now s = (Ok tt, s') → sizes_agree s'.
Proof.
  intros [Hnd H] Hw. apply _write_index_Ok in Hw as ->. split; [done|].
  intros n meta c ct mt Hi _ Hg He. cbn in He, Hg.
  rewrite lookup_insert_ne in He by done.
  destruct (decide (n = TMP_FILENAME)) as [->|Hn].
  - by rewrite lookup_delete_eq in He.
  - rewrite lookup_delete_ne in He by done. by eapply H.
Qed.

Lemma sizes_agree_update now path s s' n c ct mt :
  sizes_agree_but (Some n) s →
  lookup_path data_dir path s = Some (File c ct mt) →
  locate data_dir path = Inside n → path_name path = n →
  _update_meta_for data_dir json_dump now path s = (Ok tt, s') →
  sizes_agree s'.
Proof.
  intros [Hnd H] Hl Hloc Hn. rewrite (_update_meta_for_unfold _ _ _ _ _ _ _ _ Hl).
  cbn zeta. rewrite Hn. apply sizes_agree_persisted.
  split; [by apply NoDup_dict_keys_set|].
  intros n' meta c' ct' mt' Hi _ Hg He. cbn in Hg, He.
  destruct (decide (n' = n)) as [->|Hne].
  - rewrite dict_get_set_eq in Hg. unfold lookup_path in Hl. rewrite Hloc in Hl.
    rewrite Hl in He. injection He as <- _ _.
    by destruct (dict_get (_index s) n); injection Hg as <-.
  - rewrite dict_get_set_ne in Hg by done. eapply H; [done| |done..]. congruence.
Qed.

Lemma sizes_agree_unlink s n :
  sizes_agree s → sizes_agree (with_entries (delete n) s).
Proof.
  intros [Hnd H]. split; [done|]. intros n' meta c ct mt Hi _ Hg He. cbn in He.
  destruct (decide (n' = n)) as [->|Hne].
  - by rewrite lookup_delete_eq in He.
  - rewrite lookup_delete_ne in He by done. by eapply H.
Qed.

Lemma sizes_agree_del s k :
  sizes_agree s → sizes_agree (with_index (λ idx, dict_del idx k) s).
Proof.
  intros [Hnd H]. split; [by apply NoDup_dict_keys_del|].
  intros n meta c ct mt Hi _ Hg He. cbn in Hg, He.
  destruct (decide (k = n)) as [->|Hne].
  - by rewrite dict_get_del_eq in Hg.
  - rewrite dict_get_del_ne in Hg by done. by eapply H.
Qed.

Lemma sizes_agree_retag s k meta ts :
  sizes_agree s → dict_get (_index s) k = Some meta →
  sizes_agree (with_index (λ idx, dict_set idx k (set_tags meta ts)) s).
Proof.
  intros [Hnd H] Hk. split; [by apply NoDup_dict_keys_set|].
  intros n m c ct mt Hi _ Hg He. cbn in Hg, He.
  destruct (decide (k = n)) as [->|Hne].
  - rewrite dict_get_set_eq in Hg. injection Hg as <-. cbn. by eapply H.
  - rewrite dict_get_set_ne in Hg by done. by eapply H.
Qed.

Lemma NoDup_rebuilt m : NoDup (dict_keys (rebuilt_index m)).
Proof.
  unfold rebuilt_index. rewrite dict_keys_omap_scan.
  apply NoDup_filter, NoDup_sorted_iterdir.
Qed.

Lemma sizes_agree_rebuilt m : sizes_agree (mkState m (rebuilt_index m)).
Proof.
  split; [apply NoDup_rebuilt|]. intros n meta c ct mt Hi _ Hg He. cbn in Hg, He.
  rewrite dict_get_rebuilt in Hg. unfold scan in Hg. rewrite He in Hg.
  destruct (bool_decide _); [done|]. by injection Hg as <-.
Qed.

Lemma list_files_sizes now s metas s' :
  list_files data_dir json_dump now s = (Ok metas, s') → sizes_agree s'.
Proof.
  intros H. unfold list_files in H. inv_step H s1 Hr.
  apply gets_Ok in H as [_ ->]. rewrite _rebuild_index_unfold in Hr.
  eapply sizes_agree_persisted; [|exact Hr]. apply sizes_agree_rebuilt.
Qed.

(** The recorded sizes stay right: if every entry whose document is on disk
    records the length of its text, the same holds after every successful
    operation, whatever the name; a listing makes it hold whatever the index
    was. *)
Theorem operations_keep_sizes now name s s' :
  sizes_agree s →
  (∀ overwrite,
     create_file data_dir json_dump now name overwrite s = (Ok tt, s') →
     sizes_agree s') ∧
  (∀ lines,
     add_lines data_dir json_dump now name lines s = (Ok tt, s') → sizes_agree s') ∧
  (∀ line_no removed,
     remove_line data_dir json_dump now name line_no s = (Ok removed, s') →
     sizes_agree s') ∧
  (remove_file data_dir json_dump now name s = (Ok tt, s') → sizes_agree s') ∧
  (∀ tag, add_tag data_dir json_dump now name tag s = (Ok tt, s') → sizes_agree s') ∧
  (∀ tag, remove_tag data_dir json_dump now name tag s = (Ok tt, s') → sizes_agree s') ∧
  (∀ metas, list_files data_dir json_dump now s = (Ok metas, s') → sizes_agree s').
Proof.
  intros Hsz. split; [|split; [|split; [|split; [|split; [|split]]]]].
  - intros overwrite H. unfold create_file in H. inv_step H s1 H1.
    destruct (MAX_FILES <=? _); [done|]. inv_step H s2 Hpath. inv_step H s3 H3.
    destruct (_ && _); [done|]. inv_step H s4 Hw.
    apply write_text_Ok in Hw as (n & Hloc & -> & Hl).
    destruct (_file_path_Inside _ _ _ _ Hpath Hloc) as (_ & Hn & _).
    eapply sizes_agree_update; [|exact Hl|exact Hloc|exact Hn|exact H].
    by apply sizes_agree_insert.
  - intros lines H. unfold add_lines in H. inv_step H s1 Hpath. inv_step H s2 H2.
    destruct (negb _); [done|]. inv_step H s3 Hw.
    apply append_text_Ok in Hw as (n & c & ct & mt & Hloc & Hl & Hs3).
    destruct (_file_path_Inside _ _ _ _ Hpath Hloc) as (_ & Hn & _).
    eapply sizes_agree_update; [|exact Hl|exact Hloc|exact Hn|exact H].
    destruct Hs3 as [->| ->]; [by apply sizes_agree_weaken|by apply sizes_agree_insert].
  - intros line_no removed H. unfold remove_line, remove_line_faulty, rewrite_lines in H.
    destruct (line_no <? 1)%Z; [done|]. inv_step H s1 Hpath. inv_step H s2 H2.
    destruct (negb _); [done|]. inv_step H s3 Hr.
    destruct (_ <? _)%Z; [done|]. destruct (pop _ _) as [[line rest]|]; [|done].
    inv_step H s4 Hw. inv_step H s5 Hu. injection H as _ <-.
    assert (s3 = s) as ->.
    { unfold read_text in Hr. by destruct (lookup_path _ _ _) as [[]|]; injection Hr as _ <-. }
    apply write_text_Ok in Hw as (n & Hloc & -> & Hl).
    destruct (_file_path_Inside _ _ _ _ Hpath Hloc) as (_ & Hn & _).
    eapply sizes_agree_update; [|exact Hl|exact Hloc|exact Hn|exact Hu].
    by apply sizes_agree_insert.
  - intros H. unfold remove_file in H. inv_step H s1 Hpath. inv_step H s2 H2.
    destruct (negb _); [done|]. inv_step H s3 Hu. inv_step H s4 H4.
    apply unlink_Ok in Hu as (n & Hloc & ->).
    cbn [with_entries _index] in H.
    destruct (dict_has (_index s) name).
    + inv_step H s5 H5. eapply sizes_agree_persisted; [|exact H].
      apply (sizes_agree_del (with_entries (delete n) s)). by apply sizes_agree_unlink.
    + injection H as <-. by apply sizes_agree_unlink.
  - intros tag H. unfold add_tag, get_meta in H. inv_step H s1 Hg.
    inv_step Hg s2 Hs. apply gets_Ok in Hg as [-> ->].
    destruct (dict_get _ _) as [meta|] eqn:Hm; [|done].
    destruct (bool_decide _); [by injection H as <-|].
    inv_step H s3 H3. eapply sizes_agree_persisted; [|exact H].
    apply sanitize_Ok in Hs as (-> & _). by apply sizes_agree_retag.
  - intros tag H. unfold remove_tag, get_meta in H. inv_step H s1 Hg.
    inv_step Hg s2 Hs. apply gets_Ok in Hg as [-> ->].
    destruct (dict_get _ _) as [meta|] eqn:Hm; [|done].
    destruct (bool_decide _); [|by injection H as <-].
    inv_step H s3 H3. eapply sizes_agree_persisted; [|exact H].
    apply sanitize_Ok in Hs as (-> & _). by apply sizes_agree_retag.
  - intros metas H. by eapply list_files_sizes.
Qed.

End Sizes.

(** ** One document at a time *)

Section Frame.

Variable data_dir : Path.
Variable json_dump : list (string * FileMeta) → string.
Variable b : string.
Hypothesis b_not_tmp : b ≠ TMP_FILENAME.
Hypothesis b_not_index : b ≠ INDEX_FILENAME.

Lemma same_at_refl s : same_at b s s.
Proof. by split. Qed.

Lemma same_at_trans s1 s2 s3 : same_at b s1 s2 → same_at b s2 s3 → same_at b s1 s3.
Proof. intros [H1 H2] [H3 H4]. split; congruence. Qed.

Lemma steady_ret {A} (a : A) : steady b (ret a).
Proof. intros s. apply same_at_refl. Qed.

Lemma steady_raise {A} e : steady b (@raise A e).
Proof. intros s. apply same_at_refl. Qed.

Lemma steady_gets {A} (f : state → A) : steady b (gets f).
Proof. intros s. apply same_at_refl. Qed.

Lemma steady_lift {A} (r : result A) : steady b (lift r).
Proof. intros s. apply same_at_refl. Qed.

Lemma steady_bind_fact {A B} (F : Prop) (m : M A) (k : A → M B) :
  steady b m → (∀ s a s', m s = (Ok a, s') → F) →
  (F → ∀ a, steady b (k a)) → steady b (bind m k).
Proof.
  intros Hm HF Hk s. unfold bind. specialize (Hm s).
  destruct (m s) as [[a|e] s1] eqn:Hms; [|done].
  eapply same_at_trans; [exact Hm|]. apply Hk. by eapply HF.
Qed.

Lemma steady_bind {A B} (m : M A) (k : A → M B) :
  steady b m → (∀ a, steady b (k a)) → steady b (bind m k).
Proof. intros Hm Hk. apply (steady_bind_fact True); auto. Qed.

Lemma steady_modify_index f :
  (∀ idx, dict_get (f idx) b = dict_get idx b) → steady b (modify (with_index f)).
Proof. intros Hf s. split; [done|]. cbn. apply Hf. Qed.

Lemma steady_write_text now path text :
  locate data_dir path ≠ Inside b → steady b (write_text data_dir now path text).
Proof.
  intros Hloc s. unfold write_text.
  destruct (locate data_dir path) as [n|]; [|apply same_at_refl].
  destruct (entries s !! n) as [[]|]; try apply same_at_refl.
  all: split; [|done]; cbn; apply lookup_insert_ne; congruence.
Qed.

Lemma steady_append_text now path text :
  locate data_dir path ≠ Inside b → steady b (append_text data_dir now path text).
Proof.
  intros Hloc s. unfold append_text.
  destruct (locate data_dir path) as [n|]; [|apply same_at_refl].
  destruct (entries s !! n) as [[]|]; try apply same_at_refl.
  - destruct (bool_decide _); [apply same_at_refl|].
    split; [|done]; cbn; apply lookup_insert_ne; congruence.
  - split; [|done]; cbn; apply lookup_insert_ne; congruence.
Qed.

Lemma steady_unlink path :
  locate data_dir path ≠ Inside b → steady b (unlink data_dir path).
Proof.
  intros Hloc s. unfold unlink.
  destruct (locate data_dir path) as [n|]; [|apply same_at_refl].
  destruct (entries s !! n) as [[]|]; try apply same_at_refl.
  split; [|done]; cbn; apply lookup_delete_ne; congruence.
Qed.

Lemma steady_write_index now : steady b (_write_index data_dir json_dump now).
Proof.
  intros s. split; [by apply _write_index_other|]. by rewrite _write_index_index.
Qed.

Lemma steady_update_meta now path :
  path_name path ≠ b → steady b (_update_meta_for data_dir json_dump now path).
Proof.
  intros Hn. unfold _update_meta_for.
  apply steady_bind; [|intros st].
  { intros s. unfold path_stat. destruct (lookup_path _ _ _) as [[]|]; apply same_at_refl. }
  apply steady_bind; [apply steady_gets|intros idx].
  apply steady_bind; [|intros _; apply steady_write_index].
  apply steady_modify_index. intros idx'. by apply dict_get_set_ne.
Qed.

Lemma steady_read_text path : steady b (read_text data_dir path).
Proof.
  intros s. unfold read_text. destruct (lookup_path _ _ _) as [[]|]; apply same_at_refl.
Qed.

Lemma steady_get_meta name : steady b (get_meta name).
Proof.
  unfold get_meta. apply steady_bind; [apply steady_lift|intros ?; apply steady_gets].
Qed.

(** The path built from a name whose basename is not [b]. *)
Lemma path_away name path :
  b ≠ basename name → _file_path data_dir name = Ok path →
  locate data_dir path ≠ Inside b ∧
  ((∃ n, locate data_dir path = Inside n) → path_name path ≠ b).
Proof.
  intros Hb Hp. split.
  - intros Hloc. destruct (_file_path_Inside _ _ _ _ Hp Hloc) as (Hs & _).
    apply sanitize_Ok in Hs as (-> & _). done.
  - intros [n Hloc]. destruct (_file_path_Inside _ _ _ _ Hp Hloc) as (Hs & -> & _).
    apply sanitize_Ok in Hs as (-> & _). done.
Qed.

(** An operation on one name leaves the rest alone: the document and the
    index entry called [b] are the same after [create_file], [add_lines],
    [remove_line], [add_tag] and [remove_tag] on a name whose basename is
    not [b], whether the call succeeds or fails; after [remove_file] as well
    when [b] is not the name as it was passed; and a listing keeps the
    document.  ([b] is neither [index.json] nor [index.tmp].) *)
Theorem other_documents_untouched now name s :
  b ≠ basename name →
  (∀ overwrite, same_at b s (create_file data_dir json_dump now name overwrite s).2) ∧
  (∀ lines, same_at b s (add_lines data_dir json_dump now name lines s).2) ∧
  (∀ line_no, same_at b s (remove_line data_dir json_dump now name line_no s).2) ∧
  (b ≠ name → same_at b s (remove_file data_dir json_dump now name s).2) ∧
  (∀ tag, same_at b s (add_tag data_dir json_dump now name tag s).2) ∧
  (∀ tag, same_at b s (remove_tag data_dir json_dump now name tag s).2) ∧
  entries (list_files data_dir json_dump now s).2 !! b = entries s !! b.
Proof.
  intros Hb.
  assert (∀ {A} (k : Path → M A),
    (∀ path, _file_path data_dir name = Ok path → steady b (k path)) →
    steady b (bind (lift (_file_path data_dir name)) k)) as Hpath.
  { intros A k Hk s'. unfold bind, lift.
    destruct (_file_path data_dir name) as [path|e] eqn:Hp; [|apply same_at_refl].
    by apply Hk. }
  split; [|split; [|split; [|split; [|split; [|split]]]]].
  - intros overwrite. revert s. change (steady b (create_file data_dir json_dump now name overwrite)).
    unfold create_file. apply steady_bind; [apply steady_gets|intros m].
    destruct (MAX_FILES <=? _); [apply steady_raise|].
    apply Hpath. intros path Hp. destruct (path_away _ _ Hb Hp) as [Hloc Hname].
    apply steady_bind; [apply steady_gets|intros present].
    destruct (_ && _); [apply steady_raise|].
    apply (steady_bind_fact (∃ n, locate data_dir path = Inside n)).
    + by apply steady_write_text.
    + intros s1 [] s2 Hw. apply write_text_Ok in Hw as (n & ? & _). by exists n.
    + intros HF _. apply steady_update_meta. by apply Hname.
  - intros lines. revert s. change (steady b (add_lines data_dir json_dump now name lines)).
    unfold add_lines. apply Hpath. intros path Hp.
    destruct (path_away _ _ Hb Hp) as [Hloc Hname].
    apply steady_bind; [apply steady_gets|intros present].
    destruct (negb _); [apply steady_raise|].
    apply (steady_bind_fact (∃ n, locate data_dir path = Inside n)).
    + by apply steady_append_text.
    + intros s1 [] s2 Hw. apply append_text_Ok in Hw as (n & ? & ? & ? & ? & _).
      by exists n.
    + intros HF _. apply steady_update_meta. by apply Hname.
  - intros line_no. revert s.
    change (steady b (remove_line data_dir json_dump now name line_no)).
    unfold remove_line, remove_line_faulty, rewrite_lines.
    destruct (line_no <? 1)%Z; [apply steady_raise|].
    apply Hpath. intros path Hp. destruct (path_away _ _ Hb Hp) as [Hloc Hname].
    apply steady_bind; [apply steady_gets|intros present].
    destruct (negb _); [apply steady_raise|].
    apply steady_bind; [apply steady_read_text|intros text].
    destruct (_ <? _)%Z; [apply steady_raise|].
    destruct (pop _ _) as [[line rest]|]; [|apply steady_raise].
    apply (steady_bind_fact (∃ n, locate data_dir path = Inside n)).
    + by apply steady_write_text.
    + intros s1 [] s2 Hw. apply write_text_Ok in Hw as (n & ? & _). by exists n.
    + intros HF _. apply steady_bind; [|intros _; apply steady_ret].
      apply steady_update_meta. by apply Hname.
  - intros Hraw. revert s. change (steady b (remove_file data_dir json_dump now name)).
    unfold remove_file. apply Hpath. intros path Hp.
    destruct (path_away _ _ Hb Hp) as [Hloc _].
    apply steady_bind; [apply steady_gets|intros present].
    destruct (negb _); [apply steady_raise|].
    apply steady_bind; [by apply steady_unlink|intros _].
    apply steady_bind; [apply steady_gets|intros idx].
    destruct (dict_has idx name); [|apply steady_ret].
    apply steady_bind; [|intros _; apply steady_write_index].
    apply steady_modify_index. intros idx'. by apply dict_get_del_ne.
  - intros tag. revert s. change (steady b (add_tag data_dir json_dump now name tag)).
    unfold add_tag. apply steady_bind; [apply steady_get_meta|intros [meta|]];
      [|apply steady_raise].
    destruct (bool_decide _); [apply steady_ret|].
    apply steady_bind; [|intros _; apply steady_write_index].
    apply steady_modify_index. intros idx'. by apply dict_get_set_ne.
  - intros tag. revert s. change (steady b (remove_tag data_dir json_dump now name tag)).
    unfold remove_tag. apply steady_bind; [apply steady_get_meta|intros [meta|]];
      [|apply steady_raise].
    destruct (bool_decide _); [|apply steady_ret].
    apply steady_bind; [|intros _; apply steady_write_index].
    apply steady_modify_index. intros idx'. by apply dict_get_set_ne.
  - unfold list_files, bind, gets. rewrite _rebuild_index_unfold.
    pose proof (_write_index_other data_dir json_dump now
      (mkState (entries s) (rebuilt_index (entries s))) b b_not_tmp b_not_index) as Ho.
    by destruct (_write_index _ _ _ _) as [[[]|e] s1].
Qed.

End Frame.

(** ** The web adapter *)

Section WebFacts.

Variable data_dir : Path.
Variable json_dump : list (string * FileMeta) → string.
Variable str_lower : string → string.

(** [POST /files] by the body of the request.  A body that does not parse
    is answered with 400.  A body that parses to something other than an
    object makes [body.get] raise [AttributeError], which leaves the handler.
    For a body that is an object the handler lets no exception out and
    never overwrites: the reply is 400, or the name created, and then
    [create_file] without overwrite succeeded; a missing, empty or
    non-string field gives 400 and nothing is done; a name whose path exists
    gives 400 and nothing changes, whatever else holds; a name the manager
    rejects gives 400 as well.  Nothing changes unless the manager is
    called. *)
Theorem web_create_file_replies now s :
  Web.create_file data_dir json_dump now Web.NotJson s
    = (Web.Replies (Web.Abort 400), s) ∧
  Web.create_file data_dir json_dump now Web.NotObject s
    = (Web.RaisesAttributeError, s) ∧
  ∀ fld,
    (∃ r s', Web.create_file data_dir json_dump now (Web.Object fld) s
               = (Web.Replies r, s') ∧
             (r = Web.Abort 400 ∨
              ∃ f, fld = Some (Web.Text f) ∧ f ≠ "" ∧ r = Web.Json (Web.Created f) ∧
                   create_file data_dir json_dump now f false s = (Ok tt, s'))) ∧
    ((∀ f, fld = Some (Web.Text f) → f = "") →
     Web.create_file data_dir json_dump now (Web.Object fld) s
       = (Web.Replies (Web.Abort 400), s)) ∧
    (∀ f path, fld = Some (Web.Text f) →
       _file_path data_dir f = Ok path → is_Some (lookup_path data_dir path s) →
       Web.create_file data_dir json_dump now (Web.Object fld) s
         = (Web.Replies (Web.Abort 400), s)) ∧
    (∀ f e, fld = Some (Web.Text f) → _sanitize_filename f = Raise e →
       Web.create_file data_dir json_dump now (Web.Object fld) s
         = (Web.Replies (Web.Abort 400), s)).
Proof.
  split; [done|]. split; [done|]. intros fld. split; [|split; [|split]].
  - destruct fld as [[f|[]]|]; [|by eexists _, _; split; [|left]..].
    unfold Web.create_file. destruct (bool_decide (f = "")) eqn:Hf.
    { by eexists _, _; split; [|left]. }
    apply bool_decide_eq_false in Hf.
    destruct (create_file data_dir json_dump now f false s) as [[[]|e] s1] eqn:Hc.
    + eexists _, _. split; [done|]. right. by exists f.
    + by eexists _, _; split; [|left].
  - intros Hf. destruct fld as [[f|[]]|]; [|done..].
    unfold Web.create_file. by rewrite bool_decide_eq_true_2 by (by apply Hf).
  - intros f path -> Hp Hsome. unfold Web.create_file.
    destruct (bool_decide (f = "")); [done|].
    assert (∃ e, create_file data_dir json_dump now f false s = (Raise e, s)) as [e ->].
    { unfold create_file. unfold bind at 1, gets.
      destruct (MAX_FILES <=? _); [by eexists|].
      unfold bind at 1, lift. rewrite Hp. unfold bind at 1, path_exists, gets.
      rewrite bool_decide_eq_true_2 by done. by eexists. }
    done.
  - intros f e -> Hs. unfold Web.create_file.
    destruct (bool_decide (f = "")); [done|].
    assert (∃ e', create_file data_dir json_dump now f false s = (Raise e', s)) as [e' ->].
    { unfold create_file. unfold bind at 1, gets.
      destruct (MAX_FILES <=? _); [by eexists|].
      unfold bind at 1, lift, _file_path. rewrite Hs. by eexists. }
    done.
Qed.

(** Errors the other handlers let out: a name the manager rejects makes
    [GET /files/<name>], [POST /files/<name>/lines], [DELETE /files/<name>]
    and the deletion of a line raise the [ValueError] of the sanitizer
    instead of replying, and line number 0 makes the deletion of a line
    raise for every name; nothing changes. *)
Theorem web_errors_let_out now filename lines line_no s :
  (∀ e, _sanitize_filename filename = Raise e →
     Web.show_file data_dir filename s = (Raise e, s) ∧
     Web.post_lines data_dir json_dump now filename (Some lines) s = (Raise e, s) ∧
     Web.delete_file data_dir json_dump now filename s = (Raise e, s) ∧
     Web.delete_line data_dir json_dump now filename (S line_no) s = (Raise e, s) ∧
     ∃ msg, e = ValueError msg) ∧
  Web.delete_line data_dir json_dump now filename 0 s
    = (Raise (ValueError MSG_LINE_NO), s).
Proof.
  split; [|done]. intros e Hs.
  assert (∃ msg, e = ValueError msg) as [msg ->].
  { unfold _sanitize_filename in Hs. destruct (_ || _); [by injection Hs as <-; eexists|].
    destruct (decide _); [by injection Hs as <-; eexists|done]. }
  assert (_file_path data_dir filename = Raise (ValueError msg)) as Hp.
  { unfold _file_path. by rewrite Hs. }
  unfold Web.show_file, Web.post_lines, Web.delete_file, Web.delete_line, Web.guarded.
  unfold show_file, add_lines, remove_file, remove_line, remove_line_faulty.
  unfold bind, lift. rewrite Hp.
  assert ((Z.of_nat (S line_no) <? 1)%Z = false) as -> by (apply Z.ltb_ge; lia).
  cbn. repeat split; eauto.
Qed.

(** [GET /files/<name>] replies 404 exactly when the manager accepts the name
    and the document is absent; it then changes nothing. *)
Theorem web_show_file_not_found filename s :
  let r := Web.show_file data_dir filename s in
  (r.1 = Ok (Web.Abort 404) ↔
   ∃ path, _file_path data_dir filename = Ok path ∧
           lookup_path data_dir path s = None) ∧
  r.2 = s.
Proof.
  cbv zeta. destruct (Web.show_file data_dir filename s) as [r s'] eqn:Hw.
  cbn [fst snd]. revert Hw.
  unfold Web.show_file, Web.guarded, show_file, bind, lift, path_exists, gets, read_text.
  destruct (_file_path data_dir filename) as [path|e] eqn:Hp.
  - destruct (lookup_path data_dir path s) as [[c ct mt|]|] eqn:Hl.
    + rewrite bool_decide_eq_true_2 by done. cbn. rewrite Hl. cbn. intros [= <- <-].
      split; [|done]. split; [done|]. intros (p & [= <-] & Hn). congruence.
    + rewrite bool_decide_eq_true_2 by done. cbn. rewrite Hl. cbn. intros [= <- <-].
      split; [|done]. split; [done|]. intros (p & [= <-] & Hn). congruence.
    + rewrite bool_decide_eq_false_2 by (by intros [? ?]). cbn. intros [= <- <-].
      split; [|done]. split; [by exists path|done].
  - unfold _file_path in Hp. destruct (_sanitize_filename filename) eqn:Hs; [done|].
    injection Hp as <-. unfold _sanitize_filename in Hs.
    assert (on_nf : Web.on_not_found e0 = None).
    { destruct (_ || _); [by injection Hs as <-|].
      destruct (decide _); [by injection Hs as <-|done]. }
    rewrite on_nf. intros [= <- <-]. split; [|done].
    split; [done|]. by intros (p & ? & _).
Qed.

(** [GET /find] without a query text, or with an empty one, replies with no
    match and scans nothing; otherwise it replies with what [find_text]
    finds, ignoring case unless the parameter [case] is [true] in any
    letter case. *)
Theorem web_find_replies q case s :
  (default "" q = "" →
   Web.find str_lower q case s = (Ok (Web.Json (Web.Matches [])), s)) ∧
  (default "" q ≠ "" →
   ∃ hits, find_text str_lower (default "" q)
             (negb (bool_decide (lower (default "false" case) = "true"))) s
           = (Ok hits, s) ∧
           Web.find str_lower q case s = (Ok (Web.Json (Web.Matches hits)), s)) ∧
  (default "" q ≠ "" → case = None →
   ∃ hits, find_text str_lower (default "" q) true s = (Ok hits, s) ∧
           Web.find str_lower q case s = (Ok (Web.Json (Web.Matches hits)), s)).
Proof.
  split; [|split].
  - intros Hq. unfold Web.find. cbv zeta. by rewrite bool_decide_eq_true_2.
  - intros Hq. unfold Web.find. cbv zeta.
    eexists. split; [apply find_text_unfold|].
    rewrite bool_decide_eq_false_2 by done. unfold Web.guarded.
    by rewrite find_text_unfold.
  - intros Hq ->. unfold Web.find. cbv zeta.
    eexists. split; [apply find_text_unfold|].
    rewrite bool_decide_eq_false_2 by done. unfold Web.guarded.
    by rewrite find_text_unfold.
Qed.

End WebFacts.

(** ** The command-line adapter *)

Lemma read_lines_acc stdin acc :
  Cli.read_lines stdin acc = (acc ++ (Cli.read_lines stdin []).1, (Cli.read_lines stdin []).2).
Proof.
  revert acc. induction stdin as [|ln rest IH]; intros acc; cbn [Cli.read_lines].
  - by rewrite app_nil_r.
  - destruct (bool_decide (ln = ".")); [by rewrite app_nil_r|].
    rewrite (IH (acc ++ [ln])), (IH ([] ++ [ln])). cbn. by rewrite <- app_assoc.
Qed.

(** [interactive_lines] takes the lines up to the first line that is a single
    dot, which it drops, and leaves the input after it; when no such line
    comes it takes all the input and ends without an error.  The lines taken
    never hold a single dot. *)
Theorem interactive_lines_reads (taken rest : list string) :
  "." ∉ taken →
  Cli.interactive_lines (taken ++ "." :: rest) = ([Cli.PROMPT], (taken, rest)) ∧
  Cli.interactive_lines taken = ([Cli.PROMPT], (taken, [])).
Proof.
  intros Hdot. unfold Cli.interactive_lines.
  induction taken as [|ln taken IH]; [done|].
  apply not_elem_of_cons in Hdot as [Hne Hdot]. destruct (IH Hdot) as [IH1 IH2].
  injection IH1 as IH1. injection IH2 as IH2.
  cbn [app Cli.read_lines]. rewrite bool_decide_eq_false_2 by done.
  rewrite !(read_lines_acc _ ([] ++ [ln])), IH1, IH2. done.
Qed.

(** * The properties at the sample states *)

Ltac decided := apply (bool_decide_unpack _); vm_compute; exact I.

Lemma create_file_effect_witness :
  ∃ s', create_file Sample.dir Sample.dump 5 "b.txt" false Sample.filled = (Ok tt, s') ∧
        lookup_path Sample.dir (Sample.dir ++ ["b.txt"]) s' = Some (File "" 5 5) ∧
        show_file Sample.dir "b.txt" s' = (Ok [], s').
Proof.
  destruct (create_file_effect Sample.dir Sample.dump 5 6 "b.txt" false Sample.filled
    (Sample.dir ++ ["b.txt"])) as (s' & Hc & Hl & _ & _ & Hs & _).
  - decided.
  - reflexivity.
  - vm_compute. discriminate.
  - left. vm_compute. reflexivity.
  - split; vm_compute; discriminate.
  - exists s'. split; [exact Hc|]. split; [exact Hl|exact Hs].
Defined.

Lemma create_file_existing_witness :
  create_file Sample.dir Sample.dump 5 "a.txt" false Sample.filled
    = (Raise FileExistsError, Sample.filled).
Proof.
  apply (create_file_existing Sample.dir Sample.dump 5 "a.txt" Sample.filled
    (Sample.dir ++ ["a.txt"])).
  - decided.
  - reflexivity.
  - vm_compute. eexists. reflexivity.
Defined.

Lemma add_lines_effect_witness :
  ∃ s', add_lines Sample.dir Sample.dump 5 "a.txt" ["x"] Sample.filled = (Ok tt, s') ∧
        lookup_path Sample.dir (Sample.dir ++ ["a.txt"]) s'
          = Some (File ("line one" +:+ nl +:+ "another line" +:+ nl +:+ "final" +:+ nl
                        +:+ "x" +:+ nl) 5 5).
Proof.
  destruct (add_lines_effect Sample.dir Sample.dump 5 "a.txt" ["x"] Sample.filled
    (Sample.dir ++ ["a.txt"])
    ("line one" +:+ nl +:+ "another line" +:+ nl +:+ "final" +:+ nl) 2 2)
    as (s' & ct' & mt' & Ha & Hl & Ht & _).
  - reflexivity.
  - vm_compute. reflexivity.
  - vm_compute. discriminate.
  - split; vm_compute; discriminate.
  - destruct Ht as [-> ->]; [discriminate|].
    exists s'. split; [exact Ha|exact Hl].
Defined.

Lemma remove_line_effect_witness :
  ∃ s', remove_line Sample.dir Sample.dump 5 "a.txt" 2 Sample.filled
          = (Ok "another line", s') ∧
        show_file Sample.dir "a.txt" s' = (Ok ["line one"; "final"], s').
Proof.
  destruct (remove_line_effect Sample.dir Sample.dump 5 "a.txt" Sample.filled
    (Sample.dir ++ ["a.txt"])
    ("line one" +:+ nl +:+ "another line" +:+ nl +:+ "final" +:+ nl) 2 2
    1 ("another line" +:+ nl))
    as (s' & Hr & _ & _ & Hs & _).
  - reflexivity.
  - vm_compute. reflexivity.
  - vm_compute. discriminate.
  - split; vm_compute; discriminate.
  - vm_compute. reflexivity.
  - exists s'. split; [exact Hr|exact Hs].
Defined.

Lemma remove_file_effect_witness :
  let r := remove_file Sample.dir Sample.dump 5 "a.txt" Sample.filled in
  r.1 = Ok tt ∧
  show_file Sample.dir "a.txt" r.2 = (Raise FileNotFoundError, r.2) ∧
  dict_get (_index r.2) "a.txt" = None.
Proof.
  destruct (remove_file_effect Sample.dir Sample.dump 5 "a.txt" Sample.filled
    (Sample.dir ++ ["a.txt"])
    ("line one" +:+ nl +:+ "another line" +:+ nl +:+ "final" +:+ nl) 2 2)
    as (_ & Hok & _ & Hs & Hd).
  - reflexivity.
  - vm_compute. reflexivity.
  - vm_compute. discriminate.
  - decided.
  - cbv zeta. split; [|split; [exact Hs|exact Hd]].
    apply Hok. split; vm_compute; discriminate.
Defined.

Lemma missing_document_not_found_witness :
  show_file Sample.dir "b.txt" Sample.filled = (Raise FileNotFoundError, Sample.filled) ∧
  add_lines Sample.dir Sample.dump 5 "b.txt" ["x"] Sample.filled
    = (Raise FileNotFoundError, Sample.filled) ∧
  remove_file Sample.dir Sample.dump 5 "b.txt" Sample.filled
    = (Raise FileNotFoundError, Sample.filled).
Proof.
  destruct (missing_document_not_found Sample.dir Sample.dump 5 "b.txt" ["x"]
    Sample.filled (Sample.dir ++ ["b.txt"])) as (Hs & Ha & Hr & _).
  - reflexivity.
  - vm_compute. reflexivity.
  - split; [exact Hs|]. split; [exact Ha|exact Hr].
Defined.

Lemma init_rebuilds_witness :
  let r := __init__ Sample.dir Sample.dump Sample.load 5
             (mkState (entries Sample.filled) []) in
  _index r.2 = rebuilt_index (entries Sample.filled) ∧ r.1 = Ok tt.
Proof.
  destruct (init_rebuilds Sample.dir Sample.dump Sample.load 5
    (entries Sample.filled) []) as (Hi & Hok & _).
  - vm_compute. reflexivity.
  - cbv zeta. split; [exact Hi|]. apply Hok. split; vm_compute; discriminate.
Defined.

Lemma init_loads_witness :
  __init__ Sample.dir Sample.dump Reload.load 5 (mkState (entries Sample.filled) [])
    = (Ok tt, Sample.filled).
Proof.
  destruct (init_loads Sample.dir Sample.dump Reload.load 5 (entries Sample.filled) []
    Reload.text 2 2 (_index Sample.filled)) as (Hi & _ & Hraw).
  - vm_compute. reflexivity.
  - vm_compute. reflexivity.
  - rewrite Hi. reflexivity.
Defined.

Lemma persist_then_reload_witness :
  let s1 := Sample.after (_write_index Sample.dir Sample.dump 7) Sample.filled in
  __init__ Sample.dir Sample.dump Reload.load 8 (mkState (entries s1) [])
    = (Ok tt, mkState (entries s1) (_index Sample.filled)).
Proof.
  cbv zeta.
  apply (persist_then_reload Sample.dir Sample.dump Reload.load 7 8 Sample.filled
    (Sample.after (_write_index Sample.dir Sample.dump 7) Sample.filled) []).
  - vm_compute. reflexivity.
  - decided.
  - vm_compute. reflexivity.
Defined.

Lemma find_hits_are_lines_witness :
  ∃ lines, show_file Sample.dir "a.txt" Sample.filled = (Ok lines, Sample.filled) ∧
           lines !! 1 = Some "another line".
Proof.
  destruct (find_hits_are_lines Sample.dir lower "Another" true Sample.filled
    [("a.txt", 2, "another line")] "a.txt" 2 "another line")
    as (lines & Hs & _ & Hl).
  - vm_compute. reflexivity.
  - apply list_elem_of_here.
  - reflexivity.
  - discriminate.
  - discriminate.
  - exists lines. split; [exact Hs|exact Hl].
Defined.

Lemma find_text_empty_needle_witness :
  ∃ results, find_text lower "" true Sample.filled = (Ok results, Sample.filled) ∧
             ("a.txt", 1, "line one") ∈ results.
Proof.
  apply (find_text_empty_needle lower true Sample.filled "a.txt"
    ("line one" +:+ nl +:+ "another line" +:+ nl +:+ "final" +:+ nl) 2 2
    0 ("line one" +:+ nl)).
  - reflexivity.
  - vm_compute. reflexivity.
  - discriminate.
  - vm_compute. reflexivity.
Defined.

Lemma list_files_sorted_witness :
  filename <$> [mkFileMeta "a.txt" 2 2 28 []]
    = filter (λ n, is_document (entries Sample.filled) n)
        (sorted_iterdir (entries Sample.filled)) ∧
  length [mkFileMeta "a.txt" 2 2 28 []] = files_count (entries Sample.filled).
Proof.
  destruct (list_files_sorted Sample.dir Sample.dump 5 Sample.filled
    [mkFileMeta "a.txt" 2 2 28 []]
    (Sample.after (list_files Sample.dir Sample.dump 5) Sample.filled))
    as (Hn & _ & Hc & _).
  - vm_compute. reflexivity.
  - split; [exact Hn|exact Hc].
Defined.

Lemma add_then_remove_tag_witness :
  let s1 := (add_tag Sample.dir Sample.dump 5 "a.txt" "urgent" Sample.filled).2 in
  let s2 := (remove_tag Sample.dir Sample.dump 6 "a.txt" "urgent" s1).2 in
  get_meta "a.txt" s1 = (Ok (Some (mkFileMeta "a.txt" 1 2 28 ["urgent"])), s1) ∧
  _index s2 = _index Sample.filled.
Proof.
  destruct (add_then_remove_tag Sample.dir Sample.dump 5 6 "a.txt" "urgent"
    Sample.filled "a.txt" (mkFileMeta "a.txt" 1 2 28 [])) as (H1 & _ & H2).
  - reflexivity.
  - vm_compute. reflexivity.
  - apply not_elem_of_nil.
  - cbv zeta. split; [exact H1|exact H2].
Defined.

Lemma operations_keep_index_persisted_witness :
  index_persisted Sample.dump
    (Sample.after (add_lines Sample.dir Sample.dump 5 "a.txt" ["x"]) Sample.filled).
Proof.
  apply (proj1 (proj2 (operations_keep_index_persisted Sample.dir Sample.dump 5 "a.txt"
    Sample.filled
    (Sample.after (add_lines Sample.dir Sample.dump 5 "a.txt" ["x"]) Sample.filled)
    (ex_intro _ 2 (ex_intro _ 2 eq_refl)))) ["x"]).
  vm_compute. reflexivity.
Defined.

Lemma operations_keep_sizes_witness :
  sizes_agree
    (Sample.after (add_lines Sample.dir Sample.dump 5 "a.txt" ["x"])
       (mkState (entries Sample.filled) (rebuilt_index (entries Sample.filled)))).
Proof.
  apply (proj1 (proj2 (operations_keep_sizes Sample.dir Sample.dump 5 "a.txt"
    (mkState (entries Sample.filled) (rebuilt_index (entries Sample.filled)))
    (Sample.after (add_lines Sample.dir Sample.dump 5 "a.txt" ["x"])
       (mkState (entries Sample.filled) (rebuilt_index (entries Sample.filled))))
    (sizes_agree_rebuilt (entries Sample.filled)))) ["x"]).
  vm_compute. reflexivity.
Defined.

Lemma other_documents_untouched_witness :
  same_at "a.txt" Sample.filled
    (create_file Sample.dir Sample.dump 5 "b.txt" true Sample.filled).2 ∧
  same_at "a.txt" Sample.filled
    (remove_file Sample.dir Sample.dump 5 "b.txt" Sample.filled).2.
Proof.
  destruct (other_documents_untouched Sample.dir Sample.dump "a.txt"
    ltac:(discriminate) ltac:(discriminate) 5 "b.txt" Sample.filled)
    as (Hc & _ & _ & Hr & _).
  - vm_compute. discriminate.
  - split; [apply Hc|apply Hr; discriminate].
Defined.

Lemma interactive_lines_reads_witness :
  Cli.interactive_lines (["x"; "y"] ++ "." :: ["z"]) = ([Cli.PROMPT], (["x"; "y"], ["z"])) ∧
  Cli.interactive_lines ["x"; "y"] = ([Cli.PROMPT], (["x"; "y"], [])).
Proof.
  apply (interactive_lines_reads ["x"; "y"] ["z"]). decided.
Defined.
